(** * litebeam: the shard-assignment engine of [litebeam.go]

    A shallow embedding of the [Sharder] of [src/litebeam.go] and the proofs
    of its specification.  The hash-based [Litebeam] at the head of the file
    ([NewLitebeam], [NewShards], [AssignToShard]) keeps no metadata; it is
    modelled apart, in [Module Hashed].

    The metadata database [meta.db] holds one table,

      shards(shard_id INTEGER PRIMARY KEY, db_path TEXT NOT NULL UNIQUE,
             item_count INTEGER NOT NULL DEFAULT 0, created_at DATETIME)

    which is modelled as a finite map from [shard_id] to the row's [db_path]
    and [item_count]: the primary key makes the table a map.  Every SQL
    statement of the source is a function on that map ([Module SQL]).

    Modelling decisions:
    - Go's [int] is 64 bits wide; [nextShardID = int(maxID.Int64) + 1] and
      [MaxDBCount - 1] are written with their wrap-around ([wrap64]).
    - [item_count] arithmetic is SQLite's.  It is exact on the integers of
      64 bits; [item_count + 1] at 2^63 - 1 makes the column a REAL, which
      the table of the model, of integer counts, does not hold.  Theorems
      that read a count back after an increment assume the counts below
      2^63 - 1 ([counts_below_max]); [SUM(item_count)] is refused by the
      engine ("integer overflow") when a partial sum leaves the 64 bits.
    - [Sharder.Mutex] serialises the public operations, so each one is a
      function from the state before to the state after.  A transaction of
      the source holds one statement and commits, or is rolled back before
      it wrote.  In the operations as first defined the storage engine
      itself (opening files, beginning and committing transactions) is
      taken to work; [createAndRegisterNewShardOn] and
      [AssignItemToShardOn] follow the source through every error return,
      with the engine's answers as a parameter, and are the first ones when
      the engine works.
    - [created_at] is written by SQLite's clock and never read; it is left
      out, as are the log lines.
    - [InitSchemaFunc] is the caller's callback; it is a function from the
      path of the shard file it is handed to its optional error.
    - [GetDB], [GetShard] and [GetAllShards] read the table and open
      connections; a connection is the data source name it was opened on and
      the limit of its pool, and [sql.Open] is taken to succeed.  For
      [NewShards], whose driver reads the name when it is opened,
      [Hashed.NewShardsOn] has the driver's answer as a parameter.
    - [crypto/sha256] is a parameter of [AssignToShard]; what is used of it
      is that a hash has thirty-two bytes.
    - [Close] and [closeAll] close connections and leave everything else
      alone; they are not modelled. *)

From Stdlib Require Import ZArith Lia Ascii String DecimalString.
From Stdlib Require DecimalZ.
From Stdlib Require Strings.Byte.
From stdpp Require Import base option list sorting gmap fin_maps strings.

Local Open Scope string_scope.
Local Open Scope Z_scope.

(** ** Go's [int] *)

Module GoInt.

Definition min_int : Z := - 2 ^ 63.
Definition max_int : Z := 2 ^ 63 - 1.

(** The value of a 64-bit two's complement result. *)
Definition wrap64 (z : Z) : Z := (z + 2 ^ 63) mod 2 ^ 64 - 2 ^ 63.

Definition add (a b : Z) : Z := wrap64 (a + b).
Definition sub (a b : Z) : Z := wrap64 (a - b).

Definition in_range (z : Z) : Prop := min_int <= z <= max_int.

End GoInt.

(** ** Paths and formatting: [fmt.Sprintf], [filepath.Join] *)

Module Path.

(** [%d] of an [int]. *)
Definition itoa (z : Z) : string := NilZero.string_of_int (Z.to_int z).

(** The elements of a path between its separators, left to right. *)
Fixpoint split_from (cur : string) (p : string) : list string :=
  match p with
  | EmptyString => [cur]
  | String c rest =>
      if Ascii.eqb c "/" then cur :: split_from "" rest
      else split_from (cur ++ String c "") rest
  end.

Definition split (p : string) : list string := split_from "" p.

(** [filepath.Clean], on a stack of elements (the last one first): empty
    elements and [.] are dropped, [..] removes the element before it when
    there is one, is dropped at the root and kept otherwise. *)
Fixpoint clean_elems (rooted : bool) (stack : list string)
         (elems : list string) : list string :=
  match elems with
  | [] => stack
  | e :: rest =>
      if String.eqb e "" || String.eqb e "." then clean_elems rooted stack rest
      else if String.eqb e ".." then
        match stack with
        | top :: below =>
            if String.eqb top ".." then clean_elems rooted (e :: stack) rest
            else clean_elems rooted below rest
        | [] =>
            if rooted then clean_elems rooted [] rest
            else clean_elems rooted [e] rest
        end
      else clean_elems rooted (e :: stack) rest
  end.

Definition is_rooted (p : string) : bool :=
  match p with
  | String c _ => Ascii.eqb c "/"
  | EmptyString => false
  end.

Definition Clean (p : string) : string :=
  let rooted := is_rooted p in
  let out := String.concat "/" (rev (clean_elems rooted [] (split p))) in
  if rooted then "/" ++ out
  else if String.eqb out "" then "." else out.

(** [filepath.Join] of two elements: the non-empty ones, joined by a
    separator and cleaned; the empty string when both are empty. *)
Definition Join (a b : string) : string :=
  match String.eqb a "", String.eqb b "" with
  | true, true => ""
  | true, false => Clean b
  | false, true => Clean a
  | false, false => Clean (a ++ "/" ++ b)
  end.

End Path.

(** ** The data model *)

(** A row of the table [shards], without its key. *)
Record ShardRow := mkShardRow {
  db_path : string;
  item_count : Z
}.

Definition with_item_count (n : Z) (r : ShardRow) : ShardRow :=
  {| db_path := db_path r; item_count := n |}.

(** The errors the operations return; [ErrWrap] is [fmt.Errorf("...: %w", err)]. *)
Inductive error :=
| ErrBasePathEmpty
| ErrSoftCap
| ErrMaxDBCount
| ErrGenerationMode (mode : string)
| ErrBalancingMode (mode : string)
| ErrNoRows
| ErrConstraint
| ErrMaxShards (maxDBCount : Z)
| ErrInitSchema (msg : string)
| ErrConfigBalancing (mode : string)
| ErrShardNotFound (shardID : Z)
| ErrIntegerOverflow
| ErrStorage (msg : string)
| ErrWrap (context : string) (cause : error).

Inductive result (A : Type) :=
| Ok (a : A)
| Err (e : error).
Arguments Ok {A} a.
Arguments Err {A} e.

Record Config := mkConfig {
  BasePath : string;
  SoftCap : Z;
  MaxDBCount : Z;
  BalancingMode : string;
  GenerationMode : string;
  InitSchemaFunc : option (string → option string)
}.

Record Sharder := mkSharder {
  SConfig : Config;
  MetaDB : gmap Z ShardRow
}.

Definition dbFilePattern (shardID : Z) : string :=
  "shard_" ++ Path.itoa shardID ++ ".db".

(** ** The SQL statements of the source, on the table as a map *)

Module SQL.

(** [ORDER BY ... LIMIT 1] over the rows that satisfy [keep]: the kept row
    that no other kept row comes before. *)
Definition first_row (keep : Z → ShardRow → bool)
           (before : Z * ShardRow → Z * ShardRow → bool)
           (t : gmap Z ShardRow) : option (Z * ShardRow) :=
  map_fold (λ id r best,
              if keep id r then
                match best with
                | None => Some (id, r)
                | Some b => if before (id, r) b then Some (id, r) else Some b
                end
              else best) None t.

(** [ORDER BY shard_id] *)
Definition by_id (a b : Z * ShardRow) : bool := a.1 <? b.1.

(** [ORDER BY item_count ASC, shard_id ASC] *)
Definition by_count_id (a b : Z * ShardRow) : bool :=
  (item_count a.2 <? item_count b.2)
  || ((item_count a.2 =? item_count b.2) && (a.1 <? b.1)).

(** [SELECT COUNT( * ) FROM shards] *)
Definition count_all (t : gmap Z ShardRow) : Z := Z.of_nat (size t).

(** [SELECT COUNT( * ) FROM shards WHERE shard_id = ?] *)
Definition count_shard (shardID : Z) (t : gmap Z ShardRow) : Z :=
  match t !! shardID with Some _ => 1 | None => 0 end.

(** [SELECT shard_id FROM shards WHERE item_count < ? ORDER BY shard_id LIMIT 1] *)
Definition select_with_room (softCap : Z) (t : gmap Z ShardRow) : option Z :=
  fst <$> first_row (λ _ r, item_count r <? softCap) by_id t.

(** [SELECT shard_id FROM shards ORDER BY item_count ASC, shard_id ASC],
    first row (with or without [LIMIT 1], [QueryRow] scans the first). *)
Definition select_least_loaded (t : gmap Z ShardRow) : option Z :=
  fst <$> first_row (λ _ _, true) by_count_id t.

(** [SELECT MAX(shard_id) FROM shards]: [NULL] on the empty table. *)
Definition max_shard_id (t : gmap Z ShardRow) : option Z :=
  map_fold (λ id _ best,
              match best with
              | None => Some id
              | Some b => Some (Z.max id b)
              end) None t.

(** [SELECT item_count FROM shards WHERE shard_id = ?] *)
Definition select_item_count (shardID : Z) (t : gmap Z ShardRow) : option Z :=
  item_count <$> t !! shardID.

(** The rows as a scan of the table meets them: by [shard_id], which is the
    rowid of the table. *)
Definition id_le (a b : Z * ShardRow) : Prop := a.1 <= b.1.

#[global] Instance id_le_dec (a b : Z * ShardRow) : Decision (id_le a b) :=
  decide (a.1 <= b.1).

Definition rows_in_order (t : gmap Z ShardRow) : list (Z * ShardRow) :=
  merge_sort id_le (map_to_list t).

(** The sum of 64-bit integers as [SUM] runs it: [None] as soon as a
    partial sum leaves the 64 bits. *)
Fixpoint sum_int64 (acc : Z) (xs : list Z) : option Z :=
  match xs with
  | [] => Some acc
  | x :: rest =>
      if (GoInt.min_int <=? acc + x) && (acc + x <=? GoInt.max_int)
      then sum_int64 (acc + x) rest
      else None
  end.

(** [SELECT SUM(item_count) FROM shards]: [NULL] on the empty table, and the
    error "integer overflow" when a partial sum does not fit 64 bits. *)
Definition sum_item_count (t : gmap Z ShardRow) : result (option Z) :=
  if decide (size t = 0%nat) then Ok None
  else
    match sum_int64 0 ((λ row, item_count row.2) <$> rows_in_order t) with
    | Some n => Ok (Some n)
    | None => Err ErrIntegerOverflow
    end.

(** Does a row hold this [db_path]? *)
Definition path_taken (path : string) (t : gmap Z ShardRow) : bool :=
  map_fold (λ _ r acc, String.eqb (db_path r) path || acc) false t.

(** [INSERT INTO shards (shard_id, db_path, item_count) VALUES (?, ?, 0)]:
    refused when the key or the path is taken. *)
Definition insert_shard (shardID : Z) (path : string)
           (t : gmap Z ShardRow) : option (gmap Z ShardRow) :=
  match t !! shardID with
  | Some _ => None
  | None =>
      if path_taken path t then None
      else Some (<[shardID := mkShardRow path 0]> t)
  end.

(** [UPDATE shards SET item_count = item_count + 1 WHERE shard_id = ?]:
    exact for a count below 2^63 - 1, where SQLite stays in the integers. *)
Definition increment (shardID : Z) (t : gmap Z ShardRow) : gmap Z ShardRow :=
  alter (λ r, with_item_count (item_count r + 1) r) shardID t.

(** [UPDATE shards SET item_count = 1 WHERE shard_id = ?] *)
Definition set_one (shardID : Z) (t : gmap Z ShardRow) : gmap Z ShardRow :=
  alter (with_item_count 1) shardID t.

(** [UPDATE shards SET item_count = MAX(item_count - 1, 0) WHERE shard_id = ?] *)
Definition decrement (shardID : Z) (t : gmap Z ShardRow) : gmap Z ShardRow :=
  alter (λ r, with_item_count (Z.max (item_count r - 1) 0) r) shardID t.

End SQL.

(** ** Operations on a [Sharder]: state and errors *)

Definition M (A : Type) : Type := Sharder → result A * Sharder.

Definition ret {A} (a : A) : M A := λ s, (Ok a, s).

Definition bind {A B} (m : M A) (k : A → M B) : M B :=
  λ s, match m s with
       | (Ok a, s') => k a s'
       | (Err e, s') => (Err e, s')
       end.

Definition fail {A} (e : error) : M A := λ s, (Err e, s).

Definition config : M Config := λ s, (Ok (SConfig s), s).

(** A [SELECT] on [MetaDB]. *)
Definition query {A} (q : gmap Z ShardRow → A) : M A := λ s, (Ok (q (MetaDB s)), s).

(** A [SELECT] on [MetaDB] that the engine can refuse. *)
Definition scan {A} (q : gmap Z ShardRow → result A) : M A := λ s, (q (MetaDB s), s).

(** An [UPDATE] on [MetaDB], committed. *)
Definition exec (u : gmap Z ShardRow → gmap Z ShardRow) : M unit :=
  λ s, (Ok tt, mkSharder (SConfig s) (u (MetaDB s))).

(** [fmt.Errorf(context + ": %w", err)] on the way out. *)
Definition wrap {A} (context : string) (m : M A) : M A :=
  λ s, match m s with
       | (Err e, s') => (Err (ErrWrap context e), s')
       | r => r
       end.

Declare Scope sharder_scope.
Delimit Scope sharder_scope with sharder.
Notation "x <- m ;; k" := (bind m (λ x, k))
  (at level 100, m at next level, right associativity) : sharder_scope.
Notation "m ;;; k" := (bind m (λ _, k))
  (at level 100, right associativity) : sharder_scope.
Local Open Scope sharder_scope.

(** [createAndRegisterNewShard] (lines 356-423), with a storage engine that
    works; [createAndRegisterNewShardOn] keeps the engine's errors. *)
Definition createAndRegisterNewShard (shardID : Z) : M unit :=
  currentCount <- query SQL.count_all ;;
  c <- config ;;
  if currentCount >=? MaxDBCount c then fail (ErrMaxShards (MaxDBCount c))
  else
    exists_ <- query (SQL.count_shard shardID) ;;
    if exists_ >? 0 then ret tt
    else
      let dbPath := Path.Join (BasePath c) (dbFilePattern shardID) in
      match InitSchemaFunc c with
      | Some init =>
          match init dbPath with
          | Some msg =>
              fail (ErrWrap ("failed to initialize schema for shard " ++ Path.itoa shardID)
                            (ErrInitSchema msg))
          | None => ret tt
          end
      | None => ret tt
      end ;;;
      λ s, match SQL.insert_shard shardID dbPath (MetaDB s) with
           | Some t' => (Ok tt, mkSharder (SConfig s) t')
           | None =>
               (Err (ErrWrap ("failed to insert shard " ++ Path.itoa shardID ++ " metadata")
                             ErrConstraint), s)
           end.

(** [ensureShardExists] (lines 281-300). *)
Definition ensureShardExists (shardID : Z) : M Z :=
  exists_ <- query (SQL.count_shard shardID) ;;
  if exists_ =? 0 then
    wrap ("failed to create shard " ++ Path.itoa shardID)
         (createAndRegisterNewShard shardID) ;;;
    ret shardID
  else ret shardID.

(** [GetShardCount] (lines 668-678). *)
Definition GetShardCount : M Z := query SQL.count_all.

(** The loop of [setUpShards], [for i := count; i < MaxDBCount; i++], with
    the number of iterations left. *)
Fixpoint createShardsFrom (left : nat) (i : Z) : M unit :=
  match left with
  | O => ret tt
  | S left' =>
      wrap ("failed to generate shard " ++ Path.itoa i ++ " on startup")
           (createAndRegisterNewShard i) ;;;
      createShardsFrom left' (i + 1)
  end.

(** [setUpShards] (lines 314-351). *)
Definition setUpShards : M unit :=
  c <- config ;;
  if String.eqb (GenerationMode c) "dynamic" then
    shardID <- wrap "failed to check existence of shard 0" (ensureShardExists 0) ;;
    if shardID >? 0 then ret tt
    else
      wrap "failed to generate intial shard on dynamic startup"
           (createAndRegisterNewShard 0)
  else if String.eqb (GenerationMode c) "on-startup" then
    count <- GetShardCount ;;
    if count >=? MaxDBCount c then ret tt
    else createShardsFrom (Z.to_nat (MaxDBCount c - count)) count
  else ret tt.

(** The checks and defaults at the head of [NewSharder] (lines 204-237). *)
Definition checkConfig (c : Config) : result Config :=
  if String.eqb (BasePath c) "" then Err ErrBasePathEmpty
  else if SoftCap c <=? 0 then Err ErrSoftCap
  else if MaxDBCount c <=? 0 then Err ErrMaxDBCount
  else
    let generation :=
      if String.eqb (GenerationMode c) "" then Ok "dynamic"
      else if String.eqb (GenerationMode c) "dynamic" then Ok "dynamic"
      else if String.eqb (GenerationMode c) "on-startup" then Ok "on-startup"
      else Err (ErrGenerationMode (GenerationMode c)) in
    match generation with
    | Err e => Err e
    | Ok g =>
        let balancing :=
          if String.eqb (BalancingMode c) "" then Ok "fill"
          else if String.eqb (BalancingMode c) "fill" then Ok "fill"
          else if String.eqb (BalancingMode c) "round-robin" then Ok "round-robin"
          else Err (ErrBalancingMode (BalancingMode c)) in
        match balancing with
        | Err e => Err e
        | Ok b =>
            Ok (mkConfig (BasePath c) (SoftCap c) (MaxDBCount c) b g (InitSchemaFunc c))
        end
    end.

(** [NewSharder] (lines 203-274).  [disk] is the table of [meta.db] under
    [BasePath] as the call finds it, empty when the file is not there
    ([initMetadataSchema] runs [CREATE TABLE IF NOT EXISTS], which keeps a
    table that is there); the second component is the table the call leaves
    on disk. *)
Definition NewSharder (c : Config) (disk : gmap Z ShardRow)
  : result Sharder * gmap Z ShardRow :=
  match checkConfig c with
  | Err e => (Err e, disk)
  | Ok c' =>
      match setUpShards (mkSharder c' disk) with
      | (Ok _, s) => (Ok s, MetaDB s)
      | (Err e, s) =>
          (Err (ErrWrap "failed to ensure initial shard 0 exists" e), MetaDB s)
      end
  end.

(** [AssignItemToShard] (lines 427-543), with a storage engine that works;
    [AssignItemToShardOn] keeps the engine's errors. *)
Definition AssignItemToShard : M Z :=
  c <- config ;;
  if String.eqb (BalancingMode c) "round-robin" then
    target <- query SQL.select_least_loaded ;;
    match target with
    | None => fail (ErrWrap "failed to determine next shard ID" ErrNoRows)
    | Some targetShardID =>
        exec (SQL.increment targetShardID) ;;;
        ret targetShardID
    end
  else if String.eqb (BalancingMode c) "fill" then
    target <- query (SQL.select_with_room (SoftCap c)) ;;
    match target with
    | Some targetShardID =>
        exec (SQL.increment targetShardID) ;;;
        ret targetShardID
    | None =>
        maxID <- query SQL.max_shard_id ;;
        let nextShardID :=
          match maxID with
          | Some m => GoInt.add m 1
          | None => 0
          end in
        if nextShardID >? GoInt.sub (MaxDBCount c) 1 then
          target' <- query SQL.select_least_loaded ;;
          match target' with
          | None =>
              fail (ErrWrap "failed to determine next shard ID where shards are exhausted"
                            ErrNoRows)
          | Some targetShardID =>
              exec (SQL.increment targetShardID) ;;;
              ret targetShardID
          end
        else
          createAndRegisterNewShard nextShardID ;;;
          exec (SQL.set_one nextShardID) ;;;
          ret nextShardID
    end
  else fail (ErrConfigBalancing (BalancingMode c)).

(** [RemoveItemFromShard] (lines 545-566). *)
Definition RemoveItemFromShard (ID : Z) : M unit :=
  exec (SQL.decrement ID).

(** [GetItemCount] (lines 635-648). *)
Definition GetItemCount (shardID : Z) : M Z :=
  count <- query (SQL.select_item_count shardID) ;;
  match count with
  | Some n => ret n
  | None => fail (ErrShardNotFound shardID)
  end.

(** [GetTotalItemCount] (lines 651-665). *)
Definition GetTotalItemCount : M Z :=
  total <- wrap "failed to query total item_count" (scan SQL.sum_item_count) ;;
  match total with
  | Some n => ret n
  | None => ret 0
  end.

(** * Specification vocabulary

    ** Selection and totals *)

(** The registered shard that sorts first by [item_count], then by
    [shard_id]. *)
Definition least_loaded (t : gmap Z ShardRow) (id : Z) : Prop :=
  ∃ r, t !! id = Some r ∧
       ∀ id' r', t !! id' = Some r' →
                 item_count r < item_count r'
                 ∨ (item_count r = item_count r' ∧ id <= id').

(** The registered shard of lowest [shard_id] among those under the cap. *)
Definition first_with_room (softCap : Z) (t : gmap Z ShardRow) (id : Z) : Prop :=
  ∃ r, t !! id = Some r ∧ item_count r < softCap ∧
       ∀ id' r', t !! id' = Some r' → item_count r' < softCap → id <= id'.

(** [m] is the largest registered [shard_id]. *)
Definition max_registered (t : gmap Z ShardRow) (m : Z) : Prop :=
  is_Some (t !! m) ∧ ∀ id, is_Some (t !! id) → id <= m.

(** The candidate identifier of the fill path, [MAX(shard_id) + 1] on Go's
    [int], 0 on the empty table. *)
Definition nextShardID (t : gmap Z ShardRow) : Z :=
  match SQL.max_shard_id t with
  | Some m => GoInt.add m 1
  | None => 0
  end.

(** [SUM(item_count)] as a number: 0 on the empty table. *)
Definition total_items (t : gmap Z ShardRow) : Z :=
  map_fold (λ _ r acc, item_count r + acc) 0 t.

(** The row an assignment leaves in place of [r]. *)
Definition assigned (r : ShardRow) : ShardRow :=
  with_item_count (item_count r + 1) r.

(** [GetItemCount] over the registered shards, added up. *)
Definition sum_GetItemCount (s : Sharder) : Z :=
  map_fold (λ id _ acc,
              match (GetItemCount id s).1 with
              | Ok n => n + acc
              | Err _ => acc
              end) 0 (MetaDB s).

(** ** Configurations *)

(** The mode strings [NewSharder] knows. *)
Definition recognized_generation (g : string) : Prop :=
  g = "dynamic" ∨ g = "on-startup".

Definition recognized_balancing (b : string) : Prop :=
  b = "fill" ∨ b = "round-robin".

(** What an empty mode string stands for. *)
Definition default_if_empty (default mode : string) : string :=
  if String.eqb mode "" then default else mode.

(** The configuration with the empty modes replaced by their defaults. *)
Definition with_default_modes (c : Config) : Config :=
  mkConfig (BasePath c) (SoftCap c) (MaxDBCount c)
           (default_if_empty "fill" (BalancingMode c))
           (default_if_empty "dynamic" (GenerationMode c))
           (InitSchemaFunc c).

(** What [NewSharder] checks before it touches the disk. *)
Definition valid_config (c : Config) : Prop :=
  BasePath c ≠ "" ∧ 0 < SoftCap c ∧ 0 < MaxDBCount c
  ∧ (GenerationMode c = "" ∨ recognized_generation (GenerationMode c))
  ∧ (BalancingMode c = "" ∨ recognized_balancing (BalancingMode c)).

(** The callback accepts the new shard file. *)
Definition init_accepts (c : Config) (path : string) : Prop :=
  match InitSchemaFunc c with
  | Some init => init path = None
  | None => True
  end.

(** The callback, when there is one, accepts every shard file. *)
Definition init_never_fails (init : option (string → option string)) : Prop :=
  ∀ f path, init = Some f → f path = None.

(** ** Tables and the states a [Sharder] goes through *)

(** [t'] is [t] with rows of count 0 added, each one while fewer than
    [maxDB] rows were registered and under an id below [maxDB]. *)
Inductive provisioned (maxDB : Z) (t : gmap Z ShardRow) : gmap Z ShardRow → Prop :=
| provisioned_refl : provisioned maxDB t t
| provisioned_step t' id path :
    provisioned maxDB t t' →
    GoInt.min_int <= id < maxDB →
    t' !! id = None →
    SQL.count_all t' < maxDB →
    provisioned maxDB t (<[id := mkShardRow path 0]> t').

(** Identifiers fit Go's [int] with room for the next one, and counts are
    not negative. *)
Definition wf_table (t : gmap Z ShardRow) : Prop :=
  ∀ id r, t !! id = Some r →
          GoInt.min_int <= id < GoInt.max_int ∧ 0 <= item_count r.

(** The states a [Sharder] goes through, whether its calls succeed or fail:
    the two public mutators and, for the package's own callers, the two
    creation routines. *)
Inductive reachable (s0 : Sharder) : Sharder → Prop :=
| reach_start : reachable s0 s0
| reach_assign s : reachable s0 s → reachable s0 (AssignItemToShard s).2
| reach_remove s ID : reachable s0 s → reachable s0 (RemoveItemFromShard ID s).2
| reach_create s shardID :
    reachable s0 s → reachable s0 (createAndRegisterNewShard shardID s).2
| reach_ensure s shardID :
    reachable s0 s → reachable s0 (ensureShardExists shardID s).2.

(** ** Sequences of the public mutators *)

(** The two public mutators. *)
Inductive op :=
| OpAssign
| OpRemove (ID : Z).

(** One call, its result dropped. *)
Definition do_op (o : op) : M unit :=
  match o with
  | OpAssign => (_ <- AssignItemToShard ;; ret tt)
  | OpRemove ID => RemoveItemFromShard ID
  end.

(** A sequence of calls, up to the first that fails. *)
Fixpoint run_ops (ops : list op) (s : Sharder) : result Sharder :=
  match ops with
  | [] => Ok s
  | o :: rest =>
      match do_op o s with
      | (Ok _, s') => run_ops rest s'
      | (Err e, _) => Err e
      end
  end.

(** The assignments and the removals in a sequence. *)
Fixpoint num_assigns (ops : list op) : Z :=
  match ops with
  | [] => 0
  | OpAssign :: rest => 1 + num_assigns rest
  | OpRemove _ :: rest => num_assigns rest
  end.

Fixpoint num_removes (ops : list op) : Z :=
  match ops with
  | [] => 0
  | OpAssign :: rest => num_removes rest
  | OpRemove _ :: rest => 1 + num_removes rest
  end.

(** Does a removal find its shard registered with an item to take away? *)
Definition takes_item (ID : Z) (t : gmap Z ShardRow) : bool :=
  match t !! ID with
  | Some r => 0 <? item_count r
  | None => false
  end.

(** The removals of a sequence that found an item to take away. *)
Fixpoint num_removes_taking (ops : list op) (s : Sharder) : Z :=
  match ops with
  | [] => 0
  | o :: rest =>
      match o with
      | OpRemove ID => if takes_item ID (MetaDB s) then 1 else 0
      | OpAssign => 0
      end + num_removes_taking rest (do_op o s).2
  end.

(** [n] calls of [AssignItemToShard], with what each returned. *)
Fixpoint assign_times (n : nat) (s : Sharder) : list (result Z) * Sharder :=
  match n with
  | O => ([], s)
  | S n' =>
      let (r, s') := AssignItemToShard s in
      let (rs, s'') := assign_times n' s' in
      (r :: rs, s'')
  end.

(** [GetItemCount] of each of [ids]. *)
Definition item_counts (ids : list Z) (s : Sharder) : list (result Z) :=
  map (λ id, (GetItemCount id s).1) ids.

(** ** Shard files *)

(** No separator in it. *)
Fixpoint no_separator (p : string) : bool :=
  match p with
  | EmptyString => true
  | String c rest => negb (Ascii.eqb c "/") && no_separator rest
  end.

(** A path element that [filepath.Clean] keeps as it is. *)
Definition file_name (name : string) : bool :=
  no_separator name
  && negb (String.eqb name "") && negb (String.eqb name ".")
  && negb (String.eqb name "..").

(** The cleaned directory part that [filepath.Join] puts before a file name. *)
Definition dir_of (base : string) : string :=
  let kept := rev (Path.clean_elems (Path.is_rooted base) [] (Path.split base)) in
  ((if Path.is_rooted base then "/" else "")
   ++ match kept with
      | [] => ""
      | _ => String.concat "/" kept ++ "/"
      end)%string.

(** The file of a shard: [filepath.Join(BasePath, shard_<id>.db)]. *)
Definition shard_path (base : string) (shardID : Z) : string :=
  Path.Join base (dbFilePattern shardID).

(** Shards [0 .. n-1], each with its file under [base] and no item. *)
Fixpoint fresh_shards (base : string) (n : nat) : gmap Z ShardRow :=
  match n with
  | O => ∅
  | S k =>
      <[Z.of_nat k := mkShardRow (shard_path base (Z.of_nat k)) 0]>
        (fresh_shards base k)
  end.

(** ** Configurations and states of the scenarios *)

(** Scenario A: fill, soft cap 2, five shards, all made at start. *)
Definition scenario_A : Config := mkConfig "./tests" 2 5 "fill" "on-startup" None.

(** Scenario A under any base path and any callback that does not fail. *)
Definition scenario_A_under (base : string)
           (init : option (string → option string)) : Config :=
  mkConfig base 2 5 "fill" "on-startup" init.

(** The same directory opened again under a lower maximum. *)
Definition reopened_with_two : Config := mkConfig "./tests" 2 2 "fill" "on-startup" None.

(** [TestNewSharder]: base path, soft cap and maximum only. *)
Definition test_config : Config := mkConfig "./tests" 100 10 "" "" None.

(** [TestNewShard]: its balancing mode is spelled with a double b. *)
Definition test_config_round_robbin : Config :=
  mkConfig "./tests" 2 5 "round-robbin" "on-startup" None.

(** Dynamic start with [MaxDBCount = 1]: a valid configuration. *)
Definition dynamic_single_shard : Config :=
  mkConfig "./tests" 2 1 "fill" "dynamic" None.

(** The same with both modes left empty. *)
Definition empty_modes_single_shard : Config :=
  mkConfig "./tests" 2 1 "" "" None.

(** One shard registered under [MaxDBCount = 1]: the table [NewSharder]
    holds in dynamic mode after [ensureShardExists(0)]. *)
Definition single_shard_at_ceiling : Sharder :=
  mkSharder (mkConfig "./tests" 2 1 "fill" "dynamic" None)
            {[ 0 := mkShardRow "tests/shard_0.db" 0 ]}.

(** Shards [first, first+1, ...] under [./tests] with the given counts. *)
Fixpoint sample_rows (first : Z) (counts : list Z) : gmap Z ShardRow :=
  match counts with
  | [] => ∅
  | n :: rest =>
      <[first := mkShardRow (shard_path "./tests" first) n]>
        (sample_rows (first + 1) rest)
  end.

(** A [Sharder] over those rows: soft cap 2, [MaxDBCount] 5. *)
Definition sample (balancing : string) (counts : list Z) : Sharder :=
  mkSharder (mkConfig "./tests" 2 5 balancing "on-startup" None)
            (sample_rows 0 counts).

(** ** Proof automation *)

(** Unfolds the monad of the operations. *)
Ltac run_op :=
  unfold bind, config, query, exec, ret, fail, wrap; cbn [SConfig MetaDB fst snd].

(** ** A directory in use *)

(** The registered identifiers are [0 .. count-1]. *)
Definition contiguous (t : gmap Z ShardRow) : Prop :=
  ∀ id, is_Some (t !! id) ↔ 0 <= id < SQL.count_all t.

(** Every row holds the path of its own shard file under [base]. *)
Definition own_paths (base : string) (t : gmap Z ShardRow) : Prop :=
  ∀ id r, t !! id = Some r → db_path r = shard_path base id.

Definition counts_not_negative (t : gmap Z ShardRow) : Prop :=
  ∀ id r, t !! id = Some r → 0 <= item_count r.

(** The shape of the table of a directory that a [Sharder] under [c] made
    and uses: shards [0 .. count-1], at least one and at most [MaxDBCount],
    each with its own file and a count that is not negative. *)
Definition in_use (c : Config) (t : gmap Z ShardRow) : Prop :=
  contiguous t ∧ own_paths (BasePath c) t ∧ counts_not_negative t
  ∧ 0 < SQL.count_all t <= MaxDBCount c.

(** The state after a sequence of calls, failed ones included. *)
Fixpoint after_ops (ops : list op) (s : Sharder) : Sharder :=
  match ops with
  | [] => s
  | o :: rest => after_ops rest (do_op o s).2
  end.

(** Any two shards' counts differ by at most one. *)
Definition balanced (t : gmap Z ShardRow) : Prop :=
  ∀ id r id' r', t !! id = Some r → t !! id' = Some r' →
                 item_count r <= item_count r' + 1.

(** ** Handles on the shard files: [GetDB], [GetShard], [GetAllShards] *)

(** The options [GetDB] appends to the path of a shard file. *)
Definition dbConnOptions : string :=
  "?_journal_mode=WAL&_synchronous=NORMAL&_busy_timeout=5000".

(** A [*sql.DB]: the data source name it was opened on and the limit of its
    pool of connections (0 is no limit, the default of [sql.Open]). *)
Record DB := mkDB {
  DSN : string;
  MaxOpenConns : Z
}.

Definition sql_Open (dataSourceName : string) : DB := mkDB dataSourceName 0.

(** [sql.Open] on a driver that reads the data source name as it is handed
    over: [driver u] is the error for a name the driver refuses. *)
Definition sql_OpenOn (driver : string → option string) (dataSourceName : string)
  : string + DB :=
  match driver dataSourceName with
  | Some err => inl err
  | None => inr (sql_Open dataSourceName)
  end.

Definition SetMaxOpenConns (n : Z) (db : DB) : DB := mkDB (DSN db) n.

Record Shard := mkShard {
  Writer : DB;
  Reader : DB
}.

(** The errors of the handle functions. *)
Inductive handle_error :=
| ErrNotInMetadata (shardID : Z)
| ErrEmptyPath (shardID : Z)
| ErrCountShards (cause : error)
| ErrGetShard (cause : handle_error).

(** [SELECT db_path FROM shards WHERE shard_id = ?] *)
Definition select_db_path (shardID : Z) (t : gmap Z ShardRow) : option string :=
  db_path <$> t !! shardID.

(** [GetDB] (lines 568-593).  It reads the table under the read lock and
    leaves it alone, so it is a function of the [Sharder]. *)
Definition GetDB (shardID : Z) (s : Sharder) : handle_error + DB :=
  match select_db_path shardID (MetaDB s) with
  | None => inl (ErrNotInMetadata shardID)
  | Some dbPath =>
      if String.eqb dbPath "" then inl (ErrEmptyPath shardID)
      else inr (sql_Open (dbPath ++ dbConnOptions))
  end.

(** [GetShard] (lines 595-613). *)
Definition GetShard (shardID : Z) (s : Sharder) : handle_error + Shard :=
  match GetDB shardID s with
  | inl e => inl e
  | inr reader =>
      match GetDB shardID s with
      | inl e => inl e
      | inr writer => inr (mkShard (SetMaxOpenConns 1 writer) reader)
      end
  end.

(** [fmt.Sprintf("shard_%d", i)], the key of a shard in [GetAllShards]. *)
Definition shard_key (i : Z) : string := "shard_" ++ Path.itoa i.

(** The loop of [GetAllShards], [for i := range count], with the number of
    iterations left. *)
Fixpoint getShardsFrom (left : nat) (i : Z) (s : Sharder)
         (m : gmap string Shard) : handle_error + gmap string Shard :=
  match left with
  | O => inr m
  | S left' =>
      match GetShard i s with
      | inl e => inl (ErrGetShard e)
      | inr shard => getShardsFrom left' (i + 1) s (<[shard_key i := shard]> m)
      end
  end.

(** [GetAllShards] (lines 615-632). *)
Definition GetAllShards (s : Sharder) : handle_error + gmap string Shard :=
  match GetShardCount s with
  | (Err e, _) => inl (ErrCountShards e)
  | (Ok count, _) => getShardsFrom (Z.to_nat count) 0 s ∅
  end.

(** The handles [GetShard] gives on a shard file: the writer with one
    connection, the reader without a limit. *)
Definition shard_handles (dbPath : string) : Shard :=
  mkShard (mkDB (dbPath ++ dbConnOptions) 1) (mkDB (dbPath ++ dbConnOptions) 0).

(** ** [createDSN]: the data source name of a shard file *)

(** [net/url]: the bytes [QueryEscape] leaves as they are. *)
Definition is_unreserved (c : ascii) : bool :=
  let n := N_of_ascii c in
  ((48 <=? n) && (n <=? 57))%N || ((65 <=? n) && (n <=? 90))%N
  || ((97 <=? n) && (n <=? 122))%N
  || Ascii.eqb c "-" || Ascii.eqb c "_" || Ascii.eqb c "." || Ascii.eqb c "~".

Definition hex_char (table : string) (n : N) : ascii :=
  match String.get (N.to_nat n) table with
  | Some c => c
  | None => "0"%char
  end.

(** [url.QueryEscape] *)
Fixpoint QueryEscape (s : string) : string :=
  match s with
  | EmptyString => EmptyString
  | String c rest =>
      if is_unreserved c then String c (QueryEscape rest)
      else if Ascii.eqb c " " then String "+" (QueryEscape rest)
      else
        String "%"
          (String (hex_char "0123456789ABCDEF" (N_of_ascii c / 16))
             (String (hex_char "0123456789ABCDEF" (N_of_ascii c mod 16))
                (QueryEscape rest)))
  end.

(** [url.Values.Add]: the value goes after the ones its key has. *)
Fixpoint Values_Add (key value : string) (v : list (string * list string))
  : list (string * list string) :=
  match v with
  | [] => [(key, [value])]
  | (k, vs) :: rest =>
      if String.eqb k key then (k, (vs ++ [value])%list) :: rest
      else (k, vs) :: Values_Add key value rest
  end.

Fixpoint insert_by_key (e : string * list string) (sorted : list (string * list string))
  : list (string * list string) :=
  match sorted with
  | [] => [e]
  | e' :: rest =>
      if String.leb e.1 e'.1 then e :: sorted else e' :: insert_by_key e rest
  end.

(** [url.Values.Encode]: [key=value] pairs, escaped, joined by [&], the keys
    in sorted order. *)
Definition Values_Encode (v : list (string * list string)) : string :=
  String.concat "&"
    (flat_map (λ e, map (λ value, (QueryEscape e.1 ++ "=" ++ QueryEscape value)%string) e.2)
              (foldr insert_by_key [] v)).

(** [createDSN] (lines 132-142 and 302-312). *)
Definition createDSN (dbPath : string) : string :=
  let connectionUrlParams :=
    Values_Add "_foreign_keys" "true"
      (Values_Add "_cache_size" "1000000000"
         (Values_Add "_synchronous" "NORMAL"
            (Values_Add "_busy_timeout" "5000"
               (Values_Add "_journal_mode" "WAL"
                  (Values_Add "_txlock" "immediate" []))))) in
  (("file:" ++ dbPath ++ "?") ++ Values_Encode connectionUrlParams)%string.

(** ** The hash-based [Litebeam] (lines 20-130) *)

(** [hex.EncodeToString] *)
Fixpoint EncodeToString (src : list Byte.byte) : string :=
  match src with
  | [] => EmptyString
  | b :: rest =>
      String (hex_char "0123456789abcdef" (Byte.to_N b / 16))
        (String (hex_char "0123456789abcdef" (Byte.to_N b mod 16))
           (EncodeToString rest))
  end.

(** The value of a digit in base 16, in either case. *)
Definition hex_value (c : ascii) : option Z :=
  let n := N_of_ascii c in
  if ((48 <=? n) && (n <=? 57))%N then Some (Z.of_N n - 48)
  else if ((97 <=? n) && (n <=? 102))%N then Some (Z.of_N n - 87)
  else if ((65 <=? n) && (n <=? 70))%N then Some (Z.of_N n - 55)
  else None.

Fixpoint scan_digits (acc : Z) (s : string) : option Z :=
  match s with
  | EmptyString => Some acc
  | String c rest =>
      match hex_value c with
      | Some v => scan_digits (16 * acc + v) rest
      | None => None
      end
  end.

(** [SetString(s, 16)] of [big.Int]: an optional sign, then digits of base 16,
    at least one, to the end of the string. *)
Definition SetString16 (s : string) : option Z :=
  match s with
  | EmptyString => None
  | String c rest =>
      if Ascii.eqb c "-" then
        match rest with
        | EmptyString => None
        | _ => Z.opp <$> scan_digits 0 rest
        end
      else if Ascii.eqb c "+" then
        match rest with
        | EmptyString => None
        | _ => scan_digits 0 rest
        end
      else scan_digits 0 s
  end.

(** The number a sequence of bytes spells, the first byte the highest. *)
Definition big_endian (bytes : list Byte.byte) : Z :=
  fold_left (λ acc b, 256 * acc + Z.of_N (Byte.to_N b)) bytes 0.

Module Hashed.

Record Config := mkConfig {
  BasePath : string;
  TotalShards : Z;
  InitSchemaFunc : option (DB → option string)
}.

Record Litebeam := mkLitebeam {
  LConfig : Config;
  Shards : gmap Z Shard
}.

(** What a call comes to: a value, an error, or a run-time panic. *)
Inductive outcome (A : Type) :=
| Returns (a : A)
| Fails (msg : string)
| Panics.
Arguments Returns {A} a.
Arguments Fails {A} msg.
Arguments Panics {A}.

Fixpoint last_byte (s : string) : option ascii :=
  match s with
  | EmptyString => None
  | String c EmptyString => Some c
  | String _ rest => last_byte rest
  end.

(** [validateConfig] (lines 124-130): [c.BasePath[len(c.BasePath)-1]] is out
    of range on the empty string. *)
Definition validateConfig (c : Config) : outcome Config :=
  match last_byte (BasePath c) with
  | None => Panics
  | Some b =>
      if negb (Ascii.eqb b "/")
      then Returns (mkConfig (BasePath c ++ "/") (TotalShards c) (InitSchemaFunc c))
      else Returns c
  end.

(** The loop of [NewShards], [for i := 0; i < c.TotalShards; i++], with the
    number of iterations left, on a driver that accepts every data source
    name. *)
Fixpoint shardsFrom (left : nat) (i : Z) (c : Config) (shards : gmap Z Shard)
  : outcome (gmap Z Shard) :=
  match left with
  | O => Returns shards
  | S left' =>
      let val := i + 1 in
      let dbPath := (BasePath c ++ dbFilePattern val)%string in
      let u := createDSN dbPath in
      let db := SetMaxOpenConns 1 (sql_Open u) in
      match match InitSchemaFunc c with
            | Some init => init db
            | None => None
            end with
      | Some msg => Fails ("error initializing database: " ++ msg)
      | None =>
          let rdb := sql_Open u in
          shardsFrom left' (i + 1) c (<[val := mkShard db rdb]> shards)
      end
  end.

(** [NewShards] (lines 49-89). *)
Definition NewShards (c : Config) : outcome (gmap Z Shard) :=
  shardsFrom (Z.to_nat (TotalShards c)) 0 c ∅.

(** [NewLitebeam] (lines 36-47). *)
Definition NewLitebeam (c : Config) : outcome Litebeam :=
  match validateConfig c with
  | Returns conf =>
      match NewShards conf with
      | Returns s => Returns (mkLitebeam conf s)
      | Fails msg => Fails msg
      | Panics => Panics
      end
  | Fails msg => Fails msg
  | Panics => Panics
  end.

(** [AssignToShard] (lines 97-109).  [Sum256] is [crypto/sha256]'s.
    [big.Int.Mod] is the Euclidean modulus and panics on the divisor 0. *)
Definition AssignToShard (Sum256 : string → list Byte.byte) (l : Litebeam)
           (base : string) : outcome Z :=
  let hashHex := EncodeToString (Sum256 base) in
  match SetString16 hashHex with
  | None => Fails "failed to convert hash to integer"
  | Some bigIntHash =>
      if TotalShards (LConfig l) =? 0 then Panics
      else
        let mod_ := bigIntHash mod Z.abs (TotalShards (LConfig l)) in
        Returns (GoInt.add mod_ 1)
  end.

(** The loop of [NewShards] with the two [sql.Open] calls tested for their
    error, as the source does; [shardsFrom] above is this loop with a
    driver that accepts every name. *)
Fixpoint shardsFromOn (driver : string → option string) (left : nat) (i : Z)
         (c : Config) (shards : gmap Z Shard) : outcome (gmap Z Shard) :=
  match left with
  | O => Returns shards
  | S left' =>
      let val := i + 1 in
      let dbPath := (BasePath c ++ dbFilePattern val)%string in
      let u := createDSN dbPath in
      match sql_OpenOn driver u with
      | inl err =>
          Fails ("error generating writer for shard " ++ Path.itoa val ++ ": " ++ err)
      | inr opened =>
          let db := SetMaxOpenConns 1 opened in
          match match InitSchemaFunc c with
                | Some init => init db
                | None => None
                end with
          | Some msg => Fails ("error initializing database: " ++ msg)
          | None =>
              match sql_OpenOn driver u with
              | inl err =>
                  Fails ("error generating reader for shard " ++ Path.itoa val
                         ++ ": " ++ err)
              | inr rdb =>
                  shardsFromOn driver left' (i + 1) c (<[val := mkShard db rdb]> shards)
              end
          end
      end
  end.

(** [NewShards] (lines 49-89) on a driver. *)
Definition NewShardsOn (driver : string → option string) (c : Config)
  : outcome (gmap Z Shard) :=
  shardsFromOn driver (Z.to_nat (TotalShards c)) 0 c ∅.

(** [NewLitebeam] (lines 36-47) on a driver. *)
Definition NewLitebeamOn (driver : string → option string) (c : Config)
  : outcome Litebeam :=
  match validateConfig c with
  | Returns conf =>
      match NewShardsOn driver conf with
      | Returns s => Returns (mkLitebeam conf s)
      | Fails msg => Fails msg
      | Panics => Panics
      end
  | Fails msg => Fails msg
  | Panics => Panics
  end.

End Hashed.

(** Thirty-two bytes for every input, as [sha256.Sum256] gives. *)
Definition hash_of_32_bytes (Sum256 : string → list Byte.byte) : Prop :=
  ∀ x, length (Sum256 x) = 32%nat.

(** A stand-in for the hash on sample inputs: the first byte of the input
    (0 for the empty one) thirty-two times. *)
Definition sample_hash (x : string) : list Byte.byte :=
  repeat (match x with
          | EmptyString => Byte.x00
          | String c _ => byte_of_ascii c
          end) 32.

(** ** Vocabulary for the hash-based [Litebeam] *)

(** The data source name of shard [val] under a configuration. *)
Definition hashed_dsn (c : Hashed.Config) (val : Z) : string :=
  createDSN (Hashed.BasePath c ++ dbFilePattern val)%string.

(** The handles [NewShards] stores under the key [val]. *)
Definition hashed_shard (c : Hashed.Config) (val : Z) : Shard :=
  mkShard (mkDB (hashed_dsn c val) 1) (mkDB (hashed_dsn c val) 0).

(** What the schema callback answers on the writer of shard [val]. *)
Definition schema_error (c : Hashed.Config) (val : Z) : option string :=
  match Hashed.InitSchemaFunc c with
  | Some init => init (mkDB (hashed_dsn c val) 1)
  | None => None
  end.

(** A string ends in a slash. *)
Definition ends_in_slash (s : string) : Prop := ∃ dir, s = (dir ++ "/")%string.

(** No count is at the largest [int]: one item more is still an integer of
    64 bits, which [item_count + 1] keeps an INTEGER and [GetItemCount]
    can scan. *)
Definition counts_below_max (t : gmap Z ShardRow) : Prop :=
  ∀ id r, t !! id = Some r → item_count r < GoInt.max_int.

(** ** The storage engine refusing a call

    [createAndRegisterNewShard] and [AssignItemToShard] test every call on
    the storage engine for an error.  The definitions above take the engine
    to work; the ones below follow the source through each of these tests.
    A transaction leaves its statement in the table when its [Commit] has
    returned without an error, and nothing before. *)

(** The calls of the two functions that the engine can refuse. *)
Inductive call :=
| CountShards | CheckExists | OpenShard | PingShard
| BeginRegister | ExecInsert | CommitRegister
| BeginAssign | ScanTarget | ExecIncrement | CommitAssign
| ScanMaxID | ScanLeastLoaded | BeginSaturated | ExecSaturated | CommitSaturated
| BeginNewCount | ExecSetOne | CommitNewCount.

(** What the engine answers at each call: [None] when it works, its error
    when it does not. *)
Definition engine : Type := call → option string.

(** The engine that never refuses. *)
Definition works : engine := λ _, None.

(** One call on the engine, with the context the source puts on its error. *)
Definition attempt (eng : engine) (at_call : call) (context : string) : M unit :=
  match eng at_call with
  | Some msg => fail (ErrWrap context (ErrStorage msg))
  | None => ret tt
  end.

(** [createAndRegisterNewShard] (lines 356-423), every error return kept. *)
Definition createAndRegisterNewShardOn (eng : engine) (shardID : Z) : M unit :=
  attempt eng CountShards "failed to query current shard count" ;;;
  currentCount <- query SQL.count_all ;;
  c <- config ;;
  if currentCount >=? MaxDBCount c then fail (ErrMaxShards (MaxDBCount c))
  else
    attempt eng CheckExists
            ("failed to check if shard " ++ Path.itoa shardID ++ " exists") ;;;
    exists_ <- query (SQL.count_shard shardID) ;;
    if exists_ >? 0 then ret tt
    else
      let dbPath := Path.Join (BasePath c) (dbFilePattern shardID) in
      attempt eng OpenShard
              ("failed to open/create shard DB file '" ++ dbPath ++ "'") ;;;
      attempt eng PingShard
              ("failed to ping newly created shard DB '" ++ dbPath ++ "'") ;;;
      match InitSchemaFunc c with
      | Some init =>
          match init dbPath with
          | Some msg =>
              fail (ErrWrap ("failed to initialize schema for shard " ++ Path.itoa shardID)
                            (ErrInitSchema msg))
          | None => ret tt
          end
      | None => ret tt
      end ;;;
      attempt eng BeginRegister
              ("failed to begin transaction for registering shard " ++ Path.itoa shardID) ;;;
      attempt eng ExecInsert
              ("failed to insert shard " ++ Path.itoa shardID ++ " metadata") ;;;
      inserted <- scan (λ t, match SQL.insert_shard shardID dbPath t with
                             | Some t' => Ok t'
                             | None =>
                                 Err (ErrWrap ("failed to insert shard "
                                               ++ Path.itoa shardID ++ " metadata")
                                              ErrConstraint)
                             end) ;;
      attempt eng CommitRegister
              ("failed to commit transaction for registering shard "
               ++ Path.itoa shardID) ;;;
      exec (λ _, inserted).

(** [AssignItemToShard] (lines 427-543), every error return kept. *)
Definition AssignItemToShardOn (eng : engine) : M Z :=
  c <- config ;;
  attempt eng BeginAssign "failed to begin transaction for user assignment" ;;;
  if String.eqb (BalancingMode c) "round-robin" then
    attempt eng ScanTarget "failed to determine next shard ID" ;;;
    target <- query SQL.select_least_loaded ;;
    match target with
    | None => fail (ErrWrap "failed to determine next shard ID" ErrNoRows)
    | Some targetShardID =>
        attempt eng ExecIncrement
                ("failed to increment item_count for shard " ++ Path.itoa targetShardID) ;;;
        attempt eng CommitAssign "failed to commit transaction for shard assignment" ;;;
        exec (SQL.increment targetShardID) ;;;
        ret targetShardID
    end
  else if String.eqb (BalancingMode c) "fill" then
    attempt eng ScanTarget "failed to query for available shard" ;;;
    target <- query (SQL.select_with_room (SoftCap c)) ;;
    match target with
    | Some targetShardID =>
        attempt eng ExecIncrement
                ("failed to increment item_count for shard " ++ Path.itoa targetShardID) ;;;
        attempt eng CommitAssign "failed to commit transaction for shard assignment" ;;;
        exec (SQL.increment targetShardID) ;;;
        ret targetShardID
    | None =>
        attempt eng ScanMaxID "failed to determine next shard ID" ;;;
        maxID <- query SQL.max_shard_id ;;
        let nextShardID :=
          match maxID with
          | Some m => GoInt.add m 1
          | None => 0
          end in
        if nextShardID >? GoInt.sub (MaxDBCount c) 1 then
          attempt eng ScanLeastLoaded
                  "failed to determine next shard ID where shards are exhausted" ;;;
          target' <- query SQL.select_least_loaded ;;
          match target' with
          | None =>
              fail (ErrWrap "failed to determine next shard ID where shards are exhausted"
                            ErrNoRows)
          | Some targetShardID =>
              attempt eng BeginSaturated
                      ("failed to begin transaction for updating new shard "
                       ++ Path.itoa nextShardID ++ " count") ;;;
              attempt eng ExecSaturated
                      ("failed to increment item_count for shard "
                       ++ Path.itoa targetShardID) ;;;
              attempt eng CommitSaturated
                      ("failed to commit item_count update for new shard "
                       ++ Path.itoa nextShardID) ;;;
              exec (SQL.increment targetShardID) ;;;
              ret targetShardID
          end
        else
          createAndRegisterNewShardOn eng nextShardID ;;;
          attempt eng BeginNewCount
                  ("failed to begin transaction for updating new shard "
                   ++ Path.itoa nextShardID ++ " count") ;;;
          attempt eng ExecSetOne
                  ("failed to set initial item_count for new shard "
                   ++ Path.itoa nextShardID) ;;;
          attempt eng CommitNewCount
                  ("failed to commit item_count update for new shard "
                   ++ Path.itoa nextShardID) ;;;
          exec (SQL.set_one nextShardID) ;;;
          ret nextShardID
    end
  else fail (ErrConfigBalancing (BalancingMode c)).

(** An engine that refuses the statement that sets the count of a new
    shard, and works everywhere else. *)
Definition refuses_set_one : engine :=
  λ c, match c with
       | ExecSetOne => Some "disk I/O error"
       | _ => None
       end.

(** A driver that refuses every data source name. *)
Definition refuses_every_name : string → option string :=
  λ _, Some "unable to open database file".

(** A driver that refuses a data source name with a semicolon in it, as one
    that parses the query of the name with [net/url] does. *)
Definition refuses_semicolon : string → option string :=
  λ u, if existsb (Ascii.eqb ";") (list_ascii_of_string u)
       then Some "invalid semicolon separator in query"
       else None.

(** A table whose one shard has the largest [int] as identifier and holds
    two items, under soft cap 2 and [MaxDBCount] 5. *)
Definition shard_at_largest_id : Sharder :=
  mkSharder (mkConfig "./tests" 2 5 "fill" "dynamic" None)
            {[ GoInt.max_int := mkShardRow (shard_path "./tests" GoInt.max_int) 2 ]}.

(** * Properties

    ** Go's [int] *)

Lemma wrap64_in_range z : GoInt.in_range z → GoInt.wrap64 z = z.
Proof.
  unfold GoInt.in_range, GoInt.min_int, GoInt.max_int, GoInt.wrap64. intros Hz.
  rewrite Z.mod_small; lia.
Qed.

Lemma wrap64_range z : GoInt.in_range (GoInt.wrap64 z).
Proof.
  unfold GoInt.in_range, GoInt.min_int, GoInt.max_int, GoInt.wrap64.
  pose proof (Z.mod_pos_bound (z + 2 ^ 63) (2 ^ 64)). lia.
Qed.

Lemma GoInt_add_exact a b : GoInt.in_range (a + b) → GoInt.add a b = a + b.
Proof. apply wrap64_in_range. Qed.

Lemma GoInt_sub_exact a b : GoInt.in_range (a - b) → GoInt.sub a b = a - b.
Proof. apply wrap64_in_range. Qed.

(** ** What the queries return *)

Section Queries.

Implicit Types (t : gmap Z ShardRow) (id : Z) (r : ShardRow).

Lemma first_row_spec keep before t :
  (∀ a, before a a = false) →
  (∀ a b c, before a b = true → before b c = true → before a c = true) →
  match SQL.first_row keep before t with
  | None => ∀ id r, t !! id = Some r → keep id r = false
  | Some (id, r) =>
      t !! id = Some r ∧ keep id r = true ∧
      ∀ id' r', t !! id' = Some r' → keep id' r' = true →
                before (id', r') (id, r) = false
  end.
Proof.
  intros Hirr Htrans. unfold SQL.first_row.
  apply (map_fold_weak_ind (λ best t,
    match best with
    | None => ∀ id r, t !! id = Some r → keep id r = false
    | Some (id, r) =>
        t !! id = Some r ∧ keep id r = true ∧
        ∀ id' r', t !! id' = Some r' → keep id' r' = true →
                  before (id', r') (id, r) = false
    end)); clear t.
  - intros id r Hl. by rewrite lookup_empty in Hl.
  - intros i x m best Hfresh IH.
    destruct (keep i x) eqn:Hkeep.
    + destruct best as [[bi br]|].
      * destruct IH as (Hb & Hkb & Hmin).
        destruct (before (i, x) (bi, br)) eqn:Hbef.
        -- split; [by rewrite lookup_insert_eq|]. split; [done|].
           intros id' r' Hl Hk'.
           destruct (decide (id' = i)) as [->|Hne].
           ++ rewrite lookup_insert_eq in Hl. injection Hl as <-. apply Hirr.
           ++ rewrite lookup_insert_ne in Hl by done.
              destruct (before (id', r') (i, x)) eqn:Hc; [|done].
              rewrite <- (Hmin id' r' Hl Hk'). symmetry. by eapply Htrans.
        -- assert (bi ≠ i) by (intros ->; congruence).
           split; [by rewrite lookup_insert_ne|]. split; [done|].
           intros id' r' Hl Hk'.
           destruct (decide (id' = i)) as [->|Hne].
           ++ rewrite lookup_insert_eq in Hl. by injection Hl as <-.
           ++ rewrite lookup_insert_ne in Hl by done. by apply Hmin.
      * split; [by rewrite lookup_insert_eq|]. split; [done|].
        intros id' r' Hl Hk'.
        destruct (decide (id' = i)) as [->|Hne].
        -- rewrite lookup_insert_eq in Hl. injection Hl as <-. apply Hirr.
        -- rewrite lookup_insert_ne in Hl by done.
           specialize (IH id' r' Hl). congruence.
    + destruct best as [[bi br]|].
      * destruct IH as (Hb & Hkb & Hmin).
        assert (bi ≠ i) by (intros ->; congruence).
        split; [by rewrite lookup_insert_ne|]. split; [done|].
        intros id' r' Hl Hk'.
        destruct (decide (id' = i)) as [->|Hne].
        -- rewrite lookup_insert_eq in Hl. injection Hl as <-. congruence.
        -- rewrite lookup_insert_ne in Hl by done. by apply Hmin.
      * intros id' r' Hl.
        destruct (decide (id' = i)) as [->|Hne].
        -- rewrite lookup_insert_eq in Hl. by injection Hl as <-.
        -- rewrite lookup_insert_ne in Hl by done. by apply IH.
Qed.

Lemma by_id_irrefl a : SQL.by_id a a = false.
Proof. unfold SQL.by_id. lia. Qed.

Lemma by_id_trans a b c :
  SQL.by_id a b = true → SQL.by_id b c = true → SQL.by_id a c = true.
Proof. unfold SQL.by_id. lia. Qed.

Lemma by_count_id_irrefl a : SQL.by_count_id a a = false.
Proof. unfold SQL.by_count_id. lia. Qed.

Lemma by_count_id_trans a b c :
  SQL.by_count_id a b = true → SQL.by_count_id b c = true →
  SQL.by_count_id a c = true.
Proof. unfold SQL.by_count_id. lia. Qed.

Lemma select_with_room_Some softCap t id :
  SQL.select_with_room softCap t = Some id → first_with_room softCap t id.
Proof.
  unfold SQL.select_with_room. intros Hsel.
  pose proof (first_row_spec (λ _ r, item_count r <? softCap) SQL.by_id t
                by_id_irrefl by_id_trans) as Hspec.
  destruct (SQL.first_row _ _ t) as [[bi br]|]; [|done].
  simpl in Hsel. injection Hsel as ->.
  destruct Hspec as (Hl & Hk & Hmin).
  exists br. split; [done|]. split; [lia|].
  intros id' r' Hl' Hk'. specialize (Hmin id' r' Hl').
  unfold SQL.by_id in Hmin. simpl in Hmin. lia.
Qed.

Lemma select_with_room_None softCap t :
  SQL.select_with_room softCap t = None →
  ∀ id r, t !! id = Some r → softCap <= item_count r.
Proof.
  unfold SQL.select_with_room. intros Hsel.
  pose proof (first_row_spec (λ _ r, item_count r <? softCap) SQL.by_id t
                by_id_irrefl by_id_trans) as Hspec.
  destruct (SQL.first_row _ _ t) as [[bi br]|]; [done|].
  intros id r Hl. specialize (Hspec id r Hl). simpl in Hspec. lia.
Qed.

Lemma select_least_loaded_Some t id :
  SQL.select_least_loaded t = Some id → least_loaded t id.
Proof.
  unfold SQL.select_least_loaded. intros Hsel.
  pose proof (first_row_spec (λ _ _, true) SQL.by_count_id t
                by_count_id_irrefl by_count_id_trans) as Hspec.
  destruct (SQL.first_row _ _ t) as [[bi br]|]; [|done].
  simpl in Hsel. injection Hsel as ->.
  destruct Hspec as (Hl & _ & Hmin).
  exists br. split; [done|].
  intros id' r' Hl'. specialize (Hmin id' r' Hl' eq_refl).
  unfold SQL.by_count_id in Hmin. simpl in Hmin. lia.
Qed.

Lemma select_least_loaded_None t :
  SQL.select_least_loaded t = None → t = ∅.
Proof.
  unfold SQL.select_least_loaded. intros Hsel.
  pose proof (first_row_spec (λ _ _, true) SQL.by_count_id t
                by_count_id_irrefl by_count_id_trans) as Hspec.
  destruct (SQL.first_row _ _ t) as [[bi br]|]; [done|].
  apply map_empty. intros id.
  destruct (t !! id) as [r|] eqn:Hl; [|done].
  by specialize (Hspec id r Hl).
Qed.

(** Both orders are total on distinct keys: the first row is unique. *)
Lemma least_loaded_unique t id1 id2 :
  least_loaded t id1 → least_loaded t id2 → id1 = id2.
Proof.
  intros (r1 & Hl1 & Hmin1) (r2 & Hl2 & Hmin2).
  specialize (Hmin1 id2 r2 Hl2). specialize (Hmin2 id1 r1 Hl1). lia.
Qed.

Lemma first_with_room_unique softCap t id1 id2 :
  first_with_room softCap t id1 → first_with_room softCap t id2 → id1 = id2.
Proof.
  intros (r1 & Hl1 & Hc1 & Hmin1) (r2 & Hl2 & Hc2 & Hmin2).
  specialize (Hmin1 id2 r2 Hl2 Hc2). specialize (Hmin2 id1 r1 Hl1 Hc1). lia.
Qed.

Lemma max_shard_id_spec t :
  match SQL.max_shard_id t with
  | None => t = ∅
  | Some m => is_Some (t !! m) ∧ ∀ id, is_Some (t !! id) → id <= m
  end.
Proof.
  unfold SQL.max_shard_id.
  apply (map_fold_weak_ind (λ best t,
    match best with
    | None => t = ∅
    | Some m => is_Some (t !! m) ∧ ∀ id, is_Some (t !! id) → id <= m
    end)); clear t; [done|].
  intros i x m best Hfresh IH.
  destruct best as [b|].
  - destruct IH as (Hb & Hmax). split.
    + destruct (Z.max_spec i b) as [[_ ->]|[_ ->]].
      * assert (b ≠ i) by (intros ->; rewrite Hfresh in Hb; by destruct Hb).
        by rewrite lookup_insert_ne.
      * rewrite lookup_insert_eq. eauto.
    + intros id Hid. destruct (decide (id = i)) as [->|Hne]; [lia|].
      rewrite lookup_insert_ne in Hid by done. specialize (Hmax id Hid). lia.
  - subst m. split; [rewrite lookup_insert_eq; eauto|].
    intros id Hid. destruct (decide (id = i)) as [->|Hne]; [lia|].
    rewrite lookup_insert_ne, lookup_empty in Hid by done. by destruct Hid.
Qed.

Lemma total_items_empty : total_items ∅ = 0.
Proof. unfold total_items. by rewrite map_fold_empty. Qed.

Lemma total_items_insert t id r :
  t !! id = None → total_items (<[id := r]> t) = item_count r + total_items t.
Proof.
  intros Hfresh. unfold total_items.
  rewrite map_fold_insert_L; [done| |done]. intros. lia.
Qed.

Lemma total_items_alter f t id r :
  t !! id = Some r →
  total_items (alter f id t) = total_items t - item_count r + item_count (f r).
Proof.
  intros Hl.
  assert (alter f id t = <[id := f r]> (delete id t)) as ->.
  { apply map_eq. intros j. destruct (decide (j = id)) as [->|Hne].
    - by rewrite lookup_alter_eq, lookup_insert_eq, Hl.
    - by rewrite lookup_alter_ne, lookup_insert_ne, lookup_delete_ne. }
  rewrite total_items_insert by apply lookup_delete_eq.
  assert (total_items t = item_count r + total_items (delete id t)) as ->; [|lia].
  unfold total_items.
  apply (map_fold_delete_L (λ _ r acc, item_count r + acc) 0 id r t); [|done].
  intros. lia.
Qed.

Lemma alter_unregistered (f : ShardRow → ShardRow) t id :
  t !! id = None → alter f id t = t.
Proof.
  intros Hl. apply map_eq. intros j. destruct (decide (j = id)) as [->|Hne].
  - by rewrite lookup_alter_eq, Hl.
  - by rewrite lookup_alter_ne.
Qed.

Lemma alter_registered (f : ShardRow → ShardRow) t id r :
  t !! id = Some r → alter f id t = <[id := f r]> t.
Proof.
  intros Hl. apply map_eq. intros j. destruct (decide (j = id)) as [->|Hne].
  - by rewrite lookup_alter_eq, lookup_insert_eq, Hl.
  - by rewrite lookup_alter_ne, lookup_insert_ne.
Qed.

Lemma size_alter (f : ShardRow → ShardRow) t id : size (alter f id t) = size t.
Proof. by rewrite <- !size_dom, dom_alter_L. Qed.

Lemma foldr_add_Permutation (xs ys : list Z) :
  xs ≡ₚ ys → foldr Z.add 0 xs = foldr Z.add 0 ys.
Proof. induction 1; simpl; lia. Qed.

Lemma foldr_add_nonneg (xs : list Z) :
  Forall (λ x, 0 <= x) xs → 0 <= foldr Z.add 0 xs.
Proof. induction 1; simpl; lia. Qed.

Lemma sum_int64_exact (xs : list Z) (acc : Z) :
  0 <= acc → Forall (λ x, 0 <= x) xs →
  acc + foldr Z.add 0 xs <= GoInt.max_int →
  SQL.sum_int64 acc xs = Some (acc + foldr Z.add 0 xs).
Proof.
  revert acc. induction xs as [|x xs IH]; intros acc Hacc Hall Hfit.
  - simpl. by rewrite Z.add_0_r.
  - inversion Hall as [|? ? Hx Hxs]; subst. simpl in *.
    pose proof (foldr_add_nonneg xs Hxs) as Hrest.
    assert ((GoInt.min_int <=? acc + x) && (acc + x <=? GoInt.max_int) = true) as ->.
    { unfold GoInt.min_int, GoInt.max_int in *.
      apply andb_true_intro. split; [apply Z.leb_le|apply Z.leb_le]; lia. }
    rewrite IH by (done || lia). f_equal. lia.
Qed.

Lemma total_items_rows t :
  total_items t = foldr Z.add 0 ((λ row, item_count row.2) <$> SQL.rows_in_order t).
Proof.
  unfold total_items, SQL.rows_in_order. rewrite map_fold_foldr.
  rewrite (foldr_add_Permutation _ ((λ row, item_count row.2) <$> map_to_list t)).
  - induction (map_to_list t) as [|[id r] l IH]; simpl; [done|by rewrite IH].
  - apply fmap_Permutation, merge_sort_Permutation.
Qed.

Lemma sum_item_count_total t :
  (∀ id r, t !! id = Some r → 0 <= item_count r) →
  total_items t <= GoInt.max_int →
  SQL.sum_item_count t
  = Ok (if decide (size t = 0%nat) then None else Some (total_items t)).
Proof.
  intros Hcounts Hfit. unfold SQL.sum_item_count. case_decide as Hsz; [done|].
  rewrite total_items_rows in Hfit |- *.
  rewrite sum_int64_exact; [done|done| |done].
  apply Forall_fmap, Forall_forall. intros [id r] Hin. simpl.
  apply (Hcounts id r), elem_of_map_to_list.
  by rewrite <- (merge_sort_Permutation SQL.id_le (map_to_list t)).
Qed.

End Queries.

(** ** What the operations do *)

Lemma max_shard_id_Some t m :
  SQL.max_shard_id t = Some m ↔ max_registered t m.
Proof.
  pose proof (max_shard_id_spec t) as Hspec. split.
  - intros Hm. by rewrite Hm in Hspec.
  - intros (Hreg & Hmax). destruct (SQL.max_shard_id t) as [m'|].
    + destruct Hspec as (Hreg' & Hmax'). f_equal.
      specialize (Hmax m' Hreg'). specialize (Hmax' m Hreg). lia.
    + subst t. rewrite lookup_empty in Hreg. by destruct Hreg.
Qed.

Lemma sharder_eta s : mkSharder (SConfig s) (MetaDB s) = s.
Proof. by destruct s. Qed.

Section CreateShard.

Variable s : Sharder.
Variable shardID : Z.

Let dbPath := Path.Join (BasePath (SConfig s)) (dbFilePattern shardID).

Lemma create_at_ceiling :
  MaxDBCount (SConfig s) <= SQL.count_all (MetaDB s) →
  createAndRegisterNewShard shardID s
  = (Err (ErrMaxShards (MaxDBCount (SConfig s))), s).
Proof.
  intros Hfull. unfold createAndRegisterNewShard. run_op.
  destruct (Z.geb_spec (SQL.count_all (MetaDB s)) (MaxDBCount (SConfig s)));
    [done|lia].
Qed.

Lemma create_registered :
  SQL.count_all (MetaDB s) < MaxDBCount (SConfig s) →
  is_Some (MetaDB s !! shardID) →
  createAndRegisterNewShard shardID s = (Ok tt, s).
Proof.
  intros Hroom [r Hr]. unfold createAndRegisterNewShard. run_op.
  destruct (Z.geb_spec (SQL.count_all (MetaDB s)) (MaxDBCount (SConfig s)));
    [lia|].
  unfold SQL.count_shard. by rewrite Hr.
Qed.

Lemma create_fresh :
  SQL.count_all (MetaDB s) < MaxDBCount (SConfig s) →
  MetaDB s !! shardID = None →
  init_accepts (SConfig s) dbPath →
  SQL.path_taken dbPath (MetaDB s) = false →
  createAndRegisterNewShard shardID s
  = (Ok tt, mkSharder (SConfig s) (<[shardID := mkShardRow dbPath 0]> (MetaDB s))).
Proof.
  intros Hroom Hfresh Hinit Hpath. unfold createAndRegisterNewShard. run_op.
  destruct (Z.geb_spec (SQL.count_all (MetaDB s)) (MaxDBCount (SConfig s)));
    [lia|].
  unfold SQL.count_shard. rewrite Hfresh. simpl.
  unfold init_accepts in Hinit. fold dbPath.
  destruct (InitSchemaFunc (SConfig s)) as [init|].
  - rewrite Hinit. simpl. unfold SQL.insert_shard. by rewrite Hfresh, Hpath.
  - simpl. unfold SQL.insert_shard. by rewrite Hfresh, Hpath.
Qed.

(** Whatever it returns, [createAndRegisterNewShard] leaves the table as
    it was or adds the one row of [shardID], the latter only on success
    and below the ceiling. *)
Lemma create_cases :
  ∃ r s', createAndRegisterNewShard shardID s = (r, s') ∧
    SConfig s' = SConfig s ∧
    (MetaDB s' = MetaDB s
     ∨ (r = Ok tt
        ∧ SQL.count_all (MetaDB s) < MaxDBCount (SConfig s)
        ∧ MetaDB s !! shardID = None
        ∧ MetaDB s' = <[shardID := mkShardRow dbPath 0]> (MetaDB s))).
Proof.
  unfold createAndRegisterNewShard. run_op.
  destruct (Z.geb_spec (SQL.count_all (MetaDB s)) (MaxDBCount (SConfig s)));
    [by eauto 6|].
  unfold SQL.count_shard.
  destruct (MetaDB s !! shardID) as [r|] eqn:Hl; simpl; [by eauto 6|].
  fold dbPath.
  destruct (InitSchemaFunc (SConfig s)) as [init|];
    [destruct (init dbPath)|]; simpl; try (by eauto 6);
    (unfold SQL.insert_shard; rewrite Hl;
     destruct (SQL.path_taken dbPath (MetaDB s)); [by eauto 6|];
     eexists _, _; split; [done|]; split; [done|]; right; by eauto).
Qed.

End CreateShard.

Section Assign.

Variable s : Sharder.

Let c := SConfig s.
Let t := MetaDB s.

Lemma assign_round_robin :
  BalancingMode c = "round-robin" →
  AssignItemToShard s
  = match SQL.select_least_loaded t with
    | Some id => (Ok id, mkSharder c (SQL.increment id t))
    | None => (Err (ErrWrap "failed to determine next shard ID" ErrNoRows), s)
    end.
Proof.
  intros Hmode. subst c t. unfold AssignItemToShard. run_op. rewrite Hmode. simpl (String.eqb _ _). cbv beta iota.
  by destruct (SQL.select_least_loaded (MetaDB s)).
Qed.

Lemma assign_fill_room id :
  BalancingMode c = "fill" →
  SQL.select_with_room (SoftCap c) t = Some id →
  AssignItemToShard s = (Ok id, mkSharder c (SQL.increment id t)).
Proof.
  intros Hmode Hsel. subst c t. unfold AssignItemToShard. run_op.
  rewrite Hmode. simpl (String.eqb _ _). cbv beta iota. by rewrite Hsel.
Qed.

Lemma assign_fill_saturated :
  BalancingMode c = "fill" →
  SQL.select_with_room (SoftCap c) t = None →
  GoInt.sub (MaxDBCount c) 1 < nextShardID t →
  AssignItemToShard s
  = match SQL.select_least_loaded t with
    | Some id => (Ok id, mkSharder c (SQL.increment id t))
    | None =>
        (Err (ErrWrap "failed to determine next shard ID where shards are exhausted"
                      ErrNoRows), s)
    end.
Proof.
  intros Hmode Hsel Hceil. subst c t. unfold AssignItemToShard. run_op.
  rewrite Hmode. simpl (String.eqb _ _). cbv beta iota. rewrite Hsel. cbv beta iota. unfold nextShardID in Hceil.
  destruct (Z.gtb_spec (match SQL.max_shard_id (MetaDB s) with
                        | Some m => GoInt.add m 1
                        | None => 0
                        end) (GoInt.sub (MaxDBCount (SConfig s)) 1)); [|lia].
  by destruct (SQL.select_least_loaded (MetaDB s)).
Qed.

Lemma assign_fill_new_shard :
  BalancingMode c = "fill" →
  SQL.select_with_room (SoftCap c) t = None →
  nextShardID t <= GoInt.sub (MaxDBCount c) 1 →
  AssignItemToShard s
  = match createAndRegisterNewShard (nextShardID t) s with
    | (Ok _, s') =>
        (Ok (nextShardID t),
         mkSharder (SConfig s') (SQL.set_one (nextShardID t) (MetaDB s')))
    | (Err e, s') => (Err e, s')
    end.
Proof.
  intros Hmode Hsel Hceil. subst c t. unfold AssignItemToShard. run_op.
  rewrite Hmode. simpl (String.eqb _ _). cbv beta iota. rewrite Hsel. cbv beta iota. unfold nextShardID in *.
  destruct (Z.gtb_spec (match SQL.max_shard_id (MetaDB s) with
                        | Some m => GoInt.add m 1
                        | None => 0
                        end) (GoInt.sub (MaxDBCount (SConfig s)) 1)); [lia|].
  by destruct (createAndRegisterNewShard _ s) as [[[]|e] s'].
Qed.

Lemma assign_unknown_mode :
  BalancingMode c ≠ "round-robin" → BalancingMode c ≠ "fill" →
  AssignItemToShard s = (Err (ErrConfigBalancing (BalancingMode c)), s).
Proof.
  intros Hrr Hfill. subst c t. unfold AssignItemToShard. run_op.
  apply String.eqb_neq in Hrr, Hfill. by rewrite Hrr, Hfill.
Qed.

End Assign.

(** ** Assignment *)

Lemma increment_registered id r (t : gmap Z ShardRow) :
  t !! id = Some r → SQL.increment id t = <[id := assigned r]> t.
Proof. apply alter_registered. Qed.

Lemma dom_insert_registered id r r' (t : gmap Z ShardRow) :
  t !! id = Some r → dom (<[id := r']> t) = dom t.
Proof.
  intros Hl. rewrite dom_insert_L. apply set_eq. intros id'.
  rewrite elem_of_union, elem_of_singleton. split; [|by auto].
  intros [->|Hin]; [|done]. apply elem_of_dom. by eexists.
Qed.

(** C3: in fill mode, when some registered shard is under the soft cap, the
    call returns the shard of lowest [shard_id] among those under the cap and
    adds one to its [item_count]; every other row, and the set of registered
    shards, stay as they were. *)
Theorem C3_fill_takes_lowest_id_with_room (s : Sharder) (id0 : Z) (r0 : ShardRow) :
  BalancingMode (SConfig s) = "fill" →
  MetaDB s !! id0 = Some r0 →
  item_count r0 < SoftCap (SConfig s) →
  ∃ id r,
    first_with_room (SoftCap (SConfig s)) (MetaDB s) id
    ∧ MetaDB s !! id = Some r
    ∧ AssignItemToShard s
      = (Ok id, mkSharder (SConfig s)
                          (<[id := mkShardRow (db_path r) (item_count r + 1)]> (MetaDB s)))
    ∧ ∀ id', id' ≠ id →
        MetaDB (AssignItemToShard s).2 !! id' = MetaDB s !! id'.
Proof.
  intros Hmode Hl0 Hroom.
  destruct (SQL.select_with_room (SoftCap (SConfig s)) (MetaDB s)) as [id|] eqn:Hsel.
  - pose proof (select_with_room_Some _ _ _ Hsel) as Hfirst.
    destruct Hfirst as (r & Hl & Hc & Hmin).
    exists id, r. split; [by exists r|]. split; [done|].
    rewrite (assign_fill_room s id Hmode Hsel), (increment_registered id r) by done.
    split; [done|]. intros id' Hne. simpl. by rewrite lookup_insert_ne.
  - pose proof (select_with_room_None _ _ Hsel id0 r0 Hl0). lia.
Qed.

(** C4: in round-robin mode a call succeeds exactly when a shard is
    registered; it then returns the registered shard of lowest [item_count]
    (lowest [shard_id] among equals), whatever the soft cap, adds one to its
    [item_count] and registers no shard.  On the empty table it fails and
    changes nothing. *)
Theorem C4_round_robin_takes_least_loaded (s : Sharder) :
  BalancingMode (SConfig s) = "round-robin" →
  match AssignItemToShard s with
  | (Ok id, s') =>
      least_loaded (MetaDB s) id
      ∧ (∃ r, MetaDB s !! id = Some r
              ∧ MetaDB s' = <[id := mkShardRow (db_path r) (item_count r + 1)]> (MetaDB s))
      ∧ dom (MetaDB s') = dom (MetaDB s)
      ∧ SConfig s' = SConfig s
  | (Err _, s') => MetaDB s = ∅ ∧ s' = s
  end.
Proof.
  intros Hmode. rewrite (assign_round_robin s Hmode).
  destruct (SQL.select_least_loaded (MetaDB s)) as [id|] eqn:Hsel.
  - pose proof (select_least_loaded_Some _ _ Hsel) as Hleast.
    destruct (Hleast) as (r & Hl & Hmin).
    split; [done|]. simpl. rewrite (increment_registered id r) by done.
    split; [by exists r|]. split; [|done]. by eapply dom_insert_registered.
  - split; [|done]. by apply select_least_loaded_None.
Qed.

(** On identifiers and maxima that fit Go's [int], the ceiling test of the
    fill path is the one of plain arithmetic. *)
Lemma ceiling_test_exact m maxDB :
  GoInt.min_int <= m < GoInt.max_int →
  GoInt.min_int < maxDB <= GoInt.max_int →
  GoInt.add m 1 > GoInt.sub maxDB 1 ↔ m + 1 > maxDB - 1.
Proof.
  intros Hm Hmax.
  rewrite GoInt_add_exact, GoInt_sub_exact; [done|..];
    unfold GoInt.in_range, GoInt.min_int, GoInt.max_int in *; lia.
Qed.

(** C2: in fill mode, when every registered shard is at or over the soft cap
    and the candidate [max shard_id + 1] (on Go's [int]) is past
    [MaxDBCount - 1], the call succeeds, registers no shard, and adds one to
    the [item_count] of the registered shard of lowest [item_count] (lowest
    [shard_id] among equals), whose id it returns. *)
Theorem C2_fill_saturates_least_loaded (s : Sharder) (m : Z) :
  BalancingMode (SConfig s) = "fill" →
  (∀ id r, MetaDB s !! id = Some r → SoftCap (SConfig s) <= item_count r) →
  max_registered (MetaDB s) m →
  GoInt.add m 1 > GoInt.sub (MaxDBCount (SConfig s)) 1 →
  ∃ id r s',
    AssignItemToShard s = (Ok id, s')
    ∧ least_loaded (MetaDB s) id
    ∧ MetaDB s !! id = Some r
    ∧ MetaDB s' = <[id := mkShardRow (db_path r) (item_count r + 1)]> (MetaDB s)
    ∧ dom (MetaDB s') = dom (MetaDB s)
    ∧ SConfig s' = SConfig s.
Proof.
  intros Hmode Hfull Hmax Hceil.
  assert (SQL.select_with_room (SoftCap (SConfig s)) (MetaDB s) = None) as Hsel.
  { destruct (SQL.select_with_room _ _) as [id|] eqn:Hsel; [|done].
    apply select_with_room_Some in Hsel as (r & Hl & Hc & _).
    specialize (Hfull id r Hl). lia. }
  apply max_shard_id_Some in Hmax as Hmaxq.
  rewrite (assign_fill_saturated s Hmode Hsel)
    by (unfold nextShardID; rewrite Hmaxq; lia).
  destruct (SQL.select_least_loaded (MetaDB s)) as [id|] eqn:Hleast.
  - pose proof (select_least_loaded_Some _ _ Hleast) as Hll.
    destruct (Hll) as (r & Hl & Hmin).
    exists id, r, (mkSharder (SConfig s) (SQL.increment id (MetaDB s))).
    split; [done|]. split; [done|]. split; [done|]. simpl.
    rewrite (increment_registered id r) by done.
    split; [done|]. split; [|done]. by eapply dom_insert_registered.
  - apply select_least_loaded_None in Hleast.
    destruct Hmax as [[r Hr] _]. rewrite Hleast, lookup_empty in Hr. done.
Qed.

(** ** Removal *)

(** C7: [RemoveItemFromShard] always succeeds.  On a registered shard it
    sets [item_count] to [max (item_count - 1) 0]; on an unregistered shard,
    or one whose count is 0, it changes nothing, however often it is
    repeated; the count it leaves is never negative. *)
Theorem C7_remove_floors_at_zero (s : Sharder) (id : Z) :
  (RemoveItemFromShard id s).1 = Ok tt
  ∧ SConfig (RemoveItemFromShard id s).2 = SConfig s
  ∧ match MetaDB s !! id with
    | Some r =>
        MetaDB (RemoveItemFromShard id s).2
        = <[id := mkShardRow (db_path r) (Z.max (item_count r - 1) 0)]> (MetaDB s)
        ∧ GetItemCount id (RemoveItemFromShard id s).2
          = (Ok (Z.max (item_count r - 1) 0), (RemoveItemFromShard id s).2)
        ∧ 0 <= Z.max (item_count r - 1) 0
        ∧ (item_count r = 0 →
           ∀ n, Nat.iter n (λ s', (RemoveItemFromShard id s').2) s = s)
    | None =>
        ∀ n, Nat.iter n (λ s', (RemoveItemFromShard id s').2) s = s
    end.
Proof.
  split; [done|]. split; [done|].
  unfold RemoveItemFromShard, exec. cbn [fst snd MetaDB SConfig].
  destruct (MetaDB s !! id) as [r|] eqn:Hl.
  - unfold SQL.decrement. rewrite (alter_registered _ _ id r Hl).
    split; [done|]. split.
    { unfold GetItemCount, SQL.select_item_count. run_op.
      by rewrite lookup_insert_eq. }
    split; [lia|]. intros Hzero n.
    induction n as [|n IH]; [done|]. simpl. rewrite IH.
    rewrite (alter_registered _ _ id r Hl), Hzero. simpl.
    rewrite insert_id; [apply sharder_eta|].
    rewrite Hl. f_equal. destruct r as [p k]. simpl in *. by subst k.
  - intros n. induction n as [|n IH]; [done|]. simpl. rewrite IH.
    unfold SQL.decrement. rewrite alter_unregistered by done. apply sharder_eta.
Qed.

(** ** Creating a shard that is already registered *)

(** C8, as stated, fails: with the table at the ceiling the count check runs
    first and the call on the registered shard 0 returns the capacity error. *)
Lemma C8_counterexample_at_ceiling :
  is_Some (MetaDB single_shard_at_ceiling !! 0)
  ∧ createAndRegisterNewShard 0 single_shard_at_ceiling
    = (Err (ErrMaxShards 1), single_shard_at_ceiling).
Proof. split; [by eexists|]. by vm_compute. Qed.

(** C8, amended: for a registered [shardID] the call leaves the table as it
    is; it returns success while fewer than [MaxDBCount] shards are
    registered, and the capacity error otherwise. *)
Theorem C8_create_registered_shard (s : Sharder) (shardID : Z) :
  is_Some (MetaDB s !! shardID) →
  (SQL.count_all (MetaDB s) < MaxDBCount (SConfig s) →
   createAndRegisterNewShard shardID s = (Ok tt, s))
  ∧ (MaxDBCount (SConfig s) <= SQL.count_all (MetaDB s) →
     createAndRegisterNewShard shardID s
     = (Err (ErrMaxShards (MaxDBCount (SConfig s))), s)).
Proof.
  intros Hreg. split.
  - intros Hroom. by apply create_registered.
  - apply create_at_ceiling.
Qed.

(** ** Construction *)

Lemma checkConfig_valid c :
  valid_config c → checkConfig c = Ok (with_default_modes c).
Proof.
  intros (Hbase & Hcap & Hmax & Hgen & Hbal).
  unfold checkConfig, with_default_modes, default_if_empty,
    recognized_generation, recognized_balancing in *.
  destruct (String.eqb_spec (BasePath c) ""); [done|].
  destruct (Z.leb_spec (SoftCap c) 0); [lia|].
  destruct (Z.leb_spec (MaxDBCount c) 0); [lia|].
  destruct Hgen as [Hg|[Hg|Hg]], Hbal as [Hb|[Hb|Hb]]; by rewrite Hg, Hb.
Qed.

Lemma checkConfig_Ok c c' :
  checkConfig c = Ok c' → valid_config c ∧ c' = with_default_modes c.
Proof.
  intros Hok.
  assert (valid_config c) as Hvalid.
  { unfold checkConfig in Hok. unfold valid_config, recognized_generation,
      recognized_balancing.
    destruct (String.eqb_spec (BasePath c) ""); [done|].
    destruct (Z.leb_spec (SoftCap c) 0); [done|].
    destruct (Z.leb_spec (MaxDBCount c) 0); [done|].
    split; [done|]. split; [lia|]. split; [lia|].
    destruct (String.eqb_spec (GenerationMode c) "");
      [|destruct (String.eqb_spec (GenerationMode c) "dynamic");
        [|destruct (String.eqb_spec (GenerationMode c) "on-startup"); [|done]]];
      (split; [by auto|]);
      (destruct (String.eqb_spec (BalancingMode c) "");
       [|destruct (String.eqb_spec (BalancingMode c) "fill");
         [|destruct (String.eqb_spec (BalancingMode c) "round-robin"); [|done]]]);
      by auto. }
  split; [done|]. rewrite (checkConfig_valid c Hvalid) in Hok. congruence.
Qed.




(** The configuration is fixed at construction: no operation changes it. *)
Lemma create_config shardID s :
  SConfig (createAndRegisterNewShard shardID s).2 = SConfig s.
Proof.
  destruct (create_cases s shardID) as (r & s' & Heq & Hc & _). by rewrite Heq.
Qed.

Lemma ensure_config shardID s :
  SConfig (ensureShardExists shardID s).2 = SConfig s.
Proof.
  unfold ensureShardExists. run_op.
  destruct (SQL.count_shard shardID (MetaDB s) =? 0); [|done].
  pose proof (create_config shardID s) as Hc.
  by destruct (createAndRegisterNewShard shardID s) as [[[]|e] s'].
Qed.

Lemma createShardsFrom_config left i s :
  SConfig (createShardsFrom left i s).2 = SConfig s.
Proof.
  revert i s. induction left as [|left IH]; intros i s; [done|].
  simpl. run_op. pose proof (create_config i s) as Hc.
  destruct (createAndRegisterNewShard i s) as [[[]|e] s']; [|done].
  simpl in Hc. by rewrite IH.
Qed.

Lemma setUpShards_config s : SConfig (setUpShards s).2 = SConfig s.
Proof.
  unfold setUpShards. run_op.
  destruct (String.eqb (GenerationMode (SConfig s)) "dynamic").
  - pose proof (ensure_config 0 s) as He.
    destruct (ensureShardExists 0 s) as [[id|e] s1]; [|done]. simpl in He.
    destruct (id >? 0); [done|].
    pose proof (create_config 0 s1) as Hc.
    destruct (createAndRegisterNewShard 0 s1) as [[[]|e] s2]; simpl in *; congruence.
  - destruct (String.eqb (GenerationMode (SConfig s)) "on-startup"); [|done].
    unfold GetShardCount. run_op.
    destruct (SQL.count_all (MetaDB s) >=? MaxDBCount (SConfig s)); [done|].
    apply createShardsFrom_config.
Qed.


Lemma NewSharder_Ok c disk s d :
  NewSharder c disk = (Ok s, d) →
  valid_config c ∧ SConfig s = with_default_modes c ∧ d = MetaDB s
  ∧ setUpShards (mkSharder (with_default_modes c) disk) = (Ok tt, s).
Proof.
  unfold NewSharder. intros Hnew.
  destruct (checkConfig c) as [c'|e] eqn:Hcheck; [|done].
  apply checkConfig_Ok in Hcheck as (Hvalid & ->).
  pose proof (setUpShards_config (mkSharder (with_default_modes c) disk)) as Hc.
  destruct (setUpShards _) as [[[]|e] s1]; [|done].
  injection Hnew as <- <-. by auto.
Qed.

(** C10 at empty modes and [MaxDBCount = 1]: the checks accept the
    configuration and put "fill" and "dynamic" for the empty modes, and
    [NewSharder] all the same returns an error, the capacity error of the
    second [createAndRegisterNewShard(0)] of the dynamic set-up, with shard
    0 left registered. *)
Theorem C10_empty_modes_single_shard_fails :
  checkConfig empty_modes_single_shard
  = Ok (mkConfig "./tests" 2 1 "fill" "dynamic" None)
  ∧ NewSharder empty_modes_single_shard ∅
    = (Err (ErrWrap "failed to ensure initial shard 0 exists"
              (ErrWrap "failed to generate intial shard on dynamic startup"
                 (ErrMaxShards 1))),
       {[ 0 := mkShardRow "tests/shard_0.db" 0 ]}).
Proof. split; by vm_compute. Qed.

Example TestNewSharder_constructs :
  ∃ s, NewSharder test_config ∅ = (Ok s, MetaDB s)
       ∧ GenerationMode (SConfig s) = "dynamic"
       ∧ BalancingMode (SConfig s) = "fill"
       ∧ GetShardCount s = (Ok 1, s).
Proof.
  exists (mkSharder (mkConfig "./tests" 100 10 "fill" "dynamic" None)
                    {[ 0 := mkShardRow "tests/shard_0.db" 0 ]}).
  by vm_compute.
Qed.

(** The mode string of [TestNewShard] is not the value of [RoundRobbin]:
    construction is refused and nothing is written. *)
Example TestNewShard_mode_refused :
  NewSharder test_config_round_robbin ∅ = (Err (ErrBalancingMode "round-robbin"), ∅).
Proof. by vm_compute. Qed.

(** Dynamic start over an empty directory.  [ensureShardExists(0)] registers
    shard 0 and returns 0, so [shardID > 0] is false and
    [createAndRegisterNewShard(0)] runs a second time, count check first. *)
Lemma setUpShards_dynamic_empty c :
  GenerationMode c = "dynamic" →
  0 < MaxDBCount c →
  init_accepts c (Path.Join (BasePath c) (dbFilePattern 0)) →
  setUpShards (mkSharder c ∅)
  = (if MaxDBCount c =? 1
     then Err (ErrWrap "failed to generate intial shard on dynamic startup"
                       (ErrMaxShards (MaxDBCount c)))
     else Ok tt,
     mkSharder c {[ 0 := mkShardRow (Path.Join (BasePath c) (dbFilePattern 0)) 0 ]}).
Proof.
  intros Hmode Hmax Hinit. unfold setUpShards. run_op. rewrite Hmode.
  simpl (String.eqb _ _). cbv beta iota.
  unfold ensureShardExists. run_op.
  change (SQL.count_shard 0 ∅ =? 0) with true. cbv beta iota.
  rewrite (create_fresh (mkSharder c ∅) 0); [|done..].
  cbn [SConfig MetaDB]. cbv beta iota.
  change (0 >? 0) with false. cbv beta iota.
  rewrite insert_empty.
  destruct (Z.eqb_spec (MaxDBCount c) 1) as [Hone|Hmore].
  - rewrite create_at_ceiling; [done|].
    cbn [SConfig MetaDB]. unfold SQL.count_all. rewrite map_size_singleton. lia.
  - rewrite create_registered; [done| |].
    + cbn [SConfig MetaDB]. unfold SQL.count_all. rewrite map_size_singleton. lia.
    + cbn [MetaDB]. rewrite lookup_singleton_eq. by eexists.
Qed.

(** With room for a second shard, dynamic start leaves exactly shard 0. *)
Lemma NewSharder_dynamic_empty c :
  valid_config c →
  default_if_empty "dynamic" (GenerationMode c) = "dynamic" →
  1 < MaxDBCount c →
  init_accepts c (Path.Join (BasePath c) (dbFilePattern 0)) →
  ∃ s, NewSharder c ∅ = (Ok s, MetaDB s)
       ∧ MetaDB s = {[ 0 := mkShardRow (Path.Join (BasePath c) (dbFilePattern 0)) 0 ]}
       ∧ GetShardCount s = (Ok 1, s)
       ∧ GetItemCount 0 s = (Ok 0, s).
Proof.
  intros Hvalid Hmode Hmax Hinit. unfold NewSharder.
  rewrite (checkConfig_valid c Hvalid).
  rewrite (setUpShards_dynamic_empty (with_default_modes c)); [|done|simpl; lia|done].
  simpl (MaxDBCount _). destruct (Z.eqb_spec (MaxDBCount c) 1); [lia|].
  eexists. split; [done|]. split; [done|].
  split; [|by vm_compute].
  unfold GetShardCount. run_op. unfold SQL.count_all. by rewrite map_size_singleton.
Qed.

(** C9 at [MaxDBCount = 1]: the configuration passes the checks, shard 0 is
    registered, and [NewSharder] returns the capacity error of the second
    [createAndRegisterNewShard(0)]. *)
Theorem C9_dynamic_single_shard_fails :
  checkConfig dynamic_single_shard = Ok dynamic_single_shard
  ∧ NewSharder dynamic_single_shard ∅
    = (Err (ErrWrap "failed to ensure initial shard 0 exists"
              (ErrWrap "failed to generate intial shard on dynamic startup"
                 (ErrMaxShards 1))),
       {[ 0 := mkShardRow "tests/shard_0.db" 0 ]}).
Proof. split; by vm_compute. Qed.

Lemma create_Ok_registered shardID s s' :
  createAndRegisterNewShard shardID s = (Ok tt, s') →
  is_Some (MetaDB s' !! shardID).
Proof.
  destruct (create_cases s shardID) as (r & s1 & Heq & _ & Hcases).
  rewrite Heq. intros [= -> ->].
  destruct Hcases as [Hsame|(_ & _ & _ & ->)]; [|by rewrite lookup_insert_eq].
  rewrite Hsame. revert Heq. unfold createAndRegisterNewShard. run_op.
  destruct (SQL.count_all (MetaDB s) >=? MaxDBCount (SConfig s)); [done|].
  unfold SQL.count_shard.
  destruct (MetaDB s !! shardID) as [r|] eqn:Hl; [by eauto|].
  change (0 >? 0) with false. cbv beta iota.
  destruct (InitSchemaFunc (SConfig s)) as [init|];
    [destruct (init _); [done|]|];
    (cbv beta iota; unfold SQL.insert_shard; rewrite Hl;
     destruct (SQL.path_taken _ _); [done|]; intros [= <-];
     simpl in Hsame; apply (f_equal (λ t : gmap Z ShardRow, t !! shardID)) in Hsame;
     by rewrite lookup_insert_eq, Hl in Hsame).
Qed.

Lemma ensure_Ok_registered shardID s id s' :
  ensureShardExists shardID s = (Ok id, s') →
  id = shardID ∧ is_Some (MetaDB s' !! shardID).
Proof.
  unfold ensureShardExists. run_op. unfold SQL.count_shard.
  destruct (MetaDB s !! shardID) as [r|] eqn:Hl.
  - change (1 =? 0) with false. cbv beta iota. intros [= <- <-]. by eauto.
  - change (0 =? 0) with true. cbv beta iota.
    destruct (createAndRegisterNewShard shardID s) as [[[]|e] s1] eqn:Hcreate; [|done].
    intros [= <- <-]. split; [done|]. by eapply create_Ok_registered.
Qed.

(** The same for every valid dynamic configuration with [MaxDBCount = 1],
    whatever the directory holds. *)
Lemma NewSharder_dynamic_single_shard c disk :
  valid_config c →
  default_if_empty "dynamic" (GenerationMode c) = "dynamic" →
  MaxDBCount c = 1 →
  ∃ e d, NewSharder c disk = (Err e, d).
Proof.
  intros Hvalid Hmode Hone. unfold NewSharder.
  rewrite (checkConfig_valid c Hvalid).
  destruct (setUpShards _) as [[[]|e] s1] eqn:Hset; [|by eauto].
  exfalso. revert Hset. unfold setUpShards. run_op.
  cbn [with_default_modes GenerationMode]. rewrite Hmode.
  simpl (String.eqb _ _). cbv beta iota.
  pose proof (ensure_config 0 (mkSharder (with_default_modes c) disk)) as Hcfg.
  destruct (ensureShardExists 0 _) as [[id|e] s2] eqn:Hens; [|done].
  apply ensure_Ok_registered in Hens as (-> & [r Hl]). simpl in Hcfg.
  change (0 >? 0) with false. cbv beta iota.
  rewrite create_at_ceiling; [done|].
  rewrite Hcfg. simpl. rewrite Hone. unfold SQL.count_all.
  assert (size (MetaDB s2) ≠ 0%nat); [|lia].
  intros Hz. apply map_size_empty_inv in Hz. by rewrite Hz, lookup_empty in Hl.
Qed.

(** ** The effect of one assignment on the table *)

Lemma assign_cases s :
  ∃ r s', AssignItemToShard s = (r, s') ∧ SConfig s' = SConfig s ∧
    ((∃ e, r = Err e ∧ MetaDB s' = MetaDB s)
     ∨ (∃ id row, r = Ok id ∧ MetaDB s !! id = Some row
                  ∧ MetaDB s' = <[id := assigned row]> (MetaDB s))
     ∨ (∃ id path, r = Ok id ∧ id = nextShardID (MetaDB s)
                   ∧ id <= GoInt.sub (MaxDBCount (SConfig s)) 1
                   ∧ MetaDB s !! id = None
                   ∧ SQL.count_all (MetaDB s) < MaxDBCount (SConfig s)
                   ∧ MetaDB s' = <[id := mkShardRow path 1]> (MetaDB s))
     ∨ (∃ id row, r = Ok id ∧ id = nextShardID (MetaDB s)
                  ∧ MetaDB s !! id = Some row
                  ∧ MetaDB s' = <[id := with_item_count 1 row]> (MetaDB s))).
Proof.
  destruct (String.eqb_spec (BalancingMode (SConfig s)) "round-robin") as [Hrr|Hrr].
  { rewrite (assign_round_robin s Hrr).
    destruct (SQL.select_least_loaded (MetaDB s)) as [id|] eqn:Hsel.
    - apply select_least_loaded_Some in Hsel as (row & Hl & _).
      eexists _, _. split; [done|]. split; [done|]. right. left.
      exists id, row. simpl. by rewrite (increment_registered id row).
    - eexists _, _. split; [done|]. split; [done|]. left. by eauto. }
  destruct (String.eqb_spec (BalancingMode (SConfig s)) "fill") as [Hfill|Hfill];
    [|rewrite (assign_unknown_mode s Hrr Hfill);
      eexists _, _; split; [done|]; split; [done|]; left; by eauto].
  destruct (SQL.select_with_room (SoftCap (SConfig s)) (MetaDB s)) as [id|] eqn:Hsel.
  { rewrite (assign_fill_room s id Hfill Hsel).
    apply select_with_room_Some in Hsel as (row & Hl & _).
    eexists _, _. split; [done|]. split; [done|]. right. left.
    exists id, row. simpl. by rewrite (increment_registered id row). }
  destruct (decide (GoInt.sub (MaxDBCount (SConfig s)) 1 < nextShardID (MetaDB s)))
    as [Hceil|Hceil].
  { rewrite (assign_fill_saturated s Hfill Hsel Hceil).
    destruct (SQL.select_least_loaded (MetaDB s)) as [id|] eqn:Hleast.
    - apply select_least_loaded_Some in Hleast as (row & Hl & _).
      eexists _, _. split; [done|]. split; [done|]. right. left.
      exists id, row. simpl. by rewrite (increment_registered id row).
    - eexists _, _. split; [done|]. split; [done|]. left. by eauto. }
  rewrite (assign_fill_new_shard s Hfill Hsel) by lia.
  destruct (create_cases s (nextShardID (MetaDB s))) as (r & s1 & Heq & Hcfg & Hcases).
  rewrite Heq. destruct r as [[]|e].
  - eexists _, _. split; [done|]. split; [done|]. right. right.
    destruct Hcases as [Hsame|(_ & Hroom & Hfresh & Hins)].
    + right. apply create_Ok_registered in Heq as [row Hrow].
      rewrite Hsame in Hrow. exists (nextShardID (MetaDB s)), row.
      split; [done|]. split; [done|]. split; [done|]. simpl.
      unfold SQL.set_one. rewrite Hsame. by apply alter_registered.
    + left. eexists (nextShardID (MetaDB s)), _.
      split; [done|]. split; [done|]. split; [lia|]. split; [done|].
      split; [done|]. simpl. unfold SQL.set_one. rewrite Hins.
      rewrite (alter_registered _ _ _ _ (lookup_insert_eq _ _ _)).
      by rewrite insert_insert_eq.
  - eexists _, _. split; [done|]. split; [done|]. left.
    destruct Hcases as [Hsame|(Hr & _)]; [by eauto|done].
Qed.

(** ** Provisioning: what a run of creations does to the table *)

Lemma wf_table_empty : wf_table ∅.
Proof. intros id r Hl. by rewrite lookup_empty in Hl. Qed.

Lemma wf_table_insert t id r :
  wf_table t → GoInt.min_int <= id < GoInt.max_int → 0 <= item_count r →
  wf_table (<[id := r]> t).
Proof.
  intros Hwf Hid Hr id' r' Hl. destruct (decide (id' = id)) as [->|Hne].
  - rewrite lookup_insert_eq in Hl. by injection Hl as <-.
  - rewrite lookup_insert_ne in Hl by done. by eapply Hwf.
Qed.

Lemma count_all_insert_fresh (t : gmap Z ShardRow) id r :
  t !! id = None → SQL.count_all (<[id := r]> t) = SQL.count_all t + 1.
Proof. intros Hl. unfold SQL.count_all. rewrite map_size_insert_None by done. lia. Qed.

Lemma count_all_insert_registered (t : gmap Z ShardRow) id r r' :
  t !! id = Some r → SQL.count_all (<[id := r']> t) = SQL.count_all t.
Proof.
  intros Hl. unfold SQL.count_all.
  by rewrite map_size_insert_Some by (by eexists).
Qed.

Lemma total_items_insert_registered t id r r' :
  t !! id = Some r →
  total_items (<[id := r']> t) = total_items t - item_count r + item_count r'.
Proof.
  intros Hl. rewrite <- (alter_registered (λ _, r') t id r Hl).
  by rewrite (total_items_alter _ t id r Hl).
Qed.

Lemma provisioned_trans maxDB t1 t2 t3 :
  provisioned maxDB t1 t2 → provisioned maxDB t2 t3 → provisioned maxDB t1 t3.
Proof.
  intros H12 H23. induction H23 as [|t' id path H23 IH Hid Hfresh Hroom]; [done|].
  by constructor.
Qed.

Lemma provisioned_total maxDB t t' :
  provisioned maxDB t t' → total_items t' = total_items t.
Proof.
  induction 1 as [|t' id path _ IH Hid Hfresh Hroom]; [done|].
  rewrite total_items_insert by done. simpl. lia.
Qed.

Lemma provisioned_count maxDB t t' :
  provisioned maxDB t t' →
  SQL.count_all t <= SQL.count_all t' <= Z.max (SQL.count_all t) maxDB.
Proof.
  induction 1 as [|t' id path _ IH Hid Hfresh Hroom]; [lia|].
  rewrite count_all_insert_fresh by done. lia.
Qed.

Lemma provisioned_wf maxDB t t' :
  maxDB <= GoInt.max_int →
  provisioned maxDB t t' → wf_table t → wf_table t'.
Proof.
  intros Hmax Hprov Hwf.
  induction Hprov as [|t' id path _ IH Hid Hfresh Hroom]; [done|].
  apply wf_table_insert; [done|lia|done].
Qed.

Lemma provisioned_subseteq maxDB t t' : provisioned maxDB t t' → t ⊆ t'.
Proof.
  induction 1 as [|t' id path _ IH Hid Hfresh Hroom]; [done|].
  etrans; [exact IH|]. by apply insert_subseteq.
Qed.

(** One call of [createAndRegisterNewShard] under an id below [MaxDBCount]. *)
Lemma create_provisions shardID s :
  GoInt.min_int <= shardID →
  (SQL.count_all (MetaDB s) < MaxDBCount (SConfig s) → shardID < MaxDBCount (SConfig s)) →
  provisioned (MaxDBCount (SConfig s)) (MetaDB s)
              (MetaDB (createAndRegisterNewShard shardID s).2).
Proof.
  intros Hlo Hhi.
  destruct (create_cases s shardID) as (r & s' & Heq & _ & Hcases). rewrite Heq.
  simpl. destruct Hcases as [->|(_ & Hroom & Hfresh & ->)]; [constructor|].
  constructor; [constructor|lia|done|done].
Qed.

Lemma ensure_provisions shardID s :
  GoInt.min_int <= shardID →
  (SQL.count_all (MetaDB s) < MaxDBCount (SConfig s) → shardID < MaxDBCount (SConfig s)) →
  provisioned (MaxDBCount (SConfig s)) (MetaDB s)
              (MetaDB (ensureShardExists shardID s).2).
Proof.
  intros Hlo Hhi. unfold ensureShardExists. run_op.
  destruct (SQL.count_shard shardID (MetaDB s) =? 0); [|constructor].
  pose proof (create_provisions shardID s Hlo Hhi) as Hprov.
  by destruct (createAndRegisterNewShard shardID s) as [[[]|e] s'].
Qed.

Lemma createShardsFrom_provisions left i s :
  0 <= i → i + Z.of_nat left <= MaxDBCount (SConfig s) →
  provisioned (MaxDBCount (SConfig s)) (MetaDB s)
              (MetaDB (createShardsFrom left i s).2).
Proof.
  revert i s. induction left as [|left IH]; intros i s Hlo Hhi; [constructor|].
  simpl. run_op.
  assert (provisioned (MaxDBCount (SConfig s)) (MetaDB s)
                      (MetaDB (createAndRegisterNewShard i s).2)) as Hprov.
  { apply create_provisions; unfold GoInt.min_int; lia. }
  pose proof (create_config i s) as Hcfg.
  destruct (createAndRegisterNewShard i s) as [[[]|e] s']; [|done].
  simpl in *. eapply provisioned_trans; [exact Hprov|].
  rewrite <- Hcfg. apply IH; [lia|rewrite Hcfg; lia].
Qed.

Lemma setUpShards_provisions s :
  provisioned (MaxDBCount (SConfig s)) (MetaDB s) (MetaDB (setUpShards s).2).
Proof.
  unfold setUpShards. run_op.
  assert (∀ s' : Sharder, SQL.count_all (MetaDB s') < MaxDBCount (SConfig s')
                          → 0 < MaxDBCount (SConfig s')) as Hzero.
  { intros s'. unfold SQL.count_all. lia. }
  destruct (String.eqb (GenerationMode (SConfig s)) "dynamic").
  - pose proof (ensure_provisions 0 s) as Hens.
    pose proof (ensure_config 0 s) as Hcfg.
    destruct (ensureShardExists 0 s) as [[id|e] s1]; simpl in *;
      [|apply Hens; [unfold GoInt.min_int; lia|apply Hzero]].
    destruct (id >? 0); [apply Hens; [unfold GoInt.min_int; lia|apply Hzero]|].
    eapply provisioned_trans;
      [apply Hens; [unfold GoInt.min_int; lia|apply Hzero]|].
    pose proof (create_provisions 0 s1) as Hcreate. rewrite Hcfg in Hcreate.
    destruct (createAndRegisterNewShard 0 s1) as [[[]|e] s2]; simpl in *;
      (apply Hcreate; [unfold GoInt.min_int; lia|rewrite <- Hcfg; apply Hzero]).
  - destruct (String.eqb (GenerationMode (SConfig s)) "on-startup"); [|constructor].
    unfold GetShardCount. run_op.
    destruct (Z.geb_spec (SQL.count_all (MetaDB s)) (MaxDBCount (SConfig s)));
      [constructor|].
    apply createShardsFrom_provisions; unfold SQL.count_all in *; simpl; lia.
Qed.

Lemma NewSharder_provisions c disk s d :
  NewSharder c disk = (Ok s, d) → provisioned (MaxDBCount c) disk (MetaDB s).
Proof.
  intros Hnew. apply NewSharder_Ok in Hnew as (_ & _ & _ & Hset).
  pose proof (setUpShards_provisions (mkSharder (with_default_modes c) disk)) as Hprov.
  by rewrite Hset in Hprov.
Qed.

(** ** Sequences of calls *)

Lemma assign_config s : SConfig (AssignItemToShard s).2 = SConfig s.
Proof. destruct (assign_cases s) as (r & s' & Heq & Hcfg & _). by rewrite Heq. Qed.

Lemma reachable_config s0 s : reachable s0 s → SConfig s = SConfig s0.
Proof.
  induction 1 as [|s _ IH|s ID _ IH|s shardID _ IH|s shardID _ IH]; [done|..].
  - by rewrite assign_config.
  - done.
  - by rewrite create_config.
  - by rewrite ensure_config.
Qed.

Lemma create_count shardID s :
  SQL.count_all (MetaDB (createAndRegisterNewShard shardID s).2)
  <= Z.max (SQL.count_all (MetaDB s)) (MaxDBCount (SConfig s)).
Proof.
  destruct (create_cases s shardID) as (r & s' & Heq & _ & Hcases). rewrite Heq.
  simpl. destruct Hcases as [->|(_ & Hroom & Hfresh & ->)]; [lia|].
  rewrite count_all_insert_fresh by done. lia.
Qed.

Lemma ensure_count shardID s :
  SQL.count_all (MetaDB (ensureShardExists shardID s).2)
  <= Z.max (SQL.count_all (MetaDB s)) (MaxDBCount (SConfig s)).
Proof.
  unfold ensureShardExists. run_op.
  destruct (SQL.count_shard shardID (MetaDB s) =? 0); [|simpl; lia].
  pose proof (create_count shardID s) as Hcount.
  by destruct (createAndRegisterNewShard shardID s) as [[[]|e] s'].
Qed.

Lemma assign_count s :
  SQL.count_all (MetaDB (AssignItemToShard s).2)
  <= Z.max (SQL.count_all (MetaDB s)) (MaxDBCount (SConfig s)).
Proof.
  destruct (assign_cases s) as (r & s' & Heq & _ & Hcases). rewrite Heq. simpl.
  destruct Hcases as [(e & _ & ->)|[(id & row & _ & Hl & ->)
    |[(id & path & _ & _ & _ & Hfresh & Hroom & ->)|(id & row & _ & _ & Hl & ->)]]].
  - lia.
  - rewrite (count_all_insert_registered _ _ row) by done. lia.
  - rewrite count_all_insert_fresh by done. lia.
  - rewrite (count_all_insert_registered _ _ row) by done. lia.
Qed.

Lemma remove_count ID s :
  SQL.count_all (MetaDB (RemoveItemFromShard ID s).2) = SQL.count_all (MetaDB s).
Proof. unfold SQL.count_all. simpl. unfold SQL.decrement. by rewrite size_alter. Qed.

Lemma reachable_count s0 s :
  reachable s0 s →
  SQL.count_all (MetaDB s) <= Z.max (SQL.count_all (MetaDB s0)) (MaxDBCount (SConfig s0)).
Proof.
  induction 1 as [|s Hs IH|s ID Hs IH|s shardID Hs IH|s shardID Hs IH]; [lia|..].
  - pose proof (assign_count s). rewrite (reachable_config _ _ Hs) in *. lia.
  - by rewrite remove_count.
  - pose proof (create_count shardID s). rewrite (reachable_config _ _ Hs) in *. lia.
  - pose proof (ensure_count shardID s). rewrite (reachable_config _ _ Hs) in *. lia.
Qed.

(** C6, as stated, fails: a directory provisioned with five shards and opened
    again with [MaxDBCount = 2] constructs, keeps its five shards, and
    [GetShardCount] returns 5. *)
Lemma C6_counterexample_reopened_directory :
  valid_config reopened_with_two
  ∧ ∃ s, NewSharder reopened_with_two (NewSharder scenario_A ∅).2 = (Ok s, MetaDB s)
         ∧ MaxDBCount (SConfig s) = 2
         ∧ GetShardCount s = (Ok 5, s)
         ∧ ¬ (5 <= MaxDBCount (SConfig s)).
Proof.
  split.
  - unfold valid_config, recognized_generation, recognized_balancing. simpl.
    repeat split; (done || lia || by auto).
  - exists (mkSharder reopened_with_two (NewSharder scenario_A ∅).2).
    repeat split; by vm_compute.
Qed.

(** C6, amended: in every state reached from a [Sharder] that [NewSharder]
    returned, [GetShardCount] is at most the larger of [MaxDBCount] and the
    number of shards the directory held at construction, so at most
    [MaxDBCount] when the directory held no more than that; and once
    [MaxDBCount] shards are registered, [createAndRegisterNewShard] returns
    the capacity error and leaves the table as it is. *)
Theorem C6_shard_count_bounded (c : Config) (disk : gmap Z ShardRow)
        (s0 s : Sharder) (d : gmap Z ShardRow) :
  NewSharder c disk = (Ok s0, d) →
  reachable s0 s →
  (∃ n, GetShardCount s = (Ok n, s)
        ∧ n <= Z.max (SQL.count_all disk) (MaxDBCount c)
        ∧ (SQL.count_all disk <= MaxDBCount c → n <= MaxDBCount c))
  ∧ (MaxDBCount c <= SQL.count_all (MetaDB s) →
     ∀ shardID, createAndRegisterNewShard shardID s
                = (Err (ErrMaxShards (MaxDBCount c)), s)).
Proof.
  intros Hnew Hreach.
  pose proof (NewSharder_provisions _ _ _ _ Hnew) as Hprov.
  apply provisioned_count in Hprov.
  apply NewSharder_Ok in Hnew as (_ & Hcfg & _ & _).
  pose proof (reachable_count _ _ Hreach) as Hcount.
  pose proof (reachable_config _ _ Hreach) as Hsame.
  rewrite Hcfg in Hcount, Hsame. simpl in Hcount.
  split.
  - exists (SQL.count_all (MetaDB s)). split; [done|]. lia.
  - intros Hfull shardID. rewrite (create_at_ceiling s shardID); rewrite Hsame; done.
Qed.

(** ** Counting items *)

Lemma map_fold_agree {B} (f g : Z → ShardRow → B → B) (b : B) (m : gmap Z ShardRow) :
  (∀ id r acc, m !! id = Some r → f id r acc = g id r acc) →
  map_fold f b m = map_fold g b m.
Proof.
  induction m as [|i x m Hfresh Hfirst IH] using map_first_key_ind; intros Hfg.
  - by rewrite !map_fold_empty.
  - rewrite !map_fold_insert_first_key by done.
    rewrite Hfg by apply lookup_insert_eq. f_equal. apply IH.
    intros id r acc Hl. apply Hfg. rewrite lookup_insert_ne; [done|].
    intros ->. congruence.
Qed.

Lemma sum_GetItemCount_total s : sum_GetItemCount s = total_items (MetaDB s).
Proof.
  unfold sum_GetItemCount, total_items. apply map_fold_agree.
  intros id r acc Hl. unfold GetItemCount, SQL.select_item_count. run_op.
  by rewrite Hl.
Qed.

Lemma GetTotalItemCount_total s :
  (∀ id r, MetaDB s !! id = Some r → 0 <= item_count r) →
  total_items (MetaDB s) <= GoInt.max_int →
  GetTotalItemCount s = (Ok (total_items (MetaDB s)), s).
Proof.
  intros Hcounts Hfit. unfold GetTotalItemCount, scan. run_op.
  rewrite (sum_item_count_total _ Hcounts Hfit).
  case_decide as Hsz; [|done].
  apply map_size_empty_inv in Hsz. by rewrite Hsz, total_items_empty.
Qed.

Lemma nextShardID_fresh t :
  wf_table t → t !! nextShardID t = None ∧ GoInt.min_int <= nextShardID t.
Proof.
  intros Hwf. unfold nextShardID.
  pose proof (max_shard_id_spec t) as Hspec.
  destruct (SQL.max_shard_id t) as [m|].
  - destruct Hspec as ([r Hm] & Hmax).
    destruct (Hwf m r Hm) as [Hrange _].
    rewrite GoInt_add_exact by (unfold GoInt.in_range; lia). split; [|lia].
    destruct (t !! (m + 1)) as [r'|] eqn:Hl; [|done].
    assert (m + 1 <= m) by (apply Hmax; eauto). lia.
  - subst t. split; [done|]. unfold GoInt.min_int. lia.
Qed.

Lemma assign_total s id s' :
  wf_table (MetaDB s) →
  0 < MaxDBCount (SConfig s) <= GoInt.max_int →
  AssignItemToShard s = (Ok id, s') →
  total_items (MetaDB s') = total_items (MetaDB s) + 1 ∧ wf_table (MetaDB s').
Proof.
  intros Hwf Hmax Hassign.
  destruct (assign_cases s) as (r & s1 & Heq & _ & Hcases).
  rewrite Hassign in Heq. injection Heq as <- <-.
  pose proof (nextShardID_fresh _ Hwf) as [Hfresh Hlo].
  destruct Hcases as [(e & He & _)|[(id' & row & _ & Hl & ->)
    |[(id' & path & _ & -> & Hceil & _ & _ & ->)|(id' & row & _ & -> & Hl & _)]]].
  - done.
  - rewrite (total_items_insert_registered _ _ row) by done.
    destruct (Hwf id' row Hl) as [Hid Hrow]. split; [simpl; lia|].
    apply wf_table_insert; [done|done|simpl; lia].
  - rewrite total_items_insert by done. split; [simpl; lia|].
    rewrite GoInt_sub_exact in Hceil
      by (unfold GoInt.in_range, GoInt.min_int, GoInt.max_int in *; lia).
    apply wf_table_insert; [done|lia|simpl; lia].
  - congruence.
Qed.

Lemma remove_total ID s :
  wf_table (MetaDB s) →
  total_items (MetaDB (RemoveItemFromShard ID s).2)
  = total_items (MetaDB s) - (if takes_item ID (MetaDB s) then 1 else 0)
  ∧ wf_table (MetaDB (RemoveItemFromShard ID s).2).
Proof.
  intros Hwf. simpl. unfold SQL.decrement, takes_item.
  destruct (MetaDB s !! ID) as [r|] eqn:Hl.
  - destruct (Hwf ID r Hl) as [Hid Hr].
    rewrite (total_items_alter _ _ ID r Hl). simpl. split.
    + destruct (Z.ltb_spec 0 (item_count r)); lia.
    + rewrite (alter_registered _ _ ID r Hl).
      apply wf_table_insert; [done|done|simpl; lia].
  - rewrite alter_unregistered by done. split; [lia|done].
Qed.

Lemma do_op_config o s : SConfig (do_op o s).2 = SConfig s.
Proof.
  destruct o as [|ID]; [|done]. simpl. run_op.
  pose proof (assign_config s) as Hcfg.
  by destruct (AssignItemToShard s) as [[id|e] s'].
Qed.

(** The running total over a sequence of successful calls. *)
Lemma run_ops_total ops s sN :
  wf_table (MetaDB s) →
  0 < MaxDBCount (SConfig s) <= GoInt.max_int →
  run_ops ops s = Ok sN →
  total_items (MetaDB sN)
  = total_items (MetaDB s) + num_assigns ops - num_removes_taking ops s
  ∧ wf_table (MetaDB sN).
Proof.
  revert s. induction ops as [|o rest IH]; intros s Hwf Hmax Hrun.
  - simpl in Hrun. injection Hrun as <-. simpl. split; [lia|done].
  - simpl in Hrun. pose proof (do_op_config o s) as Hcfg.
    destruct (do_op o s) as [[[]|e] s1] eqn:Hop; [|done]. simpl in Hcfg.
    assert (0 < MaxDBCount (SConfig s1) <= GoInt.max_int) as Hmax1
      by (by rewrite Hcfg).
    destruct o as [|ID].
    + simpl in Hop. revert Hop. run_op.
      destruct (AssignItemToShard s) as [[id|e] s2] eqn:Hassign; [|done].
      intros [= ->].
      destruct (assign_total s id s1 Hwf Hmax Hassign) as [Htotal Hwf1].
      destruct (IH s1 Hwf1 Hmax1 Hrun) as [Hrest HwfN].
      split; [|done]. rewrite Hrest, Htotal.
      cbn [num_assigns num_removes_taking do_op]. run_op. rewrite Hassign. simpl. lia.
    + simpl in Hop. injection Hop as <-.
      destruct (remove_total ID s Hwf) as [Htotal Hwf1].
      destruct (IH _ Hwf1 Hmax1 Hrun) as [Hrest HwfN].
      split; [|done]. rewrite Hrest, Htotal.
      cbn [num_assigns num_removes_taking do_op]. lia.
Qed.

(** C5, as stated, fails: on a fresh [Sharder] one removal succeeds and the
    total stays 0, not 0 - 1. *)
Lemma C5_counterexample_remove_on_empty_shard :
  ∃ s0 s1,
    NewSharder scenario_A ∅ = (Ok s0, MetaDB s0)
    ∧ run_ops [OpRemove 0] s0 = Ok s1
    ∧ GetTotalItemCount s1 = (Ok 0, s1)
    ∧ num_assigns [OpRemove 0] - num_removes [OpRemove 0] = -1
    ∧ (GetTotalItemCount s1).1
      ≠ Ok (num_assigns [OpRemove 0] - num_removes [OpRemove 0]).
Proof.
  exists (mkSharder scenario_A (NewSharder scenario_A ∅).2),
         (mkSharder scenario_A (NewSharder scenario_A ∅).2).
  repeat split; by vm_compute.
Qed.

Lemma num_removes_taking_nonneg ops s : 0 <= num_removes_taking ops s.
Proof.
  revert s. induction ops as [|o rest IH]; intros s; [done|].
  cbn [num_removes_taking]. specialize (IH (do_op o s).2).
  destruct o as [|ID]; [lia|]. destruct (takes_item ID (MetaDB s)); lia.
Qed.

(** C5, amended: after every sequence of successful assignments and
    removals on a [Sharder] that [NewSharder] returned over a directory
    whose shard identifiers are below the largest [int], whose counts are
    not negative and whose total, with the assignments made, fits 64 bits,
    [GetTotalItemCount] is the sum of [GetItemCount] over the registered
    shards, and it is the total the directory held at construction (0 for
    an empty one) plus the number of assignments minus the number of
    removals that found their shard registered with a count above 0. *)
Theorem C5_total_counts_net_operations (c : Config) (disk : gmap Z ShardRow)
        (s0 sN : Sharder) (d : gmap Z ShardRow) (ops : list op) :
  MaxDBCount c <= GoInt.max_int →
  wf_table disk →
  total_items disk + num_assigns ops <= GoInt.max_int →
  NewSharder c disk = (Ok s0, d) →
  run_ops ops s0 = Ok sN →
  ∃ total,
    GetTotalItemCount sN = (Ok total, sN)
    ∧ total = sum_GetItemCount sN
    ∧ total = total_items disk + num_assigns ops - num_removes_taking ops s0.
Proof.
  intros Hint Hwf Hfit Hnew Hrun.
  pose proof (NewSharder_provisions _ _ _ _ Hnew) as Hprov.
  apply NewSharder_Ok in Hnew as ((_ & _ & Hpos & _) & Hcfg & _ & _).
  pose proof (provisioned_wf _ _ _ Hint Hprov Hwf) as Hwf0.
  pose proof (provisioned_total _ _ _ Hprov) as Htotal0.
  destruct (run_ops_total ops s0 sN Hwf0) as [Htotal HwfN]; [|done|].
  { rewrite Hcfg. simpl. lia. }
  pose proof (num_removes_taking_nonneg ops s0) as Htaken.
  exists (total_items (MetaDB sN)). split.
  - apply GetTotalItemCount_total; [|lia].
    intros id r Hl. by destruct (HwfN id r Hl).
  - split; [by rewrite sum_GetItemCount_total|]. lia.
Qed.

(** Past 64 bits the engine refuses the sum: with a shard at the largest
    [int] and another holding one item, [GetTotalItemCount] returns the
    error. *)
Example GetTotalItemCount_integer_overflow :
  GetTotalItemCount
    (mkSharder scenario_A
               (<[1 := mkShardRow "tests/shard_1.db" 1]>
                  {[0 := mkShardRow "tests/shard_0.db" GoInt.max_int]}))
  = (Err (ErrWrap "failed to query total item_count" ErrIntegerOverflow),
     mkSharder scenario_A
               (<[1 := mkShardRow "tests/shard_1.db" 1]>
                  {[0 := mkShardRow "tests/shard_0.db" GoInt.max_int]})).
Proof. by vm_compute. Qed.

(** Why the identifiers have to be below the largest [int]: after that
    shard the next identifier wraps around to the smallest [int]; the first
    assignment registers it, the second fills it, and the third finds it
    registered and sets its count back to 1.  Three assignments succeed and
    the total goes from 2 to 3. *)
Example assign_after_largest_id_resets_a_count :
  ∃ sN,
    run_ops [OpAssign; OpAssign; OpAssign] shard_at_largest_id = Ok sN
    ∧ total_items (MetaDB shard_at_largest_id) = 2
    ∧ MetaDB sN !! GoInt.min_int
      = Some (mkShardRow (shard_path "./tests" GoInt.min_int) 1)
    ∧ GetTotalItemCount sN = (Ok 3, sN).
Proof.
  exists (mkSharder (SConfig shard_at_largest_id)
            (<[GoInt.min_int := mkShardRow (shard_path "./tests" GoInt.min_int) 1]>
               (MetaDB shard_at_largest_id))).
  repeat split; by vm_compute.
Qed.

(** ** Shard files under a base path *)

Section PathFacts.

Local Open Scope string_scope.

Lemma append_cons x (a b : string) : String x a ++ b = String x (a ++ b).
Proof. reflexivity. Qed.

Lemma append_empty_l (b : string) : "" ++ b = b.
Proof. reflexivity. Qed.

Lemma append_empty_r (a : string) : a ++ "" = a.
Proof. induction a as [|x a IH]; [done|]. by rewrite append_cons, IH. Qed.

Lemma append_assoc (a b c : string) : (a ++ b) ++ c = a ++ (b ++ c).
Proof.
  induction a as [|x a IH]; [done|]. by rewrite !append_cons, IH.
Qed.

Lemma append_nonempty (a b : string) : b ≠ "" → a ++ b ≠ "".
Proof. intros Hb. destruct a; [done|by rewrite append_cons]. Qed.

Lemma eqb_append_l (a b c : string) :
  String.eqb (a ++ b) (a ++ c) = String.eqb b c.
Proof.
  induction a as [|x a IH]; [done|].
  rewrite !append_cons. simpl. by rewrite Ascii.eqb_refl.
Qed.

Lemma split_from_plain cur name :
  no_separator name = true → Path.split_from cur name = [cur ++ name].
Proof.
  revert cur. induction name as [|x name IH]; intros cur Hname; simpl.
  - by rewrite append_empty_r.
  - simpl in Hname. apply andb_prop in Hname as [Hx Hname].
    apply negb_true_iff in Hx. rewrite Hx, IH by done.
    by rewrite append_assoc, append_cons, append_empty_l.
Qed.

Lemma split_from_file cur base name :
  no_separator name = true →
  Path.split_from cur (base ++ "/" ++ name)
  = (Path.split_from cur base ++ [name])%list.
Proof.
  intros Hname. revert cur. induction base as [|x base IH]; intros cur.
  - rewrite append_empty_l, append_cons, append_empty_l. simpl.
    by rewrite split_from_plain.
  - rewrite append_cons. simpl. destruct (Ascii.eqb x "/"); by rewrite IH.
Qed.

Lemma clean_elems_file rooted stack elems name :
  file_name name = true →
  Path.clean_elems rooted stack (elems ++ [name])%list
  = name :: Path.clean_elems rooted stack elems.
Proof.
  intros Hname. unfold file_name in Hname.
  apply andb_prop in Hname as [Hname Hdd]. apply andb_prop in Hname as [Hname Hd].
  apply andb_prop in Hname as [_ He].
  apply negb_true_iff in Hdd, Hd, He.
  revert stack. induction elems as [|e elems IH]; intros stack; simpl.
  - by rewrite He, Hd, Hdd.
  - destruct (String.eqb e "" || String.eqb e "."); [apply IH|].
    destruct (String.eqb e ".."); [|apply IH].
    destruct stack as [|top below]; [destruct rooted; apply IH|].
    destruct (String.eqb top ".."); apply IH.
Qed.

Lemma concat_file (kept : list string) name :
  String.concat "/" (kept ++ [name])%list
  = match kept with
    | [] => ""
    | _ => String.concat "/" kept ++ "/"
    end ++ name.
Proof.
  induction kept as [|x kept IH]; [done|].
  destruct kept as [|y kept]; simpl in *.
  - by rewrite append_assoc.
  - rewrite IH. by rewrite !append_assoc.
Qed.

Lemma is_rooted_append base rest :
  base ≠ "" → Path.is_rooted (base ++ rest) = Path.is_rooted base.
Proof. by destruct base. Qed.

(** [filepath.Join] of a base path and a file name: the cleaned directory,
    then the name. *)
Lemma Join_file base name :
  base ≠ "" → file_name name = true →
  Path.Join base name = dir_of base ++ name.
Proof.
  intros Hbase Hname. unfold Path.Join.
  apply String.eqb_neq in Hbase as Hb. rewrite Hb.
  assert (no_separator name = true ∧ name ≠ "") as [Hplain Hne].
  { unfold file_name in Hname. apply andb_prop in Hname as [Hname _].
    apply andb_prop in Hname as [Hname _]. apply andb_prop in Hname as [Hp He].
    split; [done|]. apply negb_true_iff in He. by apply String.eqb_neq. }
  apply String.eqb_neq in Hne as Hn. rewrite Hn.
  unfold Path.Clean, dir_of, Path.split.
  rewrite (is_rooted_append base) by (by apply String.eqb_neq).
  rewrite split_from_file, clean_elems_file by done.
  simpl rev. rewrite concat_file.
  destruct (Path.is_rooted base); [by rewrite append_assoc|].
  simpl. assert (String.eqb (match rev (Path.clean_elems false [] (Path.split_from "" base)) with
                              | [] => ""
                              | _ :: _ =>
                                  String.concat "/"
                                    (rev (Path.clean_elems false [] (Path.split_from "" base)))
                                  ++ "/"
                              end ++ name) "" = false) as ->; [|done].
  apply String.eqb_neq. by apply append_nonempty.
Qed.

(** Distinct file names give distinct paths under one base. *)
Lemma Join_file_eqb base name1 name2 :
  base ≠ "" → file_name name1 = true → file_name name2 = true →
  String.eqb (Path.Join base name1) (Path.Join base name2)
  = String.eqb name1 name2.
Proof.
  intros Hbase H1 H2. rewrite !Join_file by done. apply eqb_append_l.
Qed.

End PathFacts.

Lemma path_taken_empty path : SQL.path_taken path ∅ = false.
Proof. unfold SQL.path_taken. by rewrite map_fold_empty. Qed.

Lemma path_taken_insert path (t : gmap Z ShardRow) id r :
  t !! id = None →
  SQL.path_taken path (<[id := r]> t)
  = String.eqb (db_path r) path || SQL.path_taken path t.
Proof.
  intros Hfresh. unfold SQL.path_taken.
  rewrite map_fold_insert_L; [done| |done].
  intros. by rewrite !orb_assoc, (orb_comm (String.eqb (db_path z1) path)).
Qed.

(** ** Start-up provisioning over an empty directory *)

Lemma fresh_shards_lookup base n id :
  fresh_shards base n !! id
  = if decide (0 <= id < Z.of_nat n)
    then Some (mkShardRow (shard_path base id) 0) else None.
Proof.
  induction n as [|k IH]; cbn [fresh_shards].
  - rewrite lookup_empty. case_decide; [lia|done].
  - destruct (decide (id = Z.of_nat k)) as [->|Hne].
    + clear IH. rewrite lookup_insert_eq. case_decide; [done|lia].
    + rewrite lookup_insert_ne, IH by done. repeat case_decide; (done || lia).
Qed.

Lemma fresh_shards_count base n : SQL.count_all (fresh_shards base n) = Z.of_nat n.
Proof.
  induction n as [|k IH]; [done|]. simpl fresh_shards.
  rewrite count_all_insert_fresh, IH; [lia|].
  rewrite fresh_shards_lookup. case_decide; [lia|done].
Qed.

Section StartUp.

(** The first [N] shard files have distinct names that [filepath.Clean]
    keeps. *)
Variable N : nat.
Hypothesis names :
  ∀ j k : nat, (j < k < N)%nat →
    file_name (dbFilePattern (Z.of_nat j)) = true
    ∧ file_name (dbFilePattern (Z.of_nat k)) = true
    ∧ String.eqb (dbFilePattern (Z.of_nat j)) (dbFilePattern (Z.of_nat k)) = false.

Variable c : Config.
Hypothesis base_not_empty : BasePath c ≠ "".
Hypothesis init_ok : init_never_fails (InitSchemaFunc c).

Lemma fresh_shards_path_free (n k : nat) :
  (n <= k < N)%nat →
  SQL.path_taken (shard_path (BasePath c) (Z.of_nat k)) (fresh_shards (BasePath c) n)
  = false.
Proof.
  intros Hk. induction n as [|j IH]; [apply path_taken_empty|].
  simpl fresh_shards. rewrite path_taken_insert.
  - rewrite IH by lia. simpl. unfold shard_path.
    destruct (names j k) as (Hj & Hkn & Hjk); [lia|].
    by rewrite Join_file_eqb, Hjk.
  - rewrite fresh_shards_lookup. case_decide; [lia|done].
Qed.

Lemma createShardsFrom_fresh (left k : nat) :
  (k + left <= N)%nat →
  Z.of_nat (k + left) <= MaxDBCount c →
  createShardsFrom left (Z.of_nat k) (mkSharder c (fresh_shards (BasePath c) k))
  = (Ok tt, mkSharder c (fresh_shards (BasePath c) (k + left))).
Proof.
  revert k. induction left as [|left IH]; intros k HN Hmax.
  - by rewrite Nat.add_0_r.
  - simpl createShardsFrom. run_op.
    rewrite (create_fresh (mkSharder c (fresh_shards (BasePath c) k))).
    + cbn [SConfig MetaDB].
      replace (Z.of_nat k + 1) with (Z.of_nat (S k)) by lia.
      change (<[Z.of_nat k := _]> (fresh_shards (BasePath c) k))
        with (fresh_shards (BasePath c) (S k)).
      rewrite IH by lia. by rewrite Nat.add_succ_r.
    + cbn [SConfig MetaDB]. rewrite fresh_shards_count. lia.
    + cbn [MetaDB]. rewrite fresh_shards_lookup. case_decide; [lia|done].
    + unfold init_accepts. cbn [SConfig].
      destruct (InitSchemaFunc c) as [f|] eqn:Hf; [|done]. by apply init_ok.
    + cbn [SConfig MetaDB]. apply (fresh_shards_path_free k k). lia.
Qed.

Lemma setUpShards_on_startup_empty (n : nat) :
  GenerationMode c = "on-startup" →
  MaxDBCount c = Z.of_nat n → (n <= N)%nat →
  setUpShards (mkSharder c ∅) = (Ok tt, mkSharder c (fresh_shards (BasePath c) n)).
Proof.
  intros Hmode Hmax HN. unfold setUpShards, GetShardCount. run_op.
  rewrite Hmode. simpl (String.eqb _ _). cbv beta iota. cbn [SConfig MetaDB].
  change (SQL.count_all ∅) with 0.
  destruct (Z.geb_spec 0 (MaxDBCount c)) as [Hzero|Hpos].
  - assert (n = 0%nat) as -> by lia. done.
  - rewrite Hmax, Z.sub_0_r, Nat2Z.id.
    apply (createShardsFrom_fresh n 0); simpl; lia.
Qed.

End StartUp.

Lemma first_five_names (j k : nat) :
  (j < k < 5)%nat →
  file_name (dbFilePattern (Z.of_nat j)) = true
  ∧ file_name (dbFilePattern (Z.of_nat k)) = true
  ∧ String.eqb (dbFilePattern (Z.of_nat j)) (dbFilePattern (Z.of_nat k)) = false.
Proof.
  intros Hjk.
  destruct k as [|[|[|[|[|k]]]]]; try lia;
    destruct j as [|[|[|[|[|j]]]]]; try lia; by vm_compute.
Qed.

Lemma NewSharder_scenario_A base init :
  base ≠ "" → init_never_fails init →
  NewSharder (scenario_A_under base init) ∅
  = (Ok (mkSharder (scenario_A_under base init) (fresh_shards base 5)),
     fresh_shards base 5).
Proof.
  intros Hbase Hinit. unfold NewSharder.
  rewrite checkConfig_valid.
  - change (with_default_modes (scenario_A_under base init))
      with (scenario_A_under base init).
    by rewrite (setUpShards_on_startup_empty 5 first_five_names
                  (scenario_A_under base init) Hbase Hinit 5).
  - unfold valid_config, recognized_generation, recognized_balancing. simpl.
    repeat split; (done || lia || by auto).
Qed.

(** ** Scenario A *)

(** C1: fill, soft cap 2, [MaxDBCount] 5, shards made at start, over an empty
    directory.  Construction succeeds with the five shards 0..4 and no others,
    each with no item;
    ten assignments return 0,0,1,1,2,2,3,3,4,4 and bring every shard to 2;
    the eleventh returns 0 and brings shard 0 to 3. *)
Theorem C1_scenario_A (base : string) (init : option (string → option string)) :
  base ≠ "" →
  init_never_fails init →
  ∃ s0,
    NewSharder (scenario_A_under base init) ∅ = (Ok s0, MetaDB s0)
    ∧ GetShardCount s0 = (Ok 5, s0)
    ∧ (∀ id, is_Some (MetaDB s0 !! id) ↔ 0 <= id < 5)
    ∧ item_counts [0; 1; 2; 3; 4] s0 = [Ok 0; Ok 0; Ok 0; Ok 0; Ok 0]
    ∧ (assign_times 10 s0).1
      = [Ok 0; Ok 0; Ok 1; Ok 1; Ok 2; Ok 2; Ok 3; Ok 3; Ok 4; Ok 4]
    ∧ item_counts [0; 1; 2; 3; 4] (assign_times 10 s0).2
      = [Ok 2; Ok 2; Ok 2; Ok 2; Ok 2]
    ∧ (AssignItemToShard (assign_times 10 s0).2).1 = Ok 0
    ∧ item_counts [0; 1; 2; 3; 4] (AssignItemToShard (assign_times 10 s0).2).2
      = [Ok 3; Ok 2; Ok 2; Ok 2; Ok 2]
    ∧ (GetShardCount (AssignItemToShard (assign_times 10 s0).2).2).1 = Ok 5.
Proof.
  intros Hbase Hinit.
  exists (mkSharder (scenario_A_under base init) (fresh_shards base 5)).
  split; [by apply NewSharder_scenario_A|].
  split; [by vm_compute|]. split.
  { intros id. cbn [MetaDB]. rewrite fresh_shards_lookup.
    case_decide; split; intros Hid; (done || lia || by destruct Hid). }
  unfold scenario_A_under. cbn [fresh_shards]. simpl (Z.of_nat _).
  generalize (shard_path base 0), (shard_path base 1), (shard_path base 2),
    (shard_path base 3), (shard_path base 4).
  intros p0 p1 p2 p3 p4. by vm_compute.
Qed.

Lemma C1_scenario_A_witness :
  "./tests" ≠ "" ∧ init_never_fails None
  ∧ ∃ s0,
      NewSharder (scenario_A_under "./tests" None) ∅ = (Ok s0, MetaDB s0)
      ∧ GetShardCount s0 = (Ok 5, s0)
      ∧ (∀ id, is_Some (MetaDB s0 !! id) ↔ 0 <= id < 5)
      ∧ item_counts [0; 1; 2; 3; 4] s0 = [Ok 0; Ok 0; Ok 0; Ok 0; Ok 0]
      ∧ (assign_times 10 s0).1
        = [Ok 0; Ok 0; Ok 1; Ok 1; Ok 2; Ok 2; Ok 3; Ok 3; Ok 4; Ok 4]
      ∧ item_counts [0; 1; 2; 3; 4] (assign_times 10 s0).2
        = [Ok 2; Ok 2; Ok 2; Ok 2; Ok 2]
      ∧ (AssignItemToShard (assign_times 10 s0).2).1 = Ok 0
      ∧ item_counts [0; 1; 2; 3; 4] (AssignItemToShard (assign_times 10 s0).2).2
        = [Ok 3; Ok 2; Ok 2; Ok 2; Ok 2]
      ∧ (GetShardCount (AssignItemToShard (assign_times 10 s0).2).2).1 = Ok 5.
Proof.
  assert ("./tests" ≠ "") as Hbase by discriminate.
  assert (init_never_fails None) as Hinit by (intros f path; discriminate).
  split; [exact Hbase|]. split; [exact Hinit|].
  exact (C1_scenario_A "./tests" None Hbase Hinit).
Defined.

(** ** The theorems on sample states *)

Lemma sample_rows_counts first counts id r :
  sample_rows first counts !! id = Some r → In (item_count r) counts.
Proof.
  revert first. induction counts as [|n rest IH]; intros first Hl; simpl in Hl.
  - by rewrite lookup_empty in Hl.
  - destruct (decide (id = first)) as [->|Hne].
    + rewrite lookup_insert_eq in Hl. injection Hl as <-. by left.
    + rewrite lookup_insert_ne in Hl by done. right. by eapply IH.
Qed.

Lemma C2_fill_saturates_least_loaded_witness :
  BalancingMode (SConfig (sample "fill" [3; 2; 2; 4; 2])) = "fill"
  ∧ (∀ id r, MetaDB (sample "fill" [3; 2; 2; 4; 2]) !! id = Some r →
             SoftCap (SConfig (sample "fill" [3; 2; 2; 4; 2])) <= item_count r)
  ∧ max_registered (MetaDB (sample "fill" [3; 2; 2; 4; 2])) 4
  ∧ GoInt.add 4 1 > GoInt.sub (MaxDBCount (SConfig (sample "fill" [3; 2; 2; 4; 2]))) 1
  ∧ ∃ id r s',
      AssignItemToShard (sample "fill" [3; 2; 2; 4; 2]) = (Ok id, s')
      ∧ least_loaded (MetaDB (sample "fill" [3; 2; 2; 4; 2])) id
      ∧ MetaDB (sample "fill" [3; 2; 2; 4; 2]) !! id = Some r
      ∧ MetaDB s' = <[id := mkShardRow (db_path r) (item_count r + 1)]>
                      (MetaDB (sample "fill" [3; 2; 2; 4; 2]))
      ∧ dom (MetaDB s') = dom (MetaDB (sample "fill" [3; 2; 2; 4; 2]))
      ∧ SConfig s' = SConfig (sample "fill" [3; 2; 2; 4; 2]).
Proof.
  assert (BalancingMode (SConfig (sample "fill" [3; 2; 2; 4; 2])) = "fill")
    as Hmode by reflexivity.
  assert (∀ id r, MetaDB (sample "fill" [3; 2; 2; 4; 2]) !! id = Some r →
                  SoftCap (SConfig (sample "fill" [3; 2; 2; 4; 2])) <= item_count r)
    as Hfull.
  { intros id r Hl. apply sample_rows_counts in Hl. simpl in Hl |- *. lia. }
  assert (max_registered (MetaDB (sample "fill" [3; 2; 2; 4; 2])) 4) as Hmax.
  { apply max_shard_id_Some. vm_compute. reflexivity. }
  assert (GoInt.add 4 1
          > GoInt.sub (MaxDBCount (SConfig (sample "fill" [3; 2; 2; 4; 2]))) 1)
    as Hceil by (vm_compute; reflexivity).
  split; [exact Hmode|]. split; [exact Hfull|]. split; [exact Hmax|].
  split; [exact Hceil|].
  exact (C2_fill_saturates_least_loaded _ 4 Hmode Hfull Hmax Hceil).
Defined.

Lemma C3_fill_takes_lowest_id_with_room_witness :
  BalancingMode (SConfig (sample "fill" [2; 1; 0])) = "fill"
  ∧ MetaDB (sample "fill" [2; 1; 0]) !! 2 = Some (mkShardRow "tests/shard_2.db" 0)
  ∧ item_count (mkShardRow "tests/shard_2.db" 0) < SoftCap (SConfig (sample "fill" [2; 1; 0]))
  ∧ ∃ id r,
      first_with_room (SoftCap (SConfig (sample "fill" [2; 1; 0])))
                      (MetaDB (sample "fill" [2; 1; 0])) id
      ∧ MetaDB (sample "fill" [2; 1; 0]) !! id = Some r
      ∧ AssignItemToShard (sample "fill" [2; 1; 0])
        = (Ok id, mkSharder (SConfig (sample "fill" [2; 1; 0]))
                            (<[id := mkShardRow (db_path r) (item_count r + 1)]>
                               (MetaDB (sample "fill" [2; 1; 0]))))
      ∧ ∀ id', id' ≠ id →
          MetaDB (AssignItemToShard (sample "fill" [2; 1; 0])).2 !! id'
          = MetaDB (sample "fill" [2; 1; 0]) !! id'.
Proof.
  assert (BalancingMode (SConfig (sample "fill" [2; 1; 0])) = "fill")
    as Hmode by reflexivity.
  assert (MetaDB (sample "fill" [2; 1; 0]) !! 2
          = Some (mkShardRow "tests/shard_2.db" 0)) as Hl
    by (vm_compute; reflexivity).
  assert (item_count (mkShardRow "tests/shard_2.db" 0)
          < SoftCap (SConfig (sample "fill" [2; 1; 0]))) as Hroom
    by (vm_compute; reflexivity).
  split; [exact Hmode|]. split; [exact Hl|]. split; [exact Hroom|].
  exact (C3_fill_takes_lowest_id_with_room _ 2 _ Hmode Hl Hroom).
Defined.

Lemma C4_round_robin_takes_least_loaded_witness :
  BalancingMode (SConfig (sample "round-robin" [4; 3; 3])) = "round-robin"
  ∧ match AssignItemToShard (sample "round-robin" [4; 3; 3]) with
    | (Ok id, s') =>
        least_loaded (MetaDB (sample "round-robin" [4; 3; 3])) id
        ∧ (∃ r, MetaDB (sample "round-robin" [4; 3; 3]) !! id = Some r
                ∧ MetaDB s' = <[id := mkShardRow (db_path r) (item_count r + 1)]>
                                (MetaDB (sample "round-robin" [4; 3; 3])))
        ∧ dom (MetaDB s') = dom (MetaDB (sample "round-robin" [4; 3; 3]))
        ∧ SConfig s' = SConfig (sample "round-robin" [4; 3; 3])
    | (Err _, s') =>
        MetaDB (sample "round-robin" [4; 3; 3]) = ∅
        ∧ s' = sample "round-robin" [4; 3; 3]
    end.
Proof.
  assert (BalancingMode (SConfig (sample "round-robin" [4; 3; 3])) = "round-robin")
    as Hmode by reflexivity.
  split; [exact Hmode|].
  exact (C4_round_robin_takes_least_loaded _ Hmode).
Defined.

Example round_robin_sample_returns_shard_1 :
  (AssignItemToShard (sample "round-robin" [4; 3; 3])).1 = Ok 1.
Proof. by vm_compute. Qed.

Lemma C5_total_counts_net_operations_witness :
  ∃ s0 sN,
    MaxDBCount scenario_A <= GoInt.max_int
    ∧ wf_table ∅
    ∧ total_items ∅
      + num_assigns [OpAssign; OpRemove 3; OpAssign; OpAssign; OpRemove 0; OpRemove 7]
      <= GoInt.max_int
    ∧ NewSharder scenario_A ∅ = (Ok s0, MetaDB s0)
    ∧ run_ops [OpAssign; OpRemove 3; OpAssign; OpAssign; OpRemove 0; OpRemove 7] s0
      = Ok sN
    ∧ ∃ total,
        GetTotalItemCount sN = (Ok total, sN)
        ∧ total = sum_GetItemCount sN
        ∧ total = total_items ∅
                  + num_assigns [OpAssign; OpRemove 3; OpAssign; OpAssign;
                                 OpRemove 0; OpRemove 7]
                  - num_removes_taking [OpAssign; OpRemove 3; OpAssign; OpAssign;
                                        OpRemove 0; OpRemove 7] s0.
Proof.
  exists (sample "fill" [0; 0; 0; 0; 0]), (sample "fill" [1; 1; 0; 0; 0]).
  assert (MaxDBCount scenario_A <= GoInt.max_int) as Hint by (vm_compute; discriminate).
  assert (NewSharder scenario_A ∅
          = (Ok (sample "fill" [0; 0; 0; 0; 0]), MetaDB (sample "fill" [0; 0; 0; 0; 0])))
    as Hnew by (vm_compute; reflexivity).
  assert (run_ops [OpAssign; OpRemove 3; OpAssign; OpAssign; OpRemove 0; OpRemove 7]
                  (sample "fill" [0; 0; 0; 0; 0])
          = Ok (sample "fill" [1; 1; 0; 0; 0])) as Hrun by (vm_compute; reflexivity).
  assert (total_items ∅
          + num_assigns [OpAssign; OpRemove 3; OpAssign; OpAssign; OpRemove 0; OpRemove 7]
          <= GoInt.max_int) as Hfit by (vm_compute; discriminate).
  split; [exact Hint|]. split; [exact wf_table_empty|]. split; [exact Hfit|].
  split; [exact Hnew|]. split; [exact Hrun|].
  exact (C5_total_counts_net_operations scenario_A ∅ _ _ _ _
           Hint wf_table_empty Hfit Hnew Hrun).
Defined.

Lemma C6_shard_count_bounded_witness :
  ∃ s0,
    NewSharder scenario_A ∅ = (Ok s0, MetaDB s0)
    ∧ reachable s0 (AssignItemToShard (RemoveItemFromShard 2 s0).2).2
    ∧ (∃ n, GetShardCount (AssignItemToShard (RemoveItemFromShard 2 s0).2).2
            = (Ok n, (AssignItemToShard (RemoveItemFromShard 2 s0).2).2)
            ∧ n <= Z.max (SQL.count_all ∅) (MaxDBCount scenario_A)
            ∧ (SQL.count_all ∅ <= MaxDBCount scenario_A → n <= MaxDBCount scenario_A))
    ∧ (MaxDBCount scenario_A
       <= SQL.count_all (MetaDB (AssignItemToShard (RemoveItemFromShard 2 s0).2).2) →
       ∀ shardID,
         createAndRegisterNewShard shardID (AssignItemToShard (RemoveItemFromShard 2 s0).2).2
         = (Err (ErrMaxShards (MaxDBCount scenario_A)),
            (AssignItemToShard (RemoveItemFromShard 2 s0).2).2)).
Proof.
  exists (sample "fill" [0; 0; 0; 0; 0]).
  assert (NewSharder scenario_A ∅
          = (Ok (sample "fill" [0; 0; 0; 0; 0]), MetaDB (sample "fill" [0; 0; 0; 0; 0])))
    as Hnew by (vm_compute; reflexivity).
  assert (reachable (sample "fill" [0; 0; 0; 0; 0])
            (AssignItemToShard (RemoveItemFromShard 2 (sample "fill" [0; 0; 0; 0; 0])).2).2)
    as Hreach by (apply reach_assign, reach_remove, reach_start).
  split; [exact Hnew|]. split; [exact Hreach|].
  exact (C6_shard_count_bounded scenario_A ∅ _ _ _ Hnew Hreach).
Defined.

Lemma C8_create_registered_shard_witness :
  is_Some (MetaDB (sample "fill" [1; 0]) !! 1)
  ∧ (SQL.count_all (MetaDB (sample "fill" [1; 0])) < MaxDBCount (SConfig (sample "fill" [1; 0])) →
     createAndRegisterNewShard 1 (sample "fill" [1; 0]) = (Ok tt, sample "fill" [1; 0]))
  ∧ (MaxDBCount (SConfig (sample "fill" [1; 0])) <= SQL.count_all (MetaDB (sample "fill" [1; 0])) →
     createAndRegisterNewShard 1 (sample "fill" [1; 0])
     = (Err (ErrMaxShards (MaxDBCount (SConfig (sample "fill" [1; 0])))), sample "fill" [1; 0])).
Proof.
  assert (is_Some (MetaDB (sample "fill" [1; 0]) !! 1)) as Hreg
    by (vm_compute; eexists; reflexivity).
  split; [exact Hreg|].
  exact (C8_create_registered_shard _ 1 Hreg).
Defined.

Example create_registered_sample_succeeds :
  createAndRegisterNewShard 1 (sample "fill" [1; 0]) = (Ok tt, sample "fill" [1; 0]).
Proof. by vm_compute. Qed.

(** * Further properties

    ** The names of the shard files *)

Lemma no_separator_append (a b : string) :
  no_separator (a ++ b)%string = no_separator a && no_separator b.
Proof.
  induction a as [|x a IH]; [done|].
  rewrite append_cons. simpl. rewrite IH. by rewrite andb_assoc.
Qed.

Lemma string_of_uint_no_separator (d : Decimal.uint) :
  no_separator (NilEmpty.string_of_uint d) = true.
Proof. induction d; simpl; done. Qed.

Lemma itoa_no_separator (z : Z) : no_separator (Path.itoa z) = true.
Proof.
  unfold Path.itoa, NilZero.string_of_int, NilZero.string_of_uint.
  destruct (Z.to_int z) as [d|d]; destruct d; simpl;
    by rewrite ?string_of_uint_no_separator.
Qed.

Lemma to_int_normal (z : Z) :
  Z.to_int z ≠ Decimal.Pos Decimal.Nil ∧ Z.to_int z ≠ Decimal.Neg Decimal.Nil.
Proof.
  pose proof (DecimalZ.to_of (Z.to_int z)) as Hnorm.
  rewrite DecimalZ.of_to in Hnorm.
  split; intros Hnil; rewrite Hnil in Hnorm; discriminate.
Qed.

Lemma itoa_inj (a b : Z) : Path.itoa a = Path.itoa b → a = b.
Proof.
  unfold Path.itoa. intros Heq. apply DecimalZ.to_int_inj.
  apply (f_equal NilZero.int_of_string) in Heq.
  destruct (to_int_normal a), (to_int_normal b).
  rewrite !NilZero.isi in Heq by done. congruence.
Qed.

Lemma length_append (a b : string) :
  String.length (a ++ b)%string = (String.length a + String.length b)%nat.
Proof.
  induction a as [|x a IH]; [done|]. rewrite append_cons. simpl. by rewrite IH.
Qed.

Lemma append_inj_r (a b c : string) : (a ++ c = b ++ c)%string → a = b.
Proof.
  revert b. induction a as [|x a IH]; intros [|y b] Heq.
  - done.
  - apply (f_equal String.length) in Heq.
    rewrite append_empty_l, length_append in Heq. simpl in Heq. lia.
  - apply (f_equal String.length) in Heq.
    rewrite append_empty_l, length_append in Heq. simpl in Heq. lia.
  - rewrite !append_cons in Heq. injection Heq as -> Heq. f_equal. by apply IH.
Qed.

Lemma dbFilePattern_inj (a b : Z) : dbFilePattern a = dbFilePattern b → a = b.
Proof.
  unfold dbFilePattern. intros Heq. apply itoa_inj.
  apply (inj (String.append "shard_")) in Heq. by apply append_inj_r in Heq.
Qed.

Lemma dbFilePattern_file_name (shardID : Z) :
  file_name (dbFilePattern shardID) = true.
Proof.
  unfold file_name, dbFilePattern.
  rewrite !no_separator_append, itoa_no_separator. done.
Qed.

(** Under one base path, two shards have the same file exactly when they
    are the same shard. *)
Lemma shard_path_eqb base (a b : Z) :
  base ≠ "" →
  String.eqb (shard_path base a) (shard_path base b) = bool_decide (a = b).
Proof.
  intros Hbase. unfold shard_path.
  rewrite Join_file_eqb by (done || apply dbFilePattern_file_name).
  case_bool_decide as Hab.
  - subst. apply String.eqb_refl.
  - apply String.eqb_neq. intros Heq. by apply dbFilePattern_inj in Heq.
Qed.

Lemma shard_names (N j k : nat) :
  (j < k < N)%nat →
  file_name (dbFilePattern (Z.of_nat j)) = true
  ∧ file_name (dbFilePattern (Z.of_nat k)) = true
  ∧ String.eqb (dbFilePattern (Z.of_nat j)) (dbFilePattern (Z.of_nat k)) = false.
Proof.
  intros Hjk. split; [apply dbFilePattern_file_name|].
  split; [apply dbFilePattern_file_name|].
  apply String.eqb_neq. intros Heq. apply dbFilePattern_inj in Heq. lia.
Qed.

Lemma shard_path_not_empty base shardID : base ≠ "" → shard_path base shardID ≠ "".
Proof.
  intros Hbase. unfold shard_path.
  rewrite Join_file by (done || apply dbFilePattern_file_name).
  apply append_nonempty. unfold dbFilePattern. by rewrite append_cons.
Qed.

(** ** Construction over an empty directory, in general *)

Lemma init_never_fails_accepts c path :
  init_never_fails (InitSchemaFunc c) → init_accepts c path.
Proof.
  intros Hinit. unfold init_accepts.
  destruct (InitSchemaFunc c) as [f|] eqn:Hf; [|done]. by apply Hinit.
Qed.

Lemma NewSharder_on_startup_empty (c : Config) :
  valid_config c →
  init_never_fails (InitSchemaFunc c) →
  GenerationMode c = "on-startup" →
  NewSharder c ∅
  = (Ok (mkSharder (with_default_modes c)
                   (fresh_shards (BasePath c) (Z.to_nat (MaxDBCount c)))),
     fresh_shards (BasePath c) (Z.to_nat (MaxDBCount c))).
Proof.
  intros Hvalid Hinit Hmode.
  pose proof Hvalid as (Hbase & Hcap & Hmax & Hgen & Hbal).
  unfold NewSharder. rewrite (checkConfig_valid c Hvalid).
  rewrite (setUpShards_on_startup_empty (Z.to_nat (MaxDBCount c))
             (shard_names (Z.to_nat (MaxDBCount c)))
             (with_default_modes c) Hbase Hinit (Z.to_nat (MaxDBCount c))).
  - done.
  - simpl. by rewrite Hmode.
  - simpl. lia.
  - done.
Qed.

Lemma NewSharder_dynamic_several_empty (c : Config) :
  valid_config c →
  init_never_fails (InitSchemaFunc c) →
  GenerationMode c ≠ "on-startup" →
  1 < MaxDBCount c →
  NewSharder c ∅
  = (Ok (mkSharder (with_default_modes c) (fresh_shards (BasePath c) 1)),
     fresh_shards (BasePath c) 1).
Proof.
  intros Hvalid Hinit Hmode Hmore.
  pose proof Hvalid as (Hbase & Hcap & Hmax & Hgen & Hbal).
  unfold NewSharder. rewrite (checkConfig_valid c Hvalid).
  assert (GenerationMode (with_default_modes c) = "dynamic") as Hdyn.
  { simpl. unfold default_if_empty, recognized_generation in *.
    destruct Hgen as [->|[->|Hs]]; done. }
  rewrite (setUpShards_dynamic_empty (with_default_modes c) Hdyn);
    [|simpl; lia|by apply init_never_fails_accepts].
  simpl (MaxDBCount _). destruct (Z.eqb_spec (MaxDBCount c) 1); [lia|].
  simpl fresh_shards. by rewrite insert_empty.
Qed.

(** X1: over an empty directory, a valid configuration whose callback does
    not fail constructs as follows.  With shards made at start, every shard
    [0 .. MaxDBCount-1] is registered at its own file with no item.  In
    dynamic mode (also as the default of the empty mode) shard 0 alone is
    registered when [MaxDBCount] is at least 2. *)
Theorem NewSharder_over_empty_directory (c : Config) :
  valid_config c →
  init_never_fails (InitSchemaFunc c) →
  (GenerationMode c = "on-startup" →
   NewSharder c ∅
   = (Ok (mkSharder (with_default_modes c)
                    (fresh_shards (BasePath c) (Z.to_nat (MaxDBCount c)))),
      fresh_shards (BasePath c) (Z.to_nat (MaxDBCount c))))
  ∧ (GenerationMode c ≠ "on-startup" → 1 < MaxDBCount c →
     NewSharder c ∅
     = (Ok (mkSharder (with_default_modes c) (fresh_shards (BasePath c) 1)),
        fresh_shards (BasePath c) 1)).
Proof.
  intros Hvalid Hinit. split.
  - by apply NewSharder_on_startup_empty.
  - by apply NewSharder_dynamic_several_empty.
Qed.

Lemma NewSharder_over_empty_directory_witness :
  valid_config scenario_A
  ∧ init_never_fails (InitSchemaFunc scenario_A)
  ∧ (GenerationMode scenario_A = "on-startup" →
     NewSharder scenario_A ∅
     = (Ok (mkSharder (with_default_modes scenario_A)
                      (fresh_shards (BasePath scenario_A)
                                    (Z.to_nat (MaxDBCount scenario_A)))),
        fresh_shards (BasePath scenario_A) (Z.to_nat (MaxDBCount scenario_A))))
  ∧ (GenerationMode scenario_A ≠ "on-startup" → 1 < MaxDBCount scenario_A →
     NewSharder scenario_A ∅
     = (Ok (mkSharder (with_default_modes scenario_A)
                      (fresh_shards (BasePath scenario_A) 1)),
        fresh_shards (BasePath scenario_A) 1)).
Proof.
  assert (valid_config scenario_A) as Hvalid.
  { unfold valid_config, recognized_generation, recognized_balancing. simpl.
    repeat split; (done || lia || by auto). }
  assert (init_never_fails (InitSchemaFunc scenario_A)) as Hinit
    by (intros f path; discriminate).
  split; [exact Hvalid|]. split; [exact Hinit|].
  exact (NewSharder_over_empty_directory scenario_A Hvalid Hinit).
Defined.

(** ** The shape of a directory in use *)

Lemma contiguous_next_fresh (t : gmap Z ShardRow) :
  contiguous t → t !! SQL.count_all t = None.
Proof.
  intros Hc. destruct (t !! SQL.count_all t) as [r|] eqn:Hl; [|done].
  assert (0 <= SQL.count_all t < SQL.count_all t) by (apply Hc; eauto). lia.
Qed.

Lemma contiguous_insert_next (t : gmap Z ShardRow) r :
  contiguous t → contiguous (<[SQL.count_all t := r]> t).
Proof.
  intros Hc id. pose proof (contiguous_next_fresh t Hc) as Hfresh.
  rewrite count_all_insert_fresh by done.
  destruct (decide (id = SQL.count_all t)) as [->|Hne].
  - rewrite lookup_insert_eq. unfold SQL.count_all. split; [lia|by eauto].
  - rewrite lookup_insert_ne by done. rewrite (Hc id). lia.
Qed.

Lemma contiguous_insert_registered (t : gmap Z ShardRow) id r r' :
  t !! id = Some r → contiguous t → contiguous (<[id := r']> t).
Proof.
  intros Hl Hc id'. rewrite (count_all_insert_registered _ _ r) by done.
  rewrite <- (Hc id'). destruct (decide (id' = id)) as [->|Hne].
  - rewrite lookup_insert_eq, Hl. split; by eauto.
  - by rewrite lookup_insert_ne.
Qed.

Lemma nextShardID_contiguous (t : gmap Z ShardRow) :
  contiguous t → SQL.count_all t <= GoInt.max_int →
  nextShardID t = SQL.count_all t.
Proof.
  intros Hc Hint. unfold nextShardID.
  pose proof (max_shard_id_spec t) as Hspec.
  destruct (SQL.max_shard_id t) as [m|]; [|by subst t].
  destruct Hspec as (Hreg & Hmax).
  apply Hc in Hreg as Hm.
  assert (SQL.count_all t - 1 <= m) by (apply Hmax, Hc; lia).
  rewrite GoInt_add_exact;
    unfold GoInt.in_range, GoInt.min_int, GoInt.max_int in *; lia.
Qed.

Lemma in_use_insert_registered c (t : gmap Z ShardRow) id r n :
  in_use c t → t !! id = Some r → 0 <= n →
  in_use c (<[id := mkShardRow (db_path r) n]> t).
Proof.
  intros (Hc & Hp & Hn & Hsize) Hl Hpos. split; [|split; [|split]].
  - by eapply contiguous_insert_registered.
  - intros id' r' Hl'. destruct (decide (id' = id)) as [->|Hne].
    + rewrite lookup_insert_eq in Hl'. injection Hl' as <-. simpl. by apply Hp.
    + rewrite lookup_insert_ne in Hl' by done. by eapply Hp.
  - intros id' r' Hl'. destruct (decide (id' = id)) as [->|Hne].
    + rewrite lookup_insert_eq in Hl'. by injection Hl' as <-.
    + rewrite lookup_insert_ne in Hl' by done. by eapply Hn.
  - by rewrite (count_all_insert_registered _ _ r).
Qed.

Lemma in_use_insert_next c (t : gmap Z ShardRow) n :
  in_use c t → SQL.count_all t < MaxDBCount c → 0 <= n →
  in_use c (<[SQL.count_all t :=
               mkShardRow (shard_path (BasePath c) (SQL.count_all t)) n]> t).
Proof.
  intros (Hc & Hp & Hn & Hsize) Hroom Hpos.
  pose proof (contiguous_next_fresh t Hc) as Hfresh. split; [|split; [|split]].
  - by apply contiguous_insert_next.
  - intros id' r' Hl'. destruct (decide (id' = SQL.count_all t)) as [->|Hne].
    + rewrite lookup_insert_eq in Hl'. by injection Hl' as <-.
    + rewrite lookup_insert_ne in Hl' by done. by eapply Hp.
  - intros id' r' Hl'. destruct (decide (id' = SQL.count_all t)) as [->|Hne].
    + rewrite lookup_insert_eq in Hl'. by injection Hl' as <-.
    + rewrite lookup_insert_ne in Hl' by done. by eapply Hn.
  - rewrite count_all_insert_fresh by done. lia.
Qed.

Lemma fresh_shards_in_use c (n : nat) :
  (1 <= n)%nat → Z.of_nat n <= MaxDBCount c →
  in_use c (fresh_shards (BasePath c) n).
Proof.
  intros Hn Hmax. split; [|split; [|split]].
  - intros id. rewrite fresh_shards_lookup, fresh_shards_count.
    case_decide; split; intros Hid; (done || lia || by destruct Hid).
  - intros id r. rewrite fresh_shards_lookup. case_decide; [|done].
    by intros [= <-].
  - intros id r. rewrite fresh_shards_lookup. case_decide; [|done].
    by intros [= <-].
  - rewrite fresh_shards_count. lia.
Qed.

(** No row of a table of own paths holds the file of an unregistered shard. *)
Lemma own_paths_path_free base (t : gmap Z ShardRow) shardID :
  base ≠ "" → own_paths base t → t !! shardID = None →
  SQL.path_taken (shard_path base shardID) t = false.
Proof.
  intros Hbase. induction t as [|i x m Hfresh IH] using map_ind; intros Hp Hl.
  - apply path_taken_empty.
  - assert (i ≠ shardID) as Hne by (intros ->; by rewrite lookup_insert_eq in Hl).
    rewrite lookup_insert_ne in Hl by done.
    rewrite path_taken_insert by done.
    rewrite (Hp i x) by apply lookup_insert_eq.
    rewrite shard_path_eqb by done. rewrite bool_decide_eq_false_2 by done.
    apply IH; [|done]. intros id r Hr. apply Hp.
    rewrite lookup_insert_ne; [done|]. intros ->. congruence.
Qed.

(** The fill path that makes a shard: the row it leaves. *)
Lemma assign_new_shard_row s :
  BalancingMode (SConfig s) = "fill" →
  SQL.select_with_room (SoftCap (SConfig s)) (MetaDB s) = None →
  nextShardID (MetaDB s) <= GoInt.sub (MaxDBCount (SConfig s)) 1 →
  SQL.count_all (MetaDB s) < MaxDBCount (SConfig s) →
  MetaDB s !! nextShardID (MetaDB s) = None →
  init_accepts (SConfig s) (shard_path (BasePath (SConfig s)) (nextShardID (MetaDB s))) →
  SQL.path_taken (shard_path (BasePath (SConfig s)) (nextShardID (MetaDB s))) (MetaDB s)
  = false →
  AssignItemToShard s
  = (Ok (nextShardID (MetaDB s)),
     mkSharder (SConfig s)
               (<[nextShardID (MetaDB s) :=
                    mkShardRow (shard_path (BasePath (SConfig s)) (nextShardID (MetaDB s))) 1]>
                  (MetaDB s))).
Proof.
  intros Hfill Hsel Hceil Hroom Hfresh Hinit Hpath.
  rewrite (assign_fill_new_shard s Hfill Hsel Hceil).
  rewrite (create_fresh s _ Hroom Hfresh Hinit Hpath). cbn [SConfig MetaDB].
  unfold SQL.set_one.
  rewrite (alter_registered _ _ _ _ (lookup_insert_eq _ _ _)).
  by rewrite insert_insert_eq.
Qed.

(** One assignment keeps the shape of a directory in use. *)
Lemma assign_in_use s :
  MaxDBCount (SConfig s) <= GoInt.max_int →
  in_use (SConfig s) (MetaDB s) →
  in_use (SConfig s) (MetaDB (AssignItemToShard s).2).
Proof.
  intros Hint Huse. pose proof Huse as (Hc & Hp & Hn & Hsize).
  assert (nextShardID (MetaDB s) = SQL.count_all (MetaDB s)) as Hnext
    by (apply nextShardID_contiguous; [done|lia]).
  destruct (String.eqb_spec (BalancingMode (SConfig s)) "round-robin") as [Hrr|Hrr].
  { rewrite (assign_round_robin s Hrr).
    destruct (SQL.select_least_loaded (MetaDB s)) as [id|] eqn:Hsel; [|done].
    apply select_least_loaded_Some in Hsel as (row & Hl & _). simpl.
    rewrite (increment_registered id row) by done.
    apply in_use_insert_registered; [done..|]. specialize (Hn id row Hl). lia. }
  destruct (String.eqb_spec (BalancingMode (SConfig s)) "fill") as [Hfill|Hfill];
    [|by rewrite (assign_unknown_mode s Hrr Hfill)].
  destruct (SQL.select_with_room (SoftCap (SConfig s)) (MetaDB s)) as [id|] eqn:Hsel.
  { rewrite (assign_fill_room s id Hfill Hsel).
    apply select_with_room_Some in Hsel as (row & Hl & _). simpl.
    rewrite (increment_registered id row) by done.
    apply in_use_insert_registered; [done..|]. specialize (Hn id row Hl). lia. }
  destruct (decide (GoInt.sub (MaxDBCount (SConfig s)) 1 < nextShardID (MetaDB s)))
    as [Hceil|Hceil].
  { rewrite (assign_fill_saturated s Hfill Hsel Hceil).
    destruct (SQL.select_least_loaded (MetaDB s)) as [id|] eqn:Hleast; [|done].
    apply select_least_loaded_Some in Hleast as (row & Hl & _). simpl.
    rewrite (increment_registered id row) by done.
    apply in_use_insert_registered; [done..|]. specialize (Hn id row Hl). lia. }
  rewrite (assign_fill_new_shard s Hfill Hsel) by lia.
  destruct (create_cases s (nextShardID (MetaDB s))) as (r & s1 & Heq & Hcfg & Hcases).
  rewrite Heq. destruct Hcases as [Hsame|(-> & Hroom & Hfresh & Hins)].
  - pose proof (contiguous_next_fresh _ Hc) as Hfresh.
    destruct r as [[]|e]; simpl; [|by rewrite Hsame].
    unfold SQL.set_one. rewrite Hsame, Hnext, alter_unregistered by done. done.
  - simpl. unfold SQL.set_one. rewrite Hins.
    rewrite (alter_registered _ _ _ _ (lookup_insert_eq _ _ _)), insert_insert_eq.
    rewrite Hnext. by apply in_use_insert_next.
Qed.

Lemma remove_in_use ID s :
  in_use (SConfig s) (MetaDB s) →
  in_use (SConfig s) (MetaDB (RemoveItemFromShard ID s).2).
Proof.
  intros Huse. simpl. unfold SQL.decrement.
  destruct (MetaDB s !! ID) as [r|] eqn:Hl.
  - rewrite (alter_registered _ _ ID r Hl).
    apply in_use_insert_registered; [done..|lia].
  - by rewrite alter_unregistered.
Qed.

Lemma do_op_in_use o s :
  MaxDBCount (SConfig s) <= GoInt.max_int →
  in_use (SConfig s) (MetaDB s) →
  in_use (SConfig s) (MetaDB (do_op o s).2).
Proof.
  intros Hint Huse. destruct o as [|ID]; [|by apply remove_in_use].
  pose proof (assign_in_use s Hint Huse) as Hassign. simpl. run_op.
  by destruct (AssignItemToShard s) as [[id|e] s'].
Qed.

Lemma after_ops_config ops s : SConfig (after_ops ops s) = SConfig s.
Proof.
  revert s. induction ops as [|o rest IH]; intros s; [done|].
  simpl. by rewrite IH, do_op_config.
Qed.

Lemma after_ops_in_use ops s :
  MaxDBCount (SConfig s) <= GoInt.max_int →
  in_use (SConfig s) (MetaDB s) →
  in_use (SConfig s) (MetaDB (after_ops ops s)).
Proof.
  revert s. induction ops as [|o rest IH]; intros s Hint Huse; [done|].
  simpl. rewrite <- (do_op_config o s). apply IH; rewrite do_op_config; [done|].
  by apply do_op_in_use.
Qed.

(** What a successful construction over an empty directory leaves. *)
Lemma NewSharder_empty_in_use c s0 d :
  init_never_fails (InitSchemaFunc c) →
  NewSharder c ∅ = (Ok s0, d) →
  valid_config c ∧ SConfig s0 = with_default_modes c
  ∧ in_use (SConfig s0) (MetaDB s0).
Proof.
  intros Hinit Hnew.
  pose proof (NewSharder_Ok _ _ _ _ Hnew) as (Hvalid & Hcfg & _ & _).
  split; [done|]. split; [done|].
  pose proof Hvalid as (_ & _ & Hmax & _).
  pose proof (NewSharder_on_startup_empty c Hvalid Hinit) as Hstart.
  pose proof (NewSharder_dynamic_several_empty c Hvalid Hinit) as Hdyn.
  rewrite Hcfg.
  destruct (String.eqb_spec (GenerationMode c) "on-startup") as [Hmode|Hmode].
  - rewrite (Hstart Hmode) in Hnew. injection Hnew as <- _.
    apply (fresh_shards_in_use (with_default_modes c) (Z.to_nat (MaxDBCount c)));
      simpl; lia.
  - destruct (decide (MaxDBCount c = 1)) as [Hone|Hmore].
    + destruct (NewSharder_dynamic_single_shard c ∅ Hvalid) as (e & d' & Herr);
        [|done|congruence].
      destruct Hvalid as (_ & _ & _ & Hgen & _).
      unfold default_if_empty, recognized_generation in *.
      destruct Hgen as [->|[->|Hs]]; done.
    + rewrite Hdyn in Hnew by (done || lia). injection Hnew as <- _.
      apply (fresh_shards_in_use (with_default_modes c) 1); simpl; lia.
Qed.

(** X2: whatever assignments and removals follow a construction over an
    empty directory, the registered shards are exactly [0 .. count-1], their
    number is between 1 and [MaxDBCount], each row holds the file of its own
    shard, and no count is negative. *)
Theorem shards_stay_contiguous (c : Config) (s0 : Sharder) (d : gmap Z ShardRow)
        (ops : list op) :
  init_never_fails (InitSchemaFunc c) →
  MaxDBCount c <= GoInt.max_int →
  NewSharder c ∅ = (Ok s0, d) →
  ∃ n, GetShardCount (after_ops ops s0) = (Ok n, after_ops ops s0)
       ∧ 1 <= n <= MaxDBCount c
       ∧ (∀ id, is_Some (MetaDB (after_ops ops s0) !! id) ↔ 0 <= id < n)
       ∧ (∀ id r, MetaDB (after_ops ops s0) !! id = Some r →
                  db_path r = Path.Join (BasePath c) (dbFilePattern id)
                  ∧ 0 <= item_count r).
Proof.
  intros Hinit Hint Hnew.
  destruct (NewSharder_empty_in_use c s0 d Hinit Hnew) as (_ & Hcfg & Huse).
  pose proof (after_ops_in_use ops s0) as Hafter.
  rewrite Hcfg in Hafter. specialize (Hafter Hint). rewrite <- Hcfg in Hafter.
  destruct (Hafter Huse) as (Hc & Hp & Hn & Hsize).
  rewrite Hcfg in Hp, Hsize. simpl in Hp, Hsize.
  exists (SQL.count_all (MetaDB (after_ops ops s0))).
  split; [done|]. split; [lia|]. split; [done|].
  intros id r Hl. split; [by apply Hp|by eapply Hn].
Qed.

Lemma shards_stay_contiguous_witness :
  ∃ s0,
    init_never_fails (InitSchemaFunc test_config)
    ∧ MaxDBCount test_config <= GoInt.max_int
    ∧ NewSharder test_config ∅ = (Ok s0, MetaDB s0)
    ∧ ∃ n, GetShardCount (after_ops [OpAssign; OpRemove 0; OpAssign] s0)
           = (Ok n, after_ops [OpAssign; OpRemove 0; OpAssign] s0)
           ∧ 1 <= n <= MaxDBCount test_config
           ∧ (∀ id, is_Some (MetaDB (after_ops [OpAssign; OpRemove 0; OpAssign] s0) !! id)
                    ↔ 0 <= id < n)
           ∧ (∀ id r, MetaDB (after_ops [OpAssign; OpRemove 0; OpAssign] s0) !! id = Some r →
                      db_path r = Path.Join (BasePath test_config) (dbFilePattern id)
                      ∧ 0 <= item_count r).
Proof.
  exists (mkSharder (with_default_modes test_config) (fresh_shards "./tests" 1)).
  assert (init_never_fails (InitSchemaFunc test_config)) as Hinit
    by (intros f path; discriminate).
  assert (MaxDBCount test_config <= GoInt.max_int) as Hint
    by (vm_compute; discriminate).
  assert (NewSharder test_config ∅
          = (Ok (mkSharder (with_default_modes test_config) (fresh_shards "./tests" 1)),
             MetaDB (mkSharder (with_default_modes test_config) (fresh_shards "./tests" 1))))
    as Hnew by (vm_compute; reflexivity).
  split; [exact Hinit|]. split; [exact Hint|]. split; [exact Hnew|].
  exact (shards_stay_contiguous test_config _ _ _ Hinit Hint Hnew).
Defined.

(** ** Assignments on a directory in use *)

Lemma in_use_wf c (t : gmap Z ShardRow) :
  MaxDBCount c <= GoInt.max_int → in_use c t → wf_table t.
Proof.
  intros Hint (Hc & _ & Hn & Hsize) id r Hl.
  assert (0 <= id < SQL.count_all t) by (apply Hc; eauto).
  split; [unfold GoInt.min_int; lia|by eapply Hn].
Qed.

Lemma assign_succeeds_in_use s :
  recognized_balancing (BalancingMode (SConfig s)) →
  init_never_fails (InitSchemaFunc (SConfig s)) →
  BasePath (SConfig s) ≠ "" →
  MaxDBCount (SConfig s) <= GoInt.max_int →
  in_use (SConfig s) (MetaDB s) →
  ∃ id s', AssignItemToShard s = (Ok id, s').
Proof.
  intros Hmode Hinit Hbase Hint Huse. pose proof Huse as (Hc & Hp & Hn & Hsize).
  assert (MetaDB s ≠ ∅) as Hne.
  { intros Hempty. rewrite Hempty in Hsize. unfold SQL.count_all in Hsize.
    rewrite map_size_empty in Hsize. lia. }
  assert (nextShardID (MetaDB s) = SQL.count_all (MetaDB s)) as Hnext
    by (apply nextShardID_contiguous; [done|lia]).
  destruct Hmode as [Hfill|Hrr].
  - destruct (SQL.select_with_room (SoftCap (SConfig s)) (MetaDB s)) as [id|] eqn:Hsel.
    { rewrite (assign_fill_room s id Hfill Hsel). by eauto. }
    destruct (decide (GoInt.sub (MaxDBCount (SConfig s)) 1 < nextShardID (MetaDB s)))
      as [Hceil|Hceil].
    + rewrite (assign_fill_saturated s Hfill Hsel Hceil).
      destruct (SQL.select_least_loaded (MetaDB s)) as [id|] eqn:Hleast; [by eauto|].
      by apply select_least_loaded_None in Hleast.
    + rewrite GoInt_sub_exact in Hceil
        by (unfold GoInt.in_range, GoInt.min_int, GoInt.max_int in *; lia).
      rewrite (assign_new_shard_row s Hfill Hsel); [by eauto|..].
      * rewrite GoInt_sub_exact
          by (unfold GoInt.in_range, GoInt.min_int, GoInt.max_int in *; lia). lia.
      * lia.
      * rewrite Hnext. by apply contiguous_next_fresh.
      * by apply init_never_fails_accepts.
      * apply own_paths_path_free; [done..|].
        rewrite Hnext. by apply contiguous_next_fresh.
  - rewrite (assign_round_robin s Hrr).
    destruct (SQL.select_least_loaded (MetaDB s)) as [id|] eqn:Hleast; [by eauto|].
    by apply select_least_loaded_None in Hleast.
Qed.

Lemma with_default_modes_balancing c :
  valid_config c → recognized_balancing (BalancingMode (with_default_modes c)).
Proof.
  intros (_ & _ & _ & _ & Hbal). simpl.
  unfold default_if_empty, recognized_balancing in *.
  destruct Hbal as [Hb|[Hb|Hb]]; rewrite Hb; simpl; auto.
Qed.

(** X3: after a construction over an empty directory with a callback that
    does not fail, no assignment and no removal ever fails: every sequence
    of them runs to its end. *)
Theorem operations_never_fail (c : Config) (s0 : Sharder) (d : gmap Z ShardRow)
        (ops : list op) :
  init_never_fails (InitSchemaFunc c) →
  MaxDBCount c <= GoInt.max_int →
  NewSharder c ∅ = (Ok s0, d) →
  run_ops ops s0 = Ok (after_ops ops s0)
  ∧ ∃ id s', AssignItemToShard (after_ops ops s0) = (Ok id, s').
Proof.
  intros Hinit Hint Hnew.
  destruct (NewSharder_empty_in_use c s0 d Hinit Hnew) as (Hvalid & Hcfg & Huse).
  assert (∀ s, SConfig s = with_default_modes c → in_use (SConfig s) (MetaDB s) →
               ∃ id s', AssignItemToShard s = (Ok id, s')) as Hassign.
  { intros s Hs Hu. apply assign_succeeds_in_use; [|rewrite Hs; simpl..|done].
    - rewrite Hs. by apply with_default_modes_balancing.
    - done.
    - by destruct Hvalid.
    - done. }
  split.
  - clear Hnew. revert s0 Hcfg Huse.
    induction ops as [|o rest IH]; intros s0 Hcfg Huse; [done|].
    simpl. pose proof (do_op_config o s0) as Hcfg1.
    pose proof (do_op_in_use o s0) as Huse1.
    rewrite Hcfg in Huse1 at 1. specialize (Huse1 Hint Huse).
    assert (∃ s1, do_op o s0 = (Ok tt, s1)) as [s1 Hop].
    { destruct o as [|ID]; [|by eexists].
      destruct (Hassign s0 Hcfg Huse) as (id & s' & Heq).
      simpl. run_op. rewrite Heq. by eexists. }
    rewrite Hop in *. simpl in *. apply IH; [congruence|].
    by rewrite Hcfg1.
  - apply Hassign; [by rewrite after_ops_config|].
    rewrite after_ops_config. apply after_ops_in_use; [by rewrite Hcfg|done].
Qed.

Lemma operations_never_fail_witness :
  ∃ s0,
    init_never_fails (InitSchemaFunc test_config)
    ∧ MaxDBCount test_config <= GoInt.max_int
    ∧ NewSharder test_config ∅ = (Ok s0, MetaDB s0)
    ∧ run_ops [OpAssign; OpRemove 5; OpAssign] s0
      = Ok (after_ops [OpAssign; OpRemove 5; OpAssign] s0)
    ∧ ∃ id s', AssignItemToShard (after_ops [OpAssign; OpRemove 5; OpAssign] s0)
               = (Ok id, s').
Proof.
  exists (mkSharder (with_default_modes test_config) (fresh_shards "./tests" 1)).
  assert (init_never_fails (InitSchemaFunc test_config)) as Hinit
    by (intros f path; discriminate).
  assert (MaxDBCount test_config <= GoInt.max_int) as Hint
    by (vm_compute; discriminate).
  assert (NewSharder test_config ∅
          = (Ok (mkSharder (with_default_modes test_config) (fresh_shards "./tests" 1)),
             MetaDB (mkSharder (with_default_modes test_config) (fresh_shards "./tests" 1))))
    as Hnew by (vm_compute; reflexivity).
  split; [exact Hinit|]. split; [exact Hint|]. split; [exact Hnew|].
  exact (operations_never_fail test_config _ _ _ Hinit Hint Hnew).
Defined.

(** X4: in fill mode, on a directory built from empty, when every shard is at
    or over the soft cap and fewer than [MaxDBCount] shards exist, the call
    makes the next shard, numbered by the count so far, registers it at its
    own file with one item, returns its number and leaves the other rows as
    they were. *)
Theorem fill_makes_next_shard (c : Config) (s0 : Sharder) (d : gmap Z ShardRow)
        (ops : list op) :
  init_never_fails (InitSchemaFunc c) →
  MaxDBCount c <= GoInt.max_int →
  NewSharder c ∅ = (Ok s0, d) →
  BalancingMode (SConfig s0) = "fill" →
  (∀ id r, MetaDB (after_ops ops s0) !! id = Some r → SoftCap c <= item_count r) →
  SQL.count_all (MetaDB (after_ops ops s0)) < MaxDBCount c →
  AssignItemToShard (after_ops ops s0)
  = (Ok (SQL.count_all (MetaDB (after_ops ops s0))),
     mkSharder (SConfig s0)
               (<[SQL.count_all (MetaDB (after_ops ops s0)) :=
                    mkShardRow (Path.Join (BasePath c)
                                  (dbFilePattern (SQL.count_all (MetaDB (after_ops ops s0)))))
                               1]>
                  (MetaDB (after_ops ops s0))))
  ∧ MetaDB (after_ops ops s0) !! SQL.count_all (MetaDB (after_ops ops s0)) = None.
Proof.
  intros Hinit Hint Hnew Hfill Hfull Hroom.
  destruct (NewSharder_empty_in_use c s0 d Hinit Hnew) as (Hvalid & Hcfg & Huse).
  pose proof (after_ops_config ops s0) as Hsame.
  pose proof (after_ops_in_use ops s0) as Hafter.
  rewrite Hcfg in Hafter at 1. specialize (Hafter Hint Huse).
  rewrite <- Hsame in Hafter. set (s := after_ops ops s0) in *.
  pose proof Hafter as (Hc & Hp & Hn & Hsize).
  pose proof Hvalid as (Hbase & _ & Hmax & _).
  assert (SConfig s = with_default_modes c) as Hcs by congruence.
  assert (nextShardID (MetaDB s) = SQL.count_all (MetaDB s)) as Hnext.
  { apply nextShardID_contiguous; [done|]. rewrite Hcs in Hsize. simpl in Hsize. lia. }
  assert (SQL.select_with_room (SoftCap (SConfig s)) (MetaDB s) = None) as Hsel.
  { destruct (SQL.select_with_room _ _) as [id|] eqn:Hsel; [|done].
    apply select_with_room_Some in Hsel as (r & Hl & Hlt & _).
    specialize (Hfull id r Hl). rewrite Hcs in Hlt. simpl in Hlt. lia. }
  split; [|by apply contiguous_next_fresh].
  assert (BalancingMode (SConfig s) = "fill") as Hmode by congruence.
  assert (MaxDBCount (SConfig s) = MaxDBCount c) as HM by (by rewrite Hcs).
  assert (BasePath (SConfig s) = BasePath c) as HB by (by rewrite Hcs).
  assert (InitSchemaFunc (SConfig s) = InitSchemaFunc c) as HI by (by rewrite Hcs).
  pose proof (contiguous_next_fresh _ Hc) as Hfresh.
  rewrite (assign_new_shard_row s Hmode Hsel).
  - rewrite Hnext, HB, Hsame. done.
  - rewrite Hnext, HM.
    rewrite GoInt_sub_exact
      by (unfold GoInt.in_range, GoInt.min_int, GoInt.max_int in *; lia). lia.
  - by rewrite HM.
  - by rewrite Hnext.
  - apply init_never_fails_accepts. by rewrite HI.
  - rewrite Hnext. apply own_paths_path_free; [by rewrite HB|done|done].
Qed.

(** Scenario B: dynamic, soft cap 2, [MaxDBCount] 5. *)
Lemma fill_makes_next_shard_witness :
  ∃ s0,
    init_never_fails (InitSchemaFunc (mkConfig "./tests" 2 5 "" "dynamic" None))
    ∧ MaxDBCount (mkConfig "./tests" 2 5 "" "dynamic" None) <= GoInt.max_int
    ∧ NewSharder (mkConfig "./tests" 2 5 "" "dynamic" None) ∅ = (Ok s0, MetaDB s0)
    ∧ BalancingMode (SConfig s0) = "fill"
    ∧ (∀ id r, MetaDB (after_ops [OpAssign; OpAssign] s0) !! id = Some r →
               SoftCap (mkConfig "./tests" 2 5 "" "dynamic" None) <= item_count r)
    ∧ SQL.count_all (MetaDB (after_ops [OpAssign; OpAssign] s0))
      < MaxDBCount (mkConfig "./tests" 2 5 "" "dynamic" None)
    ∧ AssignItemToShard (after_ops [OpAssign; OpAssign] s0)
      = (Ok (SQL.count_all (MetaDB (after_ops [OpAssign; OpAssign] s0))),
         mkSharder (SConfig s0)
           (<[SQL.count_all (MetaDB (after_ops [OpAssign; OpAssign] s0)) :=
                mkShardRow (Path.Join (BasePath (mkConfig "./tests" 2 5 "" "dynamic" None))
                              (dbFilePattern
                                 (SQL.count_all (MetaDB (after_ops [OpAssign; OpAssign] s0)))))
                           1]>
              (MetaDB (after_ops [OpAssign; OpAssign] s0))))
      ∧ MetaDB (after_ops [OpAssign; OpAssign] s0)
          !! SQL.count_all (MetaDB (after_ops [OpAssign; OpAssign] s0)) = None.
Proof.
  exists (mkSharder (mkConfig "./tests" 2 5 "fill" "dynamic" None) (fresh_shards "./tests" 1)).
  assert (init_never_fails (InitSchemaFunc (mkConfig "./tests" 2 5 "" "dynamic" None)))
    as Hinit by (intros f path; discriminate).
  assert (MaxDBCount (mkConfig "./tests" 2 5 "" "dynamic" None) <= GoInt.max_int)
    as Hint by (vm_compute; discriminate).
  assert (NewSharder (mkConfig "./tests" 2 5 "" "dynamic" None) ∅
          = (Ok (mkSharder (mkConfig "./tests" 2 5 "fill" "dynamic" None)
                           (fresh_shards "./tests" 1)),
             MetaDB (mkSharder (mkConfig "./tests" 2 5 "fill" "dynamic" None)
                               (fresh_shards "./tests" 1))))
    as Hnew by (vm_compute; reflexivity).
  assert (BalancingMode (SConfig (mkSharder (mkConfig "./tests" 2 5 "fill" "dynamic" None)
                                            (fresh_shards "./tests" 1))) = "fill")
    as Hfill by reflexivity.
  assert (∀ id r,
            MetaDB (after_ops [OpAssign; OpAssign]
                      (mkSharder (mkConfig "./tests" 2 5 "fill" "dynamic" None)
                                 (fresh_shards "./tests" 1))) !! id = Some r →
            SoftCap (mkConfig "./tests" 2 5 "" "dynamic" None) <= item_count r) as Hfull.
  { intros id r.
    change (MetaDB (after_ops [OpAssign; OpAssign]
                      (mkSharder (mkConfig "./tests" 2 5 "fill" "dynamic" None)
                                 (fresh_shards "./tests" 1))))
      with (sample_rows 0 [2]).
    intros Hl. apply sample_rows_counts in Hl. simpl in Hl |- *. lia. }
  assert (SQL.count_all
            (MetaDB (after_ops [OpAssign; OpAssign]
                       (mkSharder (mkConfig "./tests" 2 5 "fill" "dynamic" None)
                                  (fresh_shards "./tests" 1))))
          < MaxDBCount (mkConfig "./tests" 2 5 "" "dynamic" None)) as Hroom
    by (vm_compute; reflexivity).
  split; [exact Hinit|]. split; [exact Hint|]. split; [exact Hnew|].
  split; [exact Hfill|]. split; [exact Hfull|]. split; [exact Hroom|].
  exact (fill_makes_next_shard _ _ _ _ Hinit Hint Hnew Hfill Hfull Hroom).
Defined.

Example scenario_B_third_item_opens_shard_1 :
  ∃ s0, NewSharder (mkConfig "./tests" 2 5 "" "dynamic" None) ∅ = (Ok s0, MetaDB s0)
        ∧ GetShardCount s0 = (Ok 1, s0)
        ∧ (assign_times 3 s0).1 = [Ok 0; Ok 0; Ok 1]
        ∧ item_counts [0; 1] (assign_times 3 s0).2 = [Ok 2; Ok 1].
Proof.
  exists (mkSharder (mkConfig "./tests" 2 5 "fill" "dynamic" None) (fresh_shards "./tests" 1)).
  by vm_compute.
Qed.

(** ** The soft cap in fill mode *)

Lemma total_items_at_least cap (t : gmap Z ShardRow) :
  (∀ id r, t !! id = Some r → cap <= item_count r) →
  cap * SQL.count_all t <= total_items t.
Proof.
  induction t as [|i x m Hfresh IH] using map_ind; intros Hall.
  - rewrite total_items_empty. unfold SQL.count_all. rewrite map_size_empty. lia.
  - rewrite total_items_insert, count_all_insert_fresh by done.
    assert (cap <= item_count x) by (apply (Hall i); apply lookup_insert_eq).
    assert (cap * SQL.count_all m <= total_items m); [|lia].
    apply IH. intros id r Hl. apply (Hall id).
    rewrite lookup_insert_ne; [done|]. intros ->. congruence.
Qed.

(** In fill mode, with fewer items than the shards hold at the soft cap, an
    assignment leaves every shard at or under the cap. *)
Lemma assign_under_cap s :
  BalancingMode (SConfig s) = "fill" →
  0 < SoftCap (SConfig s) →
  0 < MaxDBCount (SConfig s) <= GoInt.max_int →
  in_use (SConfig s) (MetaDB s) →
  (∀ id r, MetaDB s !! id = Some r → item_count r <= SoftCap (SConfig s)) →
  total_items (MetaDB s) < SoftCap (SConfig s) * MaxDBCount (SConfig s) →
  ∀ id r, MetaDB (AssignItemToShard s).2 !! id = Some r →
          item_count r <= SoftCap (SConfig s).
Proof.
  intros Hfill Hcap Hmax Huse Hunder Htotal.
  pose proof Huse as (Hc & Hp & Hn & Hsize).
  assert (nextShardID (MetaDB s) = SQL.count_all (MetaDB s)) as Hnext
    by (apply nextShardID_contiguous; [done|lia]).
  assert (∀ id0 row n, MetaDB s !! id0 = Some row → n <= SoftCap (SConfig s) →
            ∀ id r, <[id0 := mkShardRow (db_path row) n]> (MetaDB s) !! id = Some r →
                    item_count r <= SoftCap (SConfig s)) as Hupd.
  { intros id0 row n Hl0 Hle id r Hl. destruct (decide (id = id0)) as [->|Hne].
    - rewrite lookup_insert_eq in Hl. by injection Hl as <-.
    - rewrite lookup_insert_ne in Hl by done. by eapply Hunder. }
  destruct (SQL.select_with_room (SoftCap (SConfig s)) (MetaDB s)) as [id0|] eqn:Hsel.
  { rewrite (assign_fill_room s id0 Hfill Hsel).
    apply select_with_room_Some in Hsel as (row & Hl & Hlt & _). simpl.
    rewrite (increment_registered id0 row) by done.
    apply (Hupd id0 row); [done|lia]. }
  destruct (decide (GoInt.sub (MaxDBCount (SConfig s)) 1 < nextShardID (MetaDB s)))
    as [Hceil|Hceil].
  { exfalso.
    rewrite GoInt_sub_exact in Hceil
      by (unfold GoInt.in_range, GoInt.min_int, GoInt.max_int in *; lia).
    pose proof (total_items_at_least (SoftCap (SConfig s)) (MetaDB s)
                  (select_with_room_None _ _ Hsel)) as Hlow.
    nia. }
  rewrite (assign_fill_new_shard s Hfill Hsel) by lia.
  destruct (create_cases s (nextShardID (MetaDB s))) as (r0 & s1 & Heq & Hcfg & Hcases).
  rewrite Heq. destruct Hcases as [Hsame|(-> & Hroom & Hfresh & Hins)].
  - pose proof (contiguous_next_fresh _ Hc) as Hfresh.
    destruct r0 as [[]|e]; simpl; [|by rewrite Hsame].
    unfold SQL.set_one. rewrite Hsame, Hnext, alter_unregistered by done. done.
  - simpl. unfold SQL.set_one. rewrite Hins.
    rewrite (alter_registered _ _ _ _ (lookup_insert_eq _ _ _)), insert_insert_eq.
    intros id r Hl. destruct (decide (id = nextShardID (MetaDB s))) as [->|Hne].
    + rewrite lookup_insert_eq in Hl. injection Hl as <-. simpl. lia.
    + rewrite lookup_insert_ne in Hl by done. by eapply Hunder.
Qed.

Lemma assign_total_le s :
  0 < MaxDBCount (SConfig s) <= GoInt.max_int →
  wf_table (MetaDB s) →
  total_items (MetaDB (AssignItemToShard s).2) <= total_items (MetaDB s) + 1.
Proof.
  intros Hmax Hwf.
  destruct (AssignItemToShard s) as [[id|e] s'] eqn:Hassign.
  - destruct (assign_total s id s' Hwf Hmax Hassign) as [Htotal _]. simpl. lia.
  - destruct (assign_cases s) as (r & s1 & Heq & _ & Hcases).
    rewrite Hassign in Heq. injection Heq as <- <-.
    simpl.
    destruct Hcases as [(e' & _ & Hm)|[(id' & row & Hr & _)
      |[(id' & path & Hr & _)|(id' & row & Hr & _)]]]; [|done..].
    rewrite Hm. lia.
Qed.

Lemma num_assigns_nonneg ops : 0 <= num_assigns ops.
Proof. induction ops as [|[|ID] rest IH]; simpl; lia. Qed.

Lemma under_cap_kept ops s :
  BalancingMode (SConfig s) = "fill" →
  0 < SoftCap (SConfig s) →
  0 < MaxDBCount (SConfig s) <= GoInt.max_int →
  in_use (SConfig s) (MetaDB s) →
  (∀ id r, MetaDB s !! id = Some r → item_count r <= SoftCap (SConfig s)) →
  total_items (MetaDB s) + num_assigns ops
  <= SoftCap (SConfig s) * MaxDBCount (SConfig s) →
  ∀ id r, MetaDB (after_ops ops s) !! id = Some r →
          item_count r <= SoftCap (SConfig s).
Proof.
  revert s. induction ops as [|o rest IH]; intros s Hfill Hcap Hmax Huse Hunder Hn;
    [done|].
  simpl after_ops. pose proof (do_op_config o s) as Hcfg.
  pose proof (do_op_in_use o s (proj2 Hmax) Huse) as Huse1.
  pose proof (in_use_wf _ _ (proj2 Hmax) Huse) as Hwf.
  pose proof (num_assigns_nonneg rest) as Hrest.
  rewrite <- Hcfg. apply IH; rewrite ?Hcfg; try done.
  - destruct o as [|ID].
    + pose proof (assign_under_cap s Hfill Hcap Hmax Huse Hunder) as Hstep.
      simpl in Hn. simpl. run_op.
      destruct (AssignItemToShard s) as [[id|e] s'] eqn:Hassign; simpl in *;
        apply Hstep; lia.
    + simpl. unfold SQL.decrement. intros id r Hl.
      destruct (decide (id = ID)) as [->|Hne].
      * rewrite lookup_alter_eq in Hl.
        destruct (MetaDB s !! ID) as [row|] eqn:Hrow; [|done].
        injection Hl as <-. simpl. specialize (Hunder ID row Hrow). lia.
      * rewrite lookup_alter_ne in Hl by done. by eapply Hunder.
  - destruct o as [|ID].
    + pose proof (assign_total_le s Hmax Hwf) as Hle. simpl in Hn. simpl. run_op.
      destruct (AssignItemToShard s) as [[id|e] s'] eqn:Hassign; simpl in *; lia.
    + destruct (remove_total ID s Hwf) as [Htot _]. simpl in Hn.
      change (do_op (OpRemove ID) s) with (RemoveItemFromShard ID s).
      rewrite Htot. destruct (takes_item ID (MetaDB s)); lia.
Qed.

(** X5: in fill mode, after a construction over an empty directory, as long
    as no more than [SoftCap * MaxDBCount] assignments were made, no shard
    holds more than [SoftCap] items, whatever removals came in between. *)
Theorem fill_respects_soft_cap (c : Config) (s0 : Sharder) (d : gmap Z ShardRow)
        (ops : list op) :
  init_never_fails (InitSchemaFunc c) →
  MaxDBCount c <= GoInt.max_int →
  NewSharder c ∅ = (Ok s0, d) →
  BalancingMode (SConfig s0) = "fill" →
  num_assigns ops <= SoftCap c * MaxDBCount c →
  ∀ id r, MetaDB (after_ops ops s0) !! id = Some r → item_count r <= SoftCap c.
Proof.
  intros Hinit Hint Hnew Hfill Hnum.
  destruct (NewSharder_empty_in_use c s0 d Hinit Hnew) as (Hvalid & Hcfg & Huse).
  pose proof Hvalid as (_ & Hcap & Hmax & _).
  pose proof (NewSharder_provisions _ _ _ _ Hnew) as Hprov.
  pose proof (provisioned_total _ _ _ Hprov) as Htotal.
  rewrite total_items_empty in Htotal.
  assert (∀ id r, MetaDB s0 !! id = Some r → item_count r = 0) as Hzero.
  { clear -Hprov. remember ∅ as t0 eqn:Ht0.
    induction Hprov as [|t' id path Hprov IH Hid Hfresh Hroom]; intros id' r Hl.
    - subst. by rewrite lookup_empty in Hl.
    - destruct (decide (id' = id)) as [->|Hne].
      + rewrite lookup_insert_eq in Hl. by injection Hl as <-.
      + rewrite lookup_insert_ne in Hl by done. by eapply IH. }
  assert (SoftCap (SConfig s0) = SoftCap c) as HS by (by rewrite Hcfg).
  assert (MaxDBCount (SConfig s0) = MaxDBCount c) as HM by (by rewrite Hcfg).
  rewrite <- HS. apply (under_cap_kept ops s0); rewrite ?HS, ?HM; try done; try lia.
  intros id r Hl. rewrite (Hzero id r Hl). lia.
Qed.

Lemma fill_respects_soft_cap_witness :
  ∃ s0,
    init_never_fails (InitSchemaFunc scenario_A)
    ∧ MaxDBCount scenario_A <= GoInt.max_int
    ∧ NewSharder scenario_A ∅ = (Ok s0, MetaDB s0)
    ∧ BalancingMode (SConfig s0) = "fill"
    ∧ num_assigns [OpAssign; OpAssign; OpRemove 0; OpAssign] <= SoftCap scenario_A * MaxDBCount scenario_A
    ∧ ∀ id r, MetaDB (after_ops [OpAssign; OpAssign; OpRemove 0; OpAssign] s0) !! id = Some r →
              item_count r <= SoftCap scenario_A.
Proof.
  exists (sample "fill" [0; 0; 0; 0; 0]).
  assert (init_never_fails (InitSchemaFunc scenario_A)) as Hinit
    by (intros f path; discriminate).
  assert (MaxDBCount scenario_A <= GoInt.max_int) as Hint by (vm_compute; discriminate).
  assert (NewSharder scenario_A ∅
          = (Ok (sample "fill" [0; 0; 0; 0; 0]), MetaDB (sample "fill" [0; 0; 0; 0; 0])))
    as Hnew by (vm_compute; reflexivity).
  assert (BalancingMode (SConfig (sample "fill" [0; 0; 0; 0; 0])) = "fill")
    as Hfill by reflexivity.
  assert (num_assigns [OpAssign; OpAssign; OpRemove 0; OpAssign]
          <= SoftCap scenario_A * MaxDBCount scenario_A) as Hnum
    by (vm_compute; discriminate).
  split; [exact Hinit|]. split; [exact Hint|]. split; [exact Hnew|].
  split; [exact Hfill|]. split; [exact Hnum|].
  exact (fill_respects_soft_cap scenario_A _ _ _ Hinit Hint Hnew Hfill Hnum).
Defined.

(** ** Round-robin keeps the shards level *)

Lemma round_robin_step_balanced s :
  BalancingMode (SConfig s) = "round-robin" →
  balanced (MetaDB s) → balanced (MetaDB (AssignItemToShard s).2).
Proof.
  intros Hrr Hbal. rewrite (assign_round_robin s Hrr).
  destruct (SQL.select_least_loaded (MetaDB s)) as [id0|] eqn:Hsel; [|done].
  apply select_least_loaded_Some in Hsel as (row & Hl0 & Hmin). simpl.
  rewrite (increment_registered id0 row) by done.
  intros id r id' r' Hl Hl'.
  destruct (decide (id = id0)) as [->|Hne], (decide (id' = id0)) as [->|Hne'].
  - rewrite lookup_insert_eq in Hl, Hl'. injection Hl as <-. injection Hl' as <-. lia.
  - rewrite lookup_insert_eq in Hl. rewrite lookup_insert_ne in Hl' by done.
    injection Hl as <-. simpl. specialize (Hmin id' r' Hl'). lia.
  - rewrite lookup_insert_ne in Hl by done. rewrite lookup_insert_eq in Hl'.
    injection Hl' as <-. simpl. specialize (Hbal id r id0 row Hl Hl0). lia.
  - rewrite lookup_insert_ne in Hl, Hl' by done. by eapply Hbal.
Qed.

(** X6: in round-robin mode, if no two shards' counts differ by more than
    one, they still do not after any number of assignments. *)
Theorem round_robin_stays_balanced (s : Sharder) (n : nat) :
  BalancingMode (SConfig s) = "round-robin" →
  balanced (MetaDB s) →
  balanced (MetaDB (assign_times n s).2).
Proof.
  revert s. induction n as [|n IH]; intros s Hrr Hbal; [done|].
  simpl. pose proof (round_robin_step_balanced s Hrr Hbal) as Hstep.
  pose proof (assign_config s) as Hcfg.
  destruct (AssignItemToShard s) as [r s1]. simpl in *.
  specialize (IH s1). destruct (assign_times n s1) as [rs s2]. simpl in *.
  apply IH; [congruence|done].
Qed.

Lemma round_robin_stays_balanced_witness :
  BalancingMode (SConfig (sample "round-robin" [3; 2; 3])) = "round-robin"
  ∧ balanced (MetaDB (sample "round-robin" [3; 2; 3]))
  ∧ balanced (MetaDB (assign_times 7 (sample "round-robin" [3; 2; 3])).2).
Proof.
  assert (BalancingMode (SConfig (sample "round-robin" [3; 2; 3])) = "round-robin")
    as Hrr by reflexivity.
  assert (balanced (MetaDB (sample "round-robin" [3; 2; 3]))) as Hbal.
  { intros id r id' r' Hl Hl'.
    apply sample_rows_counts in Hl, Hl'. simpl in Hl, Hl'. lia. }
  split; [exact Hrr|]. split; [exact Hbal|].
  exact (round_robin_stays_balanced _ 7 Hrr Hbal).
Defined.

(** ** An assignment and its removal *)

(** X7: on a table whose identifiers fit, whose counts are not negative and
    none of whose counts is at the largest [int], removing from the shard
    that an assignment returned undoes the assignment.  If the shard was
    registered before, its count after the assignment is one more, still an
    [int], and the state after the removal is the one before the
    assignment; if the assignment made the shard, the shard stays
    registered with no item and the other rows are as before. *)
Theorem remove_undoes_assign (s s1 : Sharder) (id : Z) :
  wf_table (MetaDB s) →
  counts_below_max (MetaDB s) →
  AssignItemToShard s = (Ok id, s1) →
  match MetaDB s !! id with
  | Some r =>
      GetItemCount id s1 = (Ok (item_count r + 1), s1)
      ∧ GoInt.in_range (item_count r + 1)
      ∧ RemoveItemFromShard id s1 = (Ok tt, s)
  | None =>
      GetItemCount id s1 = (Ok 1, s1)
      ∧ ∃ path, MetaDB (RemoveItemFromShard id s1).2
                = <[id := mkShardRow path 0]> (MetaDB s)
  end.
Proof.
  intros Hwf Hbelow Hassign.
  destruct (assign_cases s) as (r & s' & Heq & Hcfg & Hcases).
  rewrite Hassign in Heq. injection Heq as <- <-.
  pose proof (nextShardID_fresh _ Hwf) as [Hfresh _].
  assert (∀ n, GetItemCount id s1 = (Ok n, s1)
               ↔ ∃ row, MetaDB s1 !! id = Some row ∧ item_count row = n) as Hget.
  { intros n. unfold GetItemCount, SQL.select_item_count. run_op.
    destruct (MetaDB s1 !! id) as [row|]; simpl; split.
    - intros [= <-]. by eauto.
    - by intros (row' & [= <-] & <-).
    - done.
    - by intros (row' & [=] & _). }
  destruct Hcases as [(e & He & _)|[(id' & row & [= <-] & Hl & Hm)
    |[(id' & path & [= <-] & _ & _ & Hnone & _ & Hm)
     |(id' & row & [= <-] & -> & Hl & _)]]]; [done| | |congruence].
  - rewrite Hl. split; [|split].
    + apply Hget. exists (assigned row). split; [|done].
      by rewrite Hm, lookup_insert_eq.
    + destruct (Hwf id row Hl) as [_ Hpos]. specialize (Hbelow id row Hl).
      unfold GoInt.in_range, GoInt.min_int, GoInt.max_int in *. lia.
    + unfold RemoveItemFromShard, exec, SQL.decrement. rewrite Hm, Hcfg.
      rewrite (alter_registered _ _ _ _ (lookup_insert_eq _ _ _)), insert_insert_eq.
      f_equal. rewrite <- (sharder_eta s) at 3. f_equal.
      apply insert_id. rewrite Hl. f_equal.
      destruct (Hwf id row Hl) as [_ Hpos]. destruct row as [p k]. simpl in *.
      unfold with_item_count. simpl. f_equal. lia.
  - rewrite Hnone. split.
    + apply Hget. eexists. split; [by rewrite Hm, lookup_insert_eq|done].
    + exists path. simpl. unfold SQL.decrement. rewrite Hm.
      rewrite (alter_registered _ _ _ _ (lookup_insert_eq _ _ _)), insert_insert_eq.
      done.
Qed.

Lemma remove_undoes_assign_witness :
  wf_table (MetaDB (sample "fill" [2; 1; 0]))
  ∧ counts_below_max (MetaDB (sample "fill" [2; 1; 0]))
  ∧ AssignItemToShard (sample "fill" [2; 1; 0]) = (Ok 1, sample "fill" [2; 2; 0])
  ∧ match MetaDB (sample "fill" [2; 1; 0]) !! 1 with
    | Some r =>
        GetItemCount 1 (sample "fill" [2; 2; 0])
        = (Ok (item_count r + 1), sample "fill" [2; 2; 0])
        ∧ GoInt.in_range (item_count r + 1)
        ∧ RemoveItemFromShard 1 (sample "fill" [2; 2; 0])
          = (Ok tt, sample "fill" [2; 1; 0])
    | None =>
        GetItemCount 1 (sample "fill" [2; 2; 0]) = (Ok 1, sample "fill" [2; 2; 0])
        ∧ ∃ path, MetaDB (RemoveItemFromShard 1 (sample "fill" [2; 2; 0])).2
                  = <[1 := mkShardRow path 0]> (MetaDB (sample "fill" [2; 1; 0]))
    end.
Proof.
  assert (wf_table (MetaDB (sample "fill" [2; 1; 0]))) as Hwf.
  { intros id r Hl. split.
    - assert (is_Some (sample_rows 0 [2; 1; 0] !! id)) as Hsome by (by eexists).
      destruct (decide (id = 0)) as [->|?]; [by vm_compute|].
      destruct (decide (id = 1)) as [->|?]; [by vm_compute|].
      destruct (decide (id = 2)) as [->|?]; [by vm_compute|].
      exfalso. simpl in Hl. unfold sample_rows in Hl.
      rewrite !lookup_insert_ne, lookup_empty in Hl by done. done.
    - apply sample_rows_counts in Hl. simpl in Hl. lia. }
  assert (AssignItemToShard (sample "fill" [2; 1; 0]) = (Ok 1, sample "fill" [2; 2; 0]))
    as Hassign by (vm_compute; reflexivity).
  assert (counts_below_max (MetaDB (sample "fill" [2; 1; 0]))) as Hbelow.
  { intros id r Hl. apply sample_rows_counts in Hl. simpl in Hl.
    unfold GoInt.max_int. lia. }
  split; [exact Hwf|]. split; [exact Hbelow|]. split; [exact Hassign|].
  exact (remove_undoes_assign _ _ 1 Hwf Hbelow Hassign).
Defined.

(** X9: when the callback refuses the file of a shard that is to be made,
    [createAndRegisterNewShard] returns the callback's error under its
    context and registers nothing. *)
Theorem refused_schema_registers_nothing (s : Sharder) (shardID : Z)
        (init : string → option string) (msg : string) :
  SQL.count_all (MetaDB s) < MaxDBCount (SConfig s) →
  MetaDB s !! shardID = None →
  InitSchemaFunc (SConfig s) = Some init →
  init (Path.Join (BasePath (SConfig s)) (dbFilePattern shardID)) = Some msg →
  createAndRegisterNewShard shardID s
  = (Err (ErrWrap ("failed to initialize schema for shard " ++ Path.itoa shardID)
                  (ErrInitSchema msg)), s).
Proof.
  intros Hroom Hfresh Hinit Hmsg. unfold createAndRegisterNewShard. run_op.
  destruct (Z.geb_spec (SQL.count_all (MetaDB s)) (MaxDBCount (SConfig s))); [lia|].
  unfold SQL.count_shard. rewrite Hfresh. change (0 >? 0) with false. cbv beta iota.
  by rewrite Hinit, Hmsg.
Qed.

Lemma refused_schema_registers_nothing_witness :
  SQL.count_all (MetaDB (mkSharder (mkConfig "./tests" 2 5 "fill" "dynamic"
                                             (Some (λ _, Some "no schema"))) ∅))
  < MaxDBCount (SConfig (mkSharder (mkConfig "./tests" 2 5 "fill" "dynamic"
                                             (Some (λ _, Some "no schema"))) ∅))
  ∧ MetaDB (mkSharder (mkConfig "./tests" 2 5 "fill" "dynamic"
                                (Some (λ _, Some "no schema"))) ∅) !! 0 = None
  ∧ createAndRegisterNewShard 0
      (mkSharder (mkConfig "./tests" 2 5 "fill" "dynamic"
                           (Some (λ _, Some "no schema"))) ∅)
    = (Err (ErrWrap ("failed to initialize schema for shard " ++ Path.itoa 0)
                    (ErrInitSchema "no schema")),
       mkSharder (mkConfig "./tests" 2 5 "fill" "dynamic"
                           (Some (λ _, Some "no schema"))) ∅).
Proof.
  assert (SQL.count_all (MetaDB (mkSharder (mkConfig "./tests" 2 5 "fill" "dynamic"
                                                     (Some (λ _, Some "no schema"))) ∅))
          < MaxDBCount (SConfig (mkSharder (mkConfig "./tests" 2 5 "fill" "dynamic"
                                                     (Some (λ _, Some "no schema"))) ∅)))
    as Hroom by (vm_compute; reflexivity).
  assert (MetaDB (mkSharder (mkConfig "./tests" 2 5 "fill" "dynamic"
                                      (Some (λ _, Some "no schema"))) ∅) !! 0 = None)
    as Hfresh by reflexivity.
  split; [exact Hroom|]. split; [exact Hfresh|].
  exact (refused_schema_registers_nothing _ 0 (λ _, Some "no schema") "no schema"
           Hroom Hfresh eq_refl eq_refl).
Defined.

(** ** [ensureShardExists] *)

Lemma ensure_registered (s : Sharder) (shardID : Z) :
  is_Some (MetaDB s !! shardID) → ensureShardExists shardID s = (Ok shardID, s).
Proof.
  intros [r Hr]. unfold ensureShardExists. run_op. unfold SQL.count_shard.
  by rewrite Hr.
Qed.

Lemma ensure_missing (s : Sharder) (shardID : Z) :
  MetaDB s !! shardID = None →
  ensureShardExists shardID s
  = match createAndRegisterNewShard shardID s with
    | (Ok _, s') => (Ok shardID, s')
    | (Err e, s') =>
        (Err (ErrWrap ("failed to create shard " ++ Path.itoa shardID) e), s')
    end.
Proof.
  intros Hnone. unfold ensureShardExists. run_op. unfold SQL.count_shard.
  rewrite Hnone. change (0 =? 0) with true. cbv beta iota.
  by destruct (createAndRegisterNewShard shardID s) as [[[]|e] s'].
Qed.


Example ensure_finds_shard_at_the_limit :
  ensureShardExists 0 single_shard_at_ceiling = (Ok 0, single_shard_at_ceiling).
Proof. by vm_compute. Qed.

(** ** Construction over a directory that holds shards *)

(** X11: with shards made at start, a directory that already holds
    [MaxDBCount] shards or more constructs and is left exactly as it is. *)
Theorem on_startup_keeps_directory (c : Config) (disk : gmap Z ShardRow) :
  valid_config c →
  GenerationMode c = "on-startup" →
  MaxDBCount c <= SQL.count_all disk →
  NewSharder c disk = (Ok (mkSharder (with_default_modes c) disk), disk).
Proof.
  intros Hvalid Hmode Hfull. unfold NewSharder.
  rewrite (checkConfig_valid c Hvalid). unfold setUpShards, GetShardCount. run_op.
  cbn [with_default_modes GenerationMode MaxDBCount]. rewrite Hmode.
  simpl (default_if_empty _ _). simpl (String.eqb _ _). cbv beta iota.
  cbn [SConfig MetaDB].
  destruct (Z.geb_spec (SQL.count_all disk) (MaxDBCount c)); [done|lia].
Qed.

Lemma on_startup_keeps_directory_witness :
  valid_config reopened_with_two
  ∧ GenerationMode reopened_with_two = "on-startup"
  ∧ MaxDBCount reopened_with_two <= SQL.count_all (fresh_shards "./tests" 5)
  ∧ NewSharder reopened_with_two (fresh_shards "./tests" 5)
    = (Ok (mkSharder (with_default_modes reopened_with_two) (fresh_shards "./tests" 5)),
       fresh_shards "./tests" 5).
Proof.
  assert (valid_config reopened_with_two) as Hvalid.
  { unfold valid_config, recognized_generation, recognized_balancing. simpl.
    repeat split; (done || lia || by auto). }
  assert (GenerationMode reopened_with_two = "on-startup") as Hmode by reflexivity.
  assert (MaxDBCount reopened_with_two <= SQL.count_all (fresh_shards "./tests" 5))
    as Hfull by (vm_compute; discriminate).
  split; [exact Hvalid|]. split; [exact Hmode|]. split; [exact Hfull|].
  exact (on_startup_keeps_directory _ _ Hvalid Hmode Hfull).
Defined.

(** X12: in dynamic mode (also as the default), a directory whose shard 0 is
    registered constructs unchanged while it holds fewer than [MaxDBCount]
    shards; once it holds [MaxDBCount] shards or more, construction returns
    an error and leaves the directory as it is. *)
Theorem dynamic_over_directory (c : Config) (disk : gmap Z ShardRow) :
  valid_config c →
  GenerationMode c ≠ "on-startup" →
  (is_Some (disk !! 0) → SQL.count_all disk < MaxDBCount c →
   NewSharder c disk = (Ok (mkSharder (with_default_modes c) disk), disk))
  ∧ (MaxDBCount c <= SQL.count_all disk →
     ∃ e, NewSharder c disk = (Err e, disk)).
Proof.
  intros Hvalid Hmode.
  assert (GenerationMode (with_default_modes c) = "dynamic") as Hdyn.
  { destruct Hvalid as (_ & _ & _ & Hgen & _). simpl.
    unfold default_if_empty, recognized_generation in *.
    destruct Hgen as [Hg|[Hg|Hg]]; by rewrite Hg. }
  unfold NewSharder. rewrite (checkConfig_valid c Hvalid).
  unfold setUpShards. run_op. rewrite Hdyn. simpl (String.eqb _ _). cbv beta iota.
  pose proof (ensure_registered (mkSharder (with_default_modes c) disk) 0) as Hfound.
  pose proof (ensure_missing (mkSharder (with_default_modes c) disk) 0) as Hmissing.
  split.
  - intros Hreg Hroom. rewrite (Hfound Hreg).
    change (0 >? 0) with false. cbv beta iota.
    by rewrite create_registered.
  - intros Hfull. destruct (disk !! 0) as [r|] eqn:Hl.
    + rewrite Hfound by (simpl; rewrite Hl; by eexists).
      change (0 >? 0) with false. cbv beta iota.
      rewrite create_at_ceiling by done. by eexists.
    + rewrite (Hmissing Hl), create_at_ceiling by done. by eexists.
Qed.

Lemma dynamic_over_directory_witness :
  valid_config (mkConfig "./tests" 2 5 "" "" None)
  ∧ GenerationMode (mkConfig "./tests" 2 5 "" "" None) ≠ "on-startup"
  ∧ (is_Some (fresh_shards "./tests" 5 !! 0) →
     SQL.count_all (fresh_shards "./tests" 5) < MaxDBCount (mkConfig "./tests" 2 5 "" "" None) →
     NewSharder (mkConfig "./tests" 2 5 "" "" None) (fresh_shards "./tests" 5)
     = (Ok (mkSharder (with_default_modes (mkConfig "./tests" 2 5 "" "" None))
                      (fresh_shards "./tests" 5)),
        fresh_shards "./tests" 5))
  ∧ (MaxDBCount (mkConfig "./tests" 2 5 "" "" None) <= SQL.count_all (fresh_shards "./tests" 5) →
     ∃ e, NewSharder (mkConfig "./tests" 2 5 "" "" None) (fresh_shards "./tests" 5)
          = (Err e, fresh_shards "./tests" 5)).
Proof.
  assert (valid_config (mkConfig "./tests" 2 5 "" "" None)) as Hvalid.
  { unfold valid_config, recognized_generation, recognized_balancing. simpl.
    repeat split; (done || lia || by auto). }
  assert (GenerationMode (mkConfig "./tests" 2 5 "" "" None) ≠ "on-startup")
    as Hmode by discriminate.
  split; [exact Hvalid|]. split; [exact Hmode|].
  exact (dynamic_over_directory _ _ Hvalid Hmode).
Defined.

Example dynamic_directory_at_its_maximum_is_refused :
  NewSharder (mkConfig "./tests" 2 5 "" "" None) (fresh_shards "./tests" 5)
  = (Err (ErrWrap "failed to ensure initial shard 0 exists"
            (ErrWrap "failed to generate intial shard on dynamic startup"
               (ErrMaxShards 5))),
     fresh_shards "./tests" 5).
Proof. by vm_compute. Qed.

(** ** Handles *)

Lemma GetShard_registered s shardID r :
  MetaDB s !! shardID = Some r → db_path r ≠ "" →
  GetShard shardID s = inr (shard_handles (db_path r)).
Proof.
  intros Hl Hpath. unfold GetShard, GetDB, select_db_path. rewrite Hl. simpl.
  apply String.eqb_neq in Hpath. by rewrite Hpath.
Qed.

Lemma GetShard_inr s shardID shard :
  GetShard shardID s = inr shard →
  ∃ r, MetaDB s !! shardID = Some r ∧ db_path r ≠ ""
       ∧ shard = shard_handles (db_path r).
Proof.
  unfold GetShard, GetDB, select_db_path.
  destruct (MetaDB s !! shardID) as [r|] eqn:Hl; simpl; [|done].
  destruct (String.eqb_spec (db_path r) ""); [done|].
  intros [= <-]. by exists r.
Qed.

Lemma shard_key_inj (a b : Z) : shard_key a = shard_key b → a = b.
Proof.
  unfold shard_key. intros Heq. apply itoa_inj.
  by apply (inj (String.append "shard_")) in Heq.
Qed.

Lemma getShardsFrom_inr left i s m m' :
  getShardsFrom left i s m = inr m' →
  (∀ k, i <= k < i + Z.of_nat left →
        ∃ shard, GetShard k s = inr shard ∧ m' !! shard_key k = Some shard)
  ∧ (∀ key, (∀ k, i <= k < i + Z.of_nat left → key ≠ shard_key k) →
            m' !! key = m !! key)
  ∧ (∀ key, is_Some (m' !! key) →
            is_Some (m !! key)
            ∨ ∃ k, i <= k < i + Z.of_nat left ∧ key = shard_key k).
Proof.
  revert i m. induction left as [|left IH]; intros i m Hrun.
  - simpl in Hrun. injection Hrun as <-.
    split; [intros k Hk; lia|]. split; [done|by auto].
  - simpl in Hrun. destruct (GetShard i s) as [e|shard] eqn:Hget; [done|].
    destruct (IH _ _ Hrun) as (Hin & Hout & Hdom). split; [|split].
    + intros k Hk. destruct (decide (k = i)) as [->|Hne].
      * exists shard. split; [done|]. rewrite Hout.
        -- apply lookup_insert_eq.
        -- intros k' Hk' Heq. apply shard_key_inj in Heq. lia.
      * apply Hin. lia.
    + intros key Hkey. rewrite Hout by (intros k Hk; apply Hkey; lia).
      apply lookup_insert_ne. intros Heq. by apply (Hkey i); [lia|].
    + intros key Hkey. destruct (Hdom key Hkey) as [Hm|(k & Hk & ->)].
      * destruct (decide (key = shard_key i)) as [->|Hne].
        -- right. exists i. split; [lia|done].
        -- left. by rewrite lookup_insert_ne in Hm.
      * right. exists k. split; [lia|done].
Qed.

Lemma getShardsFrom_inl left i s m e :
  getShardsFrom left i s m = inl e →
  ∃ k e', i <= k < i + Z.of_nat left ∧ GetShard k s = inl e' ∧ e = ErrGetShard e'
          ∧ ∀ j, i <= j < k → ∃ shard, GetShard j s = inr shard.
Proof.
  revert i m. induction left as [|left IH]; intros i m Hrun; [done|].
  simpl in Hrun. destruct (GetShard i s) as [e'|shard] eqn:Hget.
  - injection Hrun as <-. exists i, e'. split; [lia|]. split; [done|].
    split; [done|]. intros j Hj. lia.
  - destruct (IH _ _ Hrun) as (k & e' & Hk & Hfail & -> & Hbefore).
    exists k, e'. split; [lia|]. split; [done|]. split; [done|].
    intros j Hj. destruct (decide (j = i)) as [->|Hne]; [by eauto|].
    apply Hbefore. lia.
Qed.

Lemma GetAllShards_inl (s : Sharder) (e : handle_error) :
  GetAllShards s = inl e →
  ∃ i, 0 <= i < SQL.count_all (MetaDB s)
       ∧ (∀ j, 0 <= j < i → ∃ r, MetaDB s !! j = Some r ∧ db_path r ≠ "")
       ∧ ((MetaDB s !! i = None ∧ e = ErrGetShard (ErrNotInMetadata i))
          ∨ (∃ r, MetaDB s !! i = Some r ∧ db_path r = ""
                  ∧ e = ErrGetShard (ErrEmptyPath i))).
Proof.
  unfold GetAllShards, GetShardCount, query. cbn [fst snd]. intros Hrun.
  apply getShardsFrom_inl in Hrun as (k & e' & Hk & Hfail & -> & Hbefore).
  exists k. split; [unfold SQL.count_all in *; lia|]. split.
  - intros j Hj. destruct (Hbefore j Hj) as [shard Hget].
    apply GetShard_inr in Hget as (r & Hl & Hpath & _). by eauto.
  - revert Hfail. unfold GetShard, GetDB, select_db_path.
    destruct (MetaDB s !! k) as [r|] eqn:Hl; simpl.
    + destruct (String.eqb_spec (db_path r) ""); [|done].
      intros [= <-]. right. by eauto.
    + intros [= <-]. by left.
Qed.

Lemma GetAllShards_inr (s : Sharder) (m : gmap string Shard) :
  GetAllShards s = inr m →
  (∀ i, 0 <= i < SQL.count_all (MetaDB s) →
        ∃ r, MetaDB s !! i = Some r ∧ db_path r ≠ ""
             ∧ m !! shard_key i = Some (shard_handles (db_path r)))
  ∧ (∀ key, is_Some (m !! key) →
            ∃ i, 0 <= i < SQL.count_all (MetaDB s) ∧ key = shard_key i).
Proof.
  unfold GetAllShards, GetShardCount, query. cbn [fst snd]. intros Hrun.
  apply getShardsFrom_inr in Hrun as (Hin & _ & Hdom). split.
  - intros i Hi. destruct (Hin i) as (shard & Hget & Hm);
      [unfold SQL.count_all in *; lia|].
    apply GetShard_inr in Hget as (r & Hl & Hpath & ->). by eauto.
  - intros key Hkey. destruct (Hdom key Hkey) as [Hm|(k & Hk & ->)].
    + rewrite lookup_empty in Hm. by destruct Hm.
    + exists k. split; [|done]. unfold SQL.count_all in *. lia.
Qed.


(** X14: in every state that assignments and removals reach from a
    construction over an empty directory, [GetAllShards] succeeds and its map
    holds one entry for each registered shard and no other: under
    [shard_<id>], handles on the file of that shard under the base path.
    [GetShard] of an identifier that is not registered reports it as not
    found. *)
Theorem handles_for_every_shard (c : Config) (s0 : Sharder) (d : gmap Z ShardRow)
        (ops : list op) :
  init_never_fails (InitSchemaFunc c) →
  MaxDBCount c <= GoInt.max_int →
  NewSharder c ∅ = (Ok s0, d) →
  ∃ m, GetAllShards (after_ops ops s0) = inr m
       ∧ (∀ id, is_Some (MetaDB (after_ops ops s0) !! id) →
                GetShard id (after_ops ops s0)
                = inr (shard_handles (Path.Join (BasePath c) (dbFilePattern id)))
                ∧ m !! shard_key id
                  = Some (shard_handles (Path.Join (BasePath c) (dbFilePattern id))))
       ∧ (∀ key, is_Some (m !! key) →
                 ∃ id, is_Some (MetaDB (after_ops ops s0) !! id) ∧ key = shard_key id)
       ∧ (∀ id, MetaDB (after_ops ops s0) !! id = None →
                GetShard id (after_ops ops s0) = inl (ErrNotInMetadata id)).
Proof.
  intros Hinit Hint Hnew.
  destruct (NewSharder_empty_in_use c s0 d Hinit Hnew) as (Hvalid & Hcfg & Huse).
  pose proof (after_ops_in_use ops s0) as Hafter.
  rewrite Hcfg in Hafter at 1. specialize (Hafter Hint Huse).
  rewrite Hcfg in Hafter. destruct Hafter as (Hc & Hp & _ & _). simpl in Hp.
  destruct Hvalid as (Hbase & _).
  set (s := after_ops ops s0) in *.
  assert (∀ id r, MetaDB s !! id = Some r → db_path r ≠ "") as Hpath.
  { intros id r Hl. rewrite (Hp id r Hl). by apply shard_path_not_empty. }
  destruct (GetAllShards s) as [e|m] eqn:Hrun.
  - exfalso.
    destruct (GetAllShards_inl s e Hrun)
      as (i & Hi & _ & [[Hnone _]|(r & Hl & Hempty & _)]).
    + apply Hc in Hi. rewrite Hnone in Hi. by destruct Hi.
    + by apply (Hpath i r).
  - destruct (GetAllShards_inr s m Hrun) as [Hin Hdom].
    exists m. split; [done|]. split; [|split].
    + intros id Hreg. apply Hc in Hreg as Hid.
      destruct (Hin id Hid) as (r & Hl & Hne & Hm).
      rewrite (GetShard_registered s id r Hl Hne), Hm, (Hp id r Hl). done.
    + intros key Hkey. destruct (Hdom key Hkey) as (i & Hi & ->).
      exists i. split; [by apply Hc|done].
    + intros id Hnone. unfold GetShard, GetDB, select_db_path. by rewrite Hnone.
Qed.

Lemma handles_for_every_shard_witness :
  ∃ s0,
    init_never_fails (InitSchemaFunc scenario_A)
    ∧ MaxDBCount scenario_A <= GoInt.max_int
    ∧ NewSharder scenario_A ∅ = (Ok s0, MetaDB s0)
    ∧ ∃ m, GetAllShards (after_ops [OpAssign; OpRemove 0] s0) = inr m
           ∧ (∀ id, is_Some (MetaDB (after_ops [OpAssign; OpRemove 0] s0) !! id) →
                    GetShard id (after_ops [OpAssign; OpRemove 0] s0)
                    = inr (shard_handles (Path.Join (BasePath scenario_A) (dbFilePattern id)))
                    ∧ m !! shard_key id
                      = Some (shard_handles (Path.Join (BasePath scenario_A) (dbFilePattern id))))
           ∧ (∀ key, is_Some (m !! key) →
                     ∃ id, is_Some (MetaDB (after_ops [OpAssign; OpRemove 0] s0) !! id)
                           ∧ key = shard_key id)
           ∧ (∀ id, MetaDB (after_ops [OpAssign; OpRemove 0] s0) !! id = None →
                    GetShard id (after_ops [OpAssign; OpRemove 0] s0)
                    = inl (ErrNotInMetadata id)).
Proof.
  exists (sample "fill" [0; 0; 0; 0; 0]).
  assert (init_never_fails (InitSchemaFunc scenario_A)) as Hinit
    by (intros f path; discriminate).
  assert (MaxDBCount scenario_A <= GoInt.max_int) as Hint by (vm_compute; discriminate).
  assert (NewSharder scenario_A ∅
          = (Ok (sample "fill" [0; 0; 0; 0; 0]), MetaDB (sample "fill" [0; 0; 0; 0; 0])))
    as Hnew by (vm_compute; reflexivity).
  split; [exact Hinit|]. split; [exact Hint|]. split; [exact Hnew|].
  exact (handles_for_every_shard scenario_A _ _ _ Hinit Hint Hnew).
Defined.

(** A table with a gap: shard 1 is missing, and [GetAllShards] stops there. *)
Example GetAllShards_stops_at_a_gap :
  GetAllShards (mkSharder scenario_A
                  (<[0 := mkShardRow "tests/shard_0.db" 0]>
                     (<[2 := mkShardRow "tests/shard_2.db" 0]> ∅)))
  = inl (ErrGetShard (ErrNotInMetadata 1)).
Proof. by vm_compute. Qed.

Example GetShard_opens_writer_and_reader :
  GetShard 0 (sample "fill" [1])
  = inr (mkShard
           (mkDB "tests/shard_0.db?_journal_mode=WAL&_synchronous=NORMAL&_busy_timeout=5000" 1)
           (mkDB "tests/shard_0.db?_journal_mode=WAL&_synchronous=NORMAL&_busy_timeout=5000" 0)).
Proof. by vm_compute. Qed.

(** ** The hash-based [Litebeam] *)

Lemma last_byte_append_slash (s : string) :
  Hashed.last_byte (s ++ "/")%string = Some "/"%char.
Proof.
  induction s as [|x s IH]; [done|]. rewrite append_cons.
  destruct s as [|y s]; [done|]. rewrite append_cons in *. exact IH.
Qed.

Lemma last_byte_ends (s : string) (b : ascii) :
  Hashed.last_byte s = Some b → ∃ dir, s = (dir ++ String b "")%string.
Proof.
  induction s as [|x s IH]; [done|]. destruct s as [|y s].
  - intros [= <-]. by exists ""%string.
  - intros Hl. destruct (IH Hl) as (dir & Hdir). exists (String x dir).
    by rewrite append_cons, <- Hdir.
Qed.

Lemma last_byte_None (s : string) : Hashed.last_byte s = None → s = ""%string.
Proof.
  induction s as [|x s IH]; [done|]. destruct s as [|y s]; [done|].
  intros Hl. by apply IH in Hl.
Qed.

Lemma validateConfig_Returns (c c' : Hashed.Config) :
  Hashed.validateConfig c = Hashed.Returns c' →
  ends_in_slash (Hashed.BasePath c') ∧ Hashed.TotalShards c' = Hashed.TotalShards c.
Proof.
  unfold Hashed.validateConfig.
  destruct (Hashed.last_byte (Hashed.BasePath c)) as [b|] eqn:Hlast; [|done].
  destruct (Ascii.eqb b "/") eqn:Hb; simpl; intros [= <-].
  - apply Ascii.eqb_eq in Hb as ->. split; [by apply last_byte_ends|done].
  - split; [by eexists|done].
Qed.

(** X15: [validateConfig] panics on an empty [BasePath],
    and on no other.  Otherwise it returns the configuration with a
    [BasePath] that ends in a slash: the one given if it ended in one, with
    a slash appended if not; the other fields are the ones given, and
    validating the result again changes nothing. *)
Theorem validateConfig_spec (c : Hashed.Config) :
  match Hashed.validateConfig c with
  | Hashed.Panics => Hashed.BasePath c = ""%string
  | Hashed.Fails _ => False
  | Hashed.Returns c' =>
      Hashed.BasePath c ≠ ""%string
      ∧ ends_in_slash (Hashed.BasePath c')
      ∧ (ends_in_slash (Hashed.BasePath c) ∧ Hashed.BasePath c' = Hashed.BasePath c
         ∨ ¬ ends_in_slash (Hashed.BasePath c)
           ∧ Hashed.BasePath c' = (Hashed.BasePath c ++ "/")%string)
      ∧ Hashed.TotalShards c' = Hashed.TotalShards c
      ∧ Hashed.InitSchemaFunc c' = Hashed.InitSchemaFunc c
      ∧ Hashed.validateConfig c' = Hashed.Returns c'
  end.
Proof.
  unfold Hashed.validateConfig.
  destruct (Hashed.last_byte (Hashed.BasePath c)) as [b|] eqn:Hlast.
  - assert (Hashed.BasePath c ≠ ""%string) as Hne.
    { intros Heq. by rewrite Heq in Hlast. }
    destruct (Ascii.eqb b "/") eqn:Hb; simpl.
    + apply Ascii.eqb_eq in Hb as ->.
      assert (ends_in_slash (Hashed.BasePath c)) as Hends
        by (by apply last_byte_ends).
      rewrite Hlast. simpl. auto 10.
    + apply Ascii.eqb_neq in Hb.
      rewrite last_byte_append_slash. simpl.
      split; [done|]. split; [by eexists|]. split; [|done].
      right. split; [|done]. intros (dir & Hdir).
      rewrite Hdir, last_byte_append_slash in Hlast. congruence.
  - by apply last_byte_None.
Qed.

Lemma shardsFrom_step (left : nat) (i : Z) (c : Hashed.Config) (shards : gmap Z Shard) :
  Hashed.shardsFrom (S left) i c shards
  = match schema_error c (i + 1) with
    | Some msg => Hashed.Fails ("error initializing database: " ++ msg)
    | None =>
        Hashed.shardsFrom left (i + 1) c (<[i + 1 := hashed_shard c (i + 1)]> shards)
    end.
Proof. reflexivity. Qed.

Lemma shardsFrom_Returns (left : nat) (i : Z) (c : Hashed.Config)
      (shards m : gmap Z Shard) :
  Hashed.shardsFrom left i c shards = Hashed.Returns m →
  ∀ k, m !! k = if decide (i < k <= i + Z.of_nat left)
                then Some (hashed_shard c k) else shards !! k.
Proof.
  revert i shards. induction left as [|left IH]; intros i shards.
  - intros [= <-] k. case_decide; [lia|done].
  - rewrite shardsFrom_step. destruct (schema_error c (i + 1)); [done|].
    intros Hrun k. rewrite (IH _ _ Hrun k).
    repeat case_decide; try lia; try done.
    + assert (k = i + 1) as -> by lia. by rewrite lookup_insert_eq.
    + rewrite lookup_insert_ne; [done|lia].
Qed.

Lemma shardsFrom_accepted (left : nat) (i : Z) (c : Hashed.Config)
      (shards : gmap Z Shard) :
  (∀ k, i < k <= i + Z.of_nat left → schema_error c k = None) →
  ∃ m, Hashed.shardsFrom left i c shards = Hashed.Returns m.
Proof.
  revert i shards. induction left as [|left IH]; intros i shards Hok.
  - by eexists.
  - rewrite shardsFrom_step, (Hok (i + 1)) by lia.
    apply IH. intros k Hk. apply Hok. lia.
Qed.




(** *** The hash as a number *)

Lemma hex_value_high (b : Byte.byte) :
  hex_value (hex_char "0123456789abcdef" (Byte.to_N b / 16))
  = Some (Z.of_N (Byte.to_N b / 16)).
Proof. destruct b; reflexivity. Qed.

Lemma hex_value_low (b : Byte.byte) :
  hex_value (hex_char "0123456789abcdef" (Byte.to_N b mod 16))
  = Some (Z.of_N (Byte.to_N b mod 16)).
Proof. destruct b; reflexivity. Qed.

Lemma byte_of_nibbles (b : Byte.byte) :
  16 * Z.of_N (Byte.to_N b / 16) + Z.of_N (Byte.to_N b mod 16) = Z.of_N (Byte.to_N b).
Proof. destruct b; reflexivity. Qed.

Lemma scan_digits_Encode (bytes : list Byte.byte) (acc : Z) :
  scan_digits acc (EncodeToString bytes)
  = Some (fold_left (λ acc b, 256 * acc + Z.of_N (Byte.to_N b)) bytes acc).
Proof.
  revert acc. induction bytes as [|b bytes IH]; intros acc; [done|].
  cbn [EncodeToString scan_digits fold_left].
  rewrite hex_value_high, hex_value_low, IH. do 2 f_equal.
  pose proof (byte_of_nibbles b). lia.
Qed.

Lemma SetString16_unsigned (b : Byte.byte) (rest : string) :
  SetString16 (String (hex_char "0123456789abcdef" (Byte.to_N b / 16)) rest)
  = scan_digits 0 (String (hex_char "0123456789abcdef" (Byte.to_N b / 16)) rest).
Proof. destruct b; reflexivity. Qed.

Lemma SetString16_Encode (bytes : list Byte.byte) :
  bytes ≠ [] → SetString16 (EncodeToString bytes) = Some (big_endian bytes).
Proof.
  destruct bytes as [|b bytes]; [done|]. intros _.
  change (EncodeToString (b :: bytes))
    with (String (hex_char "0123456789abcdef" (Byte.to_N b / 16))
            (String (hex_char "0123456789abcdef" (Byte.to_N b mod 16))
               (EncodeToString bytes))).
  rewrite SetString16_unsigned.
  change (String (hex_char "0123456789abcdef" (Byte.to_N b / 16))
            (String (hex_char "0123456789abcdef" (Byte.to_N b mod 16))
               (EncodeToString bytes)))
    with (EncodeToString (b :: bytes)).
  apply scan_digits_Encode.
Qed.

Lemma fold_bytes_nonneg (bytes : list Byte.byte) (acc : Z) :
  0 <= acc → 0 <= fold_left (λ acc b, 256 * acc + Z.of_N (Byte.to_N b)) bytes acc.
Proof.
  revert acc. induction bytes as [|b bytes IH]; intros acc Hacc; [done|].
  cbn [fold_left]. apply IH. lia.
Qed.

Lemma hash_not_empty (Sum256 : string → list Byte.byte) (x : string) :
  hash_of_32_bytes Sum256 → Sum256 x ≠ [].
Proof. intros H32 Heq. specialize (H32 x). by rewrite Heq in H32. Qed.

Lemma sample_hash_32 : hash_of_32_bytes sample_hash.
Proof. intros x. apply repeat_length. Qed.

Lemma AssignToShard_positive (Sum256 : string → list Byte.byte)
      (l : Hashed.Litebeam) (base : string) :
  hash_of_32_bytes Sum256 →
  GoInt.in_range (Hashed.TotalShards (Hashed.LConfig l)) →
  0 < Hashed.TotalShards (Hashed.LConfig l) →
  Hashed.AssignToShard Sum256 l base
  = Hashed.Returns
      (big_endian (Sum256 base) mod Hashed.TotalShards (Hashed.LConfig l) + 1)
  ∧ 1 <= big_endian (Sum256 base) mod Hashed.TotalShards (Hashed.LConfig l) + 1
      <= Hashed.TotalShards (Hashed.LConfig l).
Proof.
  intros H32 Hrange Hpos. unfold Hashed.AssignToShard.
  rewrite SetString16_Encode by (by apply hash_not_empty).
  destruct (Z.eqb_spec (Hashed.TotalShards (Hashed.LConfig l)) 0) as [|_]; [lia|].
  rewrite Z.abs_eq by lia.
  pose proof (Z.mod_pos_bound (big_endian (Sum256 base))
                (Hashed.TotalShards (Hashed.LConfig l)) Hpos) as Hmod.
  rewrite GoInt_add_exact; [split; [done|lia]|].
  unfold GoInt.in_range, GoInt.min_int, GoInt.max_int in *. lia.
Qed.

(** X18: With a hash of thirty-two bytes and a positive
    [TotalShards], [AssignToShard] never fails: the hexadecimal string of
    the hash always converts, to the number the bytes spell, first byte
    highest.  The result is that number modulo [TotalShards], plus one, so
    it lies between 1 and [TotalShards], and the same input always maps to
    the same shard. *)
Theorem AssignToShard_spec (Sum256 : string → list Byte.byte)
        (l : Hashed.Litebeam) (base : string) :
  hash_of_32_bytes Sum256 →
  GoInt.in_range (Hashed.TotalShards (Hashed.LConfig l)) →
  0 < Hashed.TotalShards (Hashed.LConfig l) →
  SetString16 (EncodeToString (Sum256 base)) = Some (big_endian (Sum256 base))
  ∧ Hashed.AssignToShard Sum256 l base
    = Hashed.Returns
        (big_endian (Sum256 base) mod Hashed.TotalShards (Hashed.LConfig l) + 1)
  ∧ 1 <= big_endian (Sum256 base) mod Hashed.TotalShards (Hashed.LConfig l) + 1
      <= Hashed.TotalShards (Hashed.LConfig l).
Proof.
  intros H32 Hrange Hpos. split.
  - apply SetString16_Encode. by apply hash_not_empty.
  - by apply AssignToShard_positive.
Qed.

Lemma AssignToShard_spec_witness :
  hash_of_32_bytes sample_hash
  ∧ GoInt.in_range
      (Hashed.TotalShards (Hashed.LConfig (Hashed.mkLitebeam (Hashed.mkConfig "./tests/" 3 None) ∅)))
  ∧ 0 < Hashed.TotalShards (Hashed.LConfig (Hashed.mkLitebeam (Hashed.mkConfig "./tests/" 3 None) ∅))
  ∧ SetString16 (EncodeToString (sample_hash "abc")) = Some (big_endian (sample_hash "abc"))
  ∧ Hashed.AssignToShard sample_hash (Hashed.mkLitebeam (Hashed.mkConfig "./tests/" 3 None) ∅) "abc"
    = Hashed.Returns
        (big_endian (sample_hash "abc")
         mod Hashed.TotalShards
               (Hashed.LConfig (Hashed.mkLitebeam (Hashed.mkConfig "./tests/" 3 None) ∅)) + 1)
  ∧ 1 <= big_endian (sample_hash "abc")
         mod Hashed.TotalShards
               (Hashed.LConfig (Hashed.mkLitebeam (Hashed.mkConfig "./tests/" 3 None) ∅)) + 1
      <= Hashed.TotalShards
           (Hashed.LConfig (Hashed.mkLitebeam (Hashed.mkConfig "./tests/" 3 None) ∅)).
Proof.
  set (l := Hashed.mkLitebeam (Hashed.mkConfig "./tests/" 3 None) ∅).
  assert (GoInt.in_range (Hashed.TotalShards (Hashed.LConfig l))) as Hrange
    by (vm_compute; split; discriminate).
  assert (0 < Hashed.TotalShards (Hashed.LConfig l)) as Hpos by (simpl; lia).
  split; [exact sample_hash_32|]. split; [exact Hrange|]. split; [exact Hpos|].
  exact (AssignToShard_spec sample_hash l "abc" sample_hash_32 Hrange Hpos).
Defined.

Lemma NewLitebeam_Returns (c : Hashed.Config) (l : Hashed.Litebeam) :
  Hashed.NewLitebeam c = Hashed.Returns l →
  Hashed.TotalShards (Hashed.LConfig l) = Hashed.TotalShards c
  ∧ Hashed.validateConfig c = Hashed.Returns (Hashed.LConfig l)
  ∧ Hashed.NewShards (Hashed.LConfig l) = Hashed.Returns (Hashed.Shards l).
Proof.
  unfold Hashed.NewLitebeam. intros Hnew.
  destruct (Hashed.validateConfig c) as [conf| |] eqn:Hval; [|done|done].
  destruct (Hashed.NewShards conf) as [m| |] eqn:Hshards; [|done|done].
  injection Hnew as <-. simpl.
  by destruct (validateConfig_Returns c conf Hval) as (_ & ->).
Qed.

(** X19: On a [Litebeam] that [NewLitebeam]
    returned for a positive [TotalShards], [AssignToShard] names, for every
    input, a shard that is in [Shards]: the handles [NewShards] opened on
    the file of that number under the validated [BasePath]. *)
Theorem AssignToShard_names_a_shard (Sum256 : string → list Byte.byte)
        (c : Hashed.Config) (l : Hashed.Litebeam) (base : string) :
  hash_of_32_bytes Sum256 →
  GoInt.in_range (Hashed.TotalShards c) →
  0 < Hashed.TotalShards c →
  Hashed.NewLitebeam c = Hashed.Returns l →
  ∃ k, Hashed.AssignToShard Sum256 l base = Hashed.Returns k
       ∧ Hashed.Shards l !! k = Some (hashed_shard (Hashed.LConfig l) k)
       ∧ ends_in_slash (Hashed.BasePath (Hashed.LConfig l)).
Proof.
  intros H32 Hrange Hpos Hnew.
  destruct (NewLitebeam_Returns c l Hnew) as (Hts & Hval & Hshards).
  rewrite <- Hts in Hrange, Hpos.
  destruct (AssignToShard_positive Sum256 l base H32 Hrange Hpos) as (Hassign & Hk).
  eexists. split; [exact Hassign|]. split.
  - unfold Hashed.NewShards in Hshards.
    rewrite (shardsFrom_Returns _ _ _ _ _ Hshards). case_decide; [done|lia].
  - by destruct (validateConfig_Returns c _ Hval) as (Hends & _).
Qed.

Lemma AssignToShard_names_a_shard_witness :
  ∃ l,
    hash_of_32_bytes sample_hash
    ∧ GoInt.in_range (Hashed.TotalShards (Hashed.mkConfig "./tests" 3 None))
    ∧ 0 < Hashed.TotalShards (Hashed.mkConfig "./tests" 3 None)
    ∧ Hashed.NewLitebeam (Hashed.mkConfig "./tests" 3 None) = Hashed.Returns l
    ∧ ∃ k, Hashed.AssignToShard sample_hash l "abc" = Hashed.Returns k
           ∧ Hashed.Shards l !! k = Some (hashed_shard (Hashed.LConfig l) k)
           ∧ ends_in_slash (Hashed.BasePath (Hashed.LConfig l)).
Proof.
  exists (Hashed.mkLitebeam (Hashed.mkConfig "./tests/" 3 None)
            (<[3 := hashed_shard (Hashed.mkConfig "./tests/" 3 None) 3]>
               (<[2 := hashed_shard (Hashed.mkConfig "./tests/" 3 None) 2]>
                  (<[1 := hashed_shard (Hashed.mkConfig "./tests/" 3 None) 1]> ∅)))).
  assert (GoInt.in_range (Hashed.TotalShards (Hashed.mkConfig "./tests" 3 None))) as Hrange
    by (vm_compute; split; discriminate).
  assert (0 < Hashed.TotalShards (Hashed.mkConfig "./tests" 3 None)) as Hpos
    by (simpl; lia).
  assert (Hashed.NewLitebeam (Hashed.mkConfig "./tests" 3 None)
          = Hashed.Returns
              (Hashed.mkLitebeam (Hashed.mkConfig "./tests/" 3 None)
                 (<[3 := hashed_shard (Hashed.mkConfig "./tests/" 3 None) 3]>
                    (<[2 := hashed_shard (Hashed.mkConfig "./tests/" 3 None) 2]>
                       (<[1 := hashed_shard (Hashed.mkConfig "./tests/" 3 None) 1]> ∅)))))
    as Hnew by (vm_compute; reflexivity).
  split; [exact sample_hash_32|]. split; [exact Hrange|]. split; [exact Hpos|].
  split; [exact Hnew|].
  exact (AssignToShard_names_a_shard sample_hash _ _ "abc" sample_hash_32 Hrange Hpos Hnew).
Defined.

(** With three shards asked for as [-3], every input is sent to a shard
    between 1 and 3 that was never opened. *)
Example negative_TotalShards_names_a_missing_shard :
  Hashed.NewLitebeam (Hashed.mkConfig "./tests/" (-3) None)
  = Hashed.Returns (Hashed.mkLitebeam (Hashed.mkConfig "./tests/" (-3) None) ∅)
  ∧ Hashed.AssignToShard sample_hash
      (Hashed.mkLitebeam (Hashed.mkConfig "./tests/" (-3) None) ∅) "abc"
    = Hashed.Returns 3.
Proof. split; vm_compute; reflexivity. Qed.

(** An empty [BasePath] panics in [NewLitebeam] before any shard is made. *)
Example NewLitebeam_empty_BasePath_panics (n : Z) (init : option (DB → option string)) :
  Hashed.NewLitebeam (Hashed.mkConfig "" n init) = Hashed.Panics.
Proof. reflexivity. Qed.

(** ** The mode checks of [NewSharder] *)


(** Both modes left empty, with room for two shards: the [Sharder] is
    returned with "dynamic" and "fill". *)
Example empty_modes_are_accepted :
  NewSharder (mkConfig "./tests" 2 2 "" "" None) ∅
  = (Ok (mkSharder (mkConfig "./tests" 2 2 "fill" "dynamic" None)
                   {[ 0 := mkShardRow "tests/shard_0.db" 0 ]}),
     {[ 0 := mkShardRow "tests/shard_0.db" 0 ]}).
Proof. by vm_compute. Qed.

(** ** Failures and what they leave *)

Ltac run_on := unfold attempt, scan; run_op.

Lemma create_on_works (shardID : Z) (s : Sharder) :
  createAndRegisterNewShardOn works shardID s = createAndRegisterNewShard shardID s.
Proof.
  unfold createAndRegisterNewShardOn, createAndRegisterNewShard, works. run_on.
  destruct (SQL.count_all (MetaDB s) >=? MaxDBCount (SConfig s)); [done|].
  destruct (SQL.count_shard shardID (MetaDB s) >? 0); [done|].
  destruct (InitSchemaFunc (SConfig s)) as [init|];
    [destruct (init _); [done|]|];
    by destruct (SQL.insert_shard _ _ _).
Qed.

Lemma assign_on_works (s : Sharder) :
  AssignItemToShardOn works s = AssignItemToShard s.
Proof.
  unfold AssignItemToShardOn, AssignItemToShard. run_on.
  change (works BeginAssign) with (@None string). cbv beta iota.
  destruct (String.eqb (BalancingMode (SConfig s)) "round-robin").
  { change (works ScanTarget) with (@None string). cbv beta iota.
    by destruct (SQL.select_least_loaded (MetaDB s)). }
  destruct (String.eqb (BalancingMode (SConfig s)) "fill"); [|done].
  change (works ScanTarget) with (@None string). cbv beta iota.
  destruct (SQL.select_with_room _ _); [done|].
  change (works ScanMaxID) with (@None string). cbv beta iota.
  destruct (_ >? _).
  { change (works ScanLeastLoaded) with (@None string). cbv beta iota.
    by destruct (SQL.select_least_loaded (MetaDB s)). }
  rewrite create_on_works.
  by destruct (createAndRegisterNewShard _ s) as [[[]|e] s1].
Qed.

Lemma create_on_cases (eng : engine) (shardID : Z) (s : Sharder) :
  ∃ r s', createAndRegisterNewShardOn eng shardID s = (r, s') ∧
    (s' = s
     ∨ (r = Ok tt
        ∧ MetaDB s !! shardID = None
        ∧ s' = mkSharder (SConfig s)
                 (<[shardID := mkShardRow (Path.Join (BasePath (SConfig s))
                                             (dbFilePattern shardID)) 0]>
                    (MetaDB s)))).
Proof.
  unfold createAndRegisterNewShardOn. run_on.
  destruct (eng CountShards); [by eauto|].
  destruct (SQL.count_all (MetaDB s) >=? MaxDBCount (SConfig s)); [by eauto|].
  destruct (eng CheckExists); [by eauto|].
  unfold SQL.count_shard.
  destruct (MetaDB s !! shardID) as [r|] eqn:Hl; simpl; [by eauto|].
  destruct (eng OpenShard); [by eauto|].
  destruct (eng PingShard); [by eauto|].
  destruct (InitSchemaFunc (SConfig s)) as [init|];
    [destruct (init _); [by eauto|]|];
    (destruct (eng BeginRegister); [by eauto|];
     destruct (eng ExecInsert); [by eauto|];
     unfold SQL.insert_shard; rewrite Hl;
     destruct (SQL.path_taken _ _); [by eauto|];
     destruct (eng CommitRegister); [by eauto|];
     eexists _, _; split; [done|]; right; by eauto).
Qed.

(** X8: whatever call the storage engine refuses, an assignment that returns
    an error changes no count and removes no shard.  It leaves the
    [Sharder] exactly as it was, with one exception: when the engine
    refuses the transaction that sets the count of a shard the call has
    just registered, that shard stays registered with no item.  With an
    engine that works, an error leaves everything as it was. *)
Theorem failed_assign_keeps_counts (eng : engine) (s s' : Sharder) (e : error) :
  AssignItemToShardOn eng s = (Err e, s') →
  SConfig s' = SConfig s
  ∧ (MetaDB s' = MetaDB s
     ∨ ∃ id path,
         BalancingMode (SConfig s) = "fill"
         ∧ MetaDB s !! id = None
         ∧ MetaDB s' = <[id := mkShardRow path 0]> (MetaDB s)
         ∧ (is_Some (eng BeginNewCount) ∨ is_Some (eng ExecSetOne)
            ∨ is_Some (eng CommitNewCount)))
  ∧ ((∀ c, eng c = None) → s' = s).
Proof.
  unfold AssignItemToShardOn. run_on.
  destruct (eng BeginAssign) eqn:HB; [intros [= <- <-]; by auto|].
  destruct (String.eqb_spec (BalancingMode (SConfig s)) "round-robin") as [Hrr|Hrr].
  { destruct (eng ScanTarget); [intros [= <- <-]; by auto|].
    destruct (SQL.select_least_loaded (MetaDB s)); [|intros [= <- <-]; by auto].
    destruct (eng ExecIncrement); [intros [= <- <-]; by auto|].
    destruct (eng CommitAssign); [intros [= <- <-]; by auto|]. done. }
  destruct (String.eqb_spec (BalancingMode (SConfig s)) "fill") as [Hfill|Hfill];
    [|intros [= <- <-]; by auto].
  destruct (eng ScanTarget); [intros [= <- <-]; by auto|].
  destruct (SQL.select_with_room _ _).
  { destruct (eng ExecIncrement); [intros [= <- <-]; by auto|].
    destruct (eng CommitAssign); [intros [= <- <-]; by auto|]. done. }
  destruct (eng ScanMaxID); [intros [= <- <-]; by auto|].
  destruct (_ >? _).
  { destruct (eng ScanLeastLoaded); [intros [= <- <-]; by auto|].
    destruct (SQL.select_least_loaded (MetaDB s)); [|intros [= <- <-]; by auto].
    destruct (eng BeginSaturated); [intros [= <- <-]; by auto|].
    destruct (eng ExecSaturated); [intros [= <- <-]; by auto|].
    destruct (eng CommitSaturated); [intros [= <- <-]; by auto|]. done. }
  match goal with
  | |- context [createAndRegisterNewShardOn eng ?id s] =>
      destruct (create_on_cases eng id s) as (r & s1 & Hcreate & Hcases);
      rewrite Hcreate; set (next := id) in *
  end.
  destruct Hcases as [->|(-> & Hfresh & ->)].
  - destruct r as [[]|e1]; [|intros [= <- <-]; by auto].
    destruct (eng BeginNewCount); [intros [= <- <-]; by auto|].
    destruct (eng ExecSetOne); [intros [= <- <-]; by auto|].
    destruct (eng CommitNewCount); [intros [= <- <-]; by auto|]. done.
  - cbn [SConfig MetaDB].
    destruct (eng BeginNewCount) eqn:H1;
      [|destruct (eng ExecSetOne) eqn:H2;
        [|destruct (eng CommitNewCount) eqn:H3; [|done]]];
      (intros [= <- <-]; split; [done|]; split;
       [right; eexists _, _; repeat split; [done..|]; rewrite ?H1, ?H2, ?H3; by eauto
       |intros Hworks; rewrite ?Hworks in *; done]).
Qed.

Lemma failed_assign_keeps_counts_witness :
  AssignItemToShardOn refuses_set_one (sample "fill" [2; 2])
  = (Err (ErrWrap ("failed to set initial item_count for new shard " ++ Path.itoa 2)
                  (ErrStorage "disk I/O error")),
     sample "fill" [2; 2; 0])
  ∧ SConfig (sample "fill" [2; 2; 0]) = SConfig (sample "fill" [2; 2])
  ∧ (MetaDB (sample "fill" [2; 2; 0]) = MetaDB (sample "fill" [2; 2])
     ∨ ∃ id path,
         BalancingMode (SConfig (sample "fill" [2; 2])) = "fill"
         ∧ MetaDB (sample "fill" [2; 2]) !! id = None
         ∧ MetaDB (sample "fill" [2; 2; 0])
           = <[id := mkShardRow path 0]> (MetaDB (sample "fill" [2; 2]))
         ∧ (is_Some (refuses_set_one BeginNewCount)
            ∨ is_Some (refuses_set_one ExecSetOne)
            ∨ is_Some (refuses_set_one CommitNewCount)))
  ∧ ((∀ c, refuses_set_one c = None) → sample "fill" [2; 2; 0] = sample "fill" [2; 2]).
Proof.
  assert (AssignItemToShardOn refuses_set_one (sample "fill" [2; 2])
          = (Err (ErrWrap ("failed to set initial item_count for new shard "
                           ++ Path.itoa 2)
                          (ErrStorage "disk I/O error")),
             sample "fill" [2; 2; 0])) as Hassign by (vm_compute; reflexivity).
  split; [exact Hassign|].
  exact (failed_assign_keeps_counts _ _ _ _ Hassign).
Defined.

(** The engine refusing the commit of an increment: the error is returned
    and the count stays. *)
Example refused_commit_keeps_the_count :
  AssignItemToShardOn (λ c, match c with
                            | CommitAssign => Some "database is locked"
                            | _ => None
                            end) (sample "fill" [2; 1])
  = (Err (ErrWrap "failed to commit transaction for shard assignment"
                  (ErrStorage "database is locked")),
     sample "fill" [2; 1]).
Proof. by vm_compute. Qed.

(** ** [NewShards] and [NewLitebeam] on a driver *)

Lemma shardsFromOn_step (driver : string → option string) (left : nat) (i : Z)
      (c : Hashed.Config) (shards : gmap Z Shard) :
  Hashed.shardsFromOn driver (S left) i c shards
  = match driver (hashed_dsn c (i + 1)) with
    | Some err =>
        Hashed.Fails ("error generating writer for shard " ++ Path.itoa (i + 1)
                      ++ ": " ++ err)
    | None =>
        match schema_error c (i + 1) with
        | Some msg => Hashed.Fails ("error initializing database: " ++ msg)
        | None =>
            Hashed.shardsFromOn driver left (i + 1) c
              (<[i + 1 := hashed_shard c (i + 1)]> shards)
        end
    end.
Proof.
  cbn [Hashed.shardsFromOn]. unfold sql_OpenOn, schema_error, hashed_dsn.
  destruct (driver _); [done|].
  by destruct (match Hashed.InitSchemaFunc c with
               | Some init => init _
               | None => None
               end).
Qed.

Lemma shardsFromOn_accepted (driver : string → option string) (left : nat) (i : Z)
      (c : Hashed.Config) (shards : gmap Z Shard) :
  (∀ k, i < k <= i + Z.of_nat left → driver (hashed_dsn c k) = None) →
  Hashed.shardsFromOn driver left i c shards = Hashed.shardsFrom left i c shards.
Proof.
  revert i shards. induction left as [|left IH]; intros i shards Hok; [done|].
  rewrite shardsFromOn_step, shardsFrom_step, (Hok (i + 1)) by lia.
  destruct (schema_error c (i + 1)); [done|].
  apply IH. intros k Hk. apply Hok. lia.
Qed.

Lemma NewLitebeamOn_accepting (c : Hashed.Config) :
  Hashed.NewLitebeamOn (λ _, None) c = Hashed.NewLitebeam c.
Proof.
  unfold Hashed.NewLitebeamOn, Hashed.NewLitebeam, Hashed.NewShardsOn, Hashed.NewShards.
  destruct (Hashed.validateConfig c) as [conf| |]; [|done..].
  by rewrite shardsFromOn_accepted.
Qed.

Lemma shardsFromOn_refused (driver : string → option string) (left : nat) (i k : Z)
      (c : Hashed.Config) (shards : gmap Z Shard) (err : string) :
  i < k <= i + Z.of_nat left →
  driver (hashed_dsn c k) = Some err →
  (∀ j, i < j < k → driver (hashed_dsn c j) = None ∧ schema_error c j = None) →
  Hashed.shardsFromOn driver left i c shards
  = Hashed.Fails ("error generating writer for shard " ++ Path.itoa k ++ ": " ++ err).
Proof.
  revert i shards. induction left as [|left IH]; intros i shards Hk Herr Hbefore.
  - lia.
  - rewrite shardsFromOn_step.
    destruct (decide (k = i + 1)) as [->|Hne].
    + by rewrite Herr.
    + destruct (Hbefore (i + 1)) as [-> ->]; [lia|].
      apply IH; [lia|done|]. intros j Hj. apply Hbefore. lia.
Qed.

(** X16: when the driver accepts the data source name of every shard from 1
    to [TotalShards] and the schema callback accepts the writer of each (or
    there is no callback), [NewShards] returns a map whose keys are exactly
    1 to [TotalShards]; under each key are a writer limited to one
    connection and a reader with no limit, both opened on the data source
    name of [BasePath + "shard_<key>.db"].  Shard 0 is never made. *)
Theorem NewShards_spec (driver : string → option string) (c : Hashed.Config) :
  (∀ k, 1 <= k <= Hashed.TotalShards c → driver (hashed_dsn c k) = None) →
  (∀ k, 1 <= k <= Hashed.TotalShards c → schema_error c k = None) →
  ∃ m, Hashed.NewShardsOn driver c = Hashed.Returns m
       ∧ (∀ k, 1 <= k <= Hashed.TotalShards c →
               m !! k = Some (hashed_shard c k)
               ∧ MaxOpenConns (Writer (hashed_shard c k)) = 1
               ∧ MaxOpenConns (Reader (hashed_shard c k)) = 0
               ∧ DSN (Writer (hashed_shard c k))
                 = createDSN (Hashed.BasePath c ++ dbFilePattern k)%string
               ∧ DSN (Reader (hashed_shard c k)) = DSN (Writer (hashed_shard c k)))
       ∧ (∀ k, ¬ 1 <= k <= Hashed.TotalShards c → m !! k = None).
Proof.
  intros Hdriver Hok. unfold Hashed.NewShardsOn.
  rewrite shardsFromOn_accepted by (intros k Hk; apply Hdriver; lia).
  destruct (shardsFrom_accepted (Z.to_nat (Hashed.TotalShards c)) 0 c ∅) as (m & Hm).
  { intros k Hk. apply Hok. lia. }
  exists m. split; [done|].
  pose proof (shardsFrom_Returns _ _ _ _ _ Hm) as Hlook.
  split.
  - intros k Hk. rewrite Hlook. case_decide; [done|lia].
  - intros k Hk. rewrite Hlook. case_decide; [lia|done].
Qed.

Lemma NewShards_spec_witness :
  (∀ k, 1 <= k <= Hashed.TotalShards (Hashed.mkConfig "./tests/" 3 None) →
        refuses_semicolon (hashed_dsn (Hashed.mkConfig "./tests/" 3 None) k) = None)
  ∧ (∀ k, 1 <= k <= Hashed.TotalShards (Hashed.mkConfig "./tests/" 3 None) →
          schema_error (Hashed.mkConfig "./tests/" 3 None) k = None)
  ∧ ∃ m, Hashed.NewShardsOn refuses_semicolon (Hashed.mkConfig "./tests/" 3 None)
         = Hashed.Returns m
         ∧ (∀ k, 1 <= k <= Hashed.TotalShards (Hashed.mkConfig "./tests/" 3 None) →
                 m !! k = Some (hashed_shard (Hashed.mkConfig "./tests/" 3 None) k)
                 ∧ MaxOpenConns (Writer (hashed_shard (Hashed.mkConfig "./tests/" 3 None) k)) = 1
                 ∧ MaxOpenConns (Reader (hashed_shard (Hashed.mkConfig "./tests/" 3 None) k)) = 0
                 ∧ DSN (Writer (hashed_shard (Hashed.mkConfig "./tests/" 3 None) k))
                   = createDSN (Hashed.BasePath (Hashed.mkConfig "./tests/" 3 None)
                                ++ dbFilePattern k)%string
                 ∧ DSN (Reader (hashed_shard (Hashed.mkConfig "./tests/" 3 None) k))
                   = DSN (Writer (hashed_shard (Hashed.mkConfig "./tests/" 3 None) k)))
         ∧ (∀ k, ¬ 1 <= k <= Hashed.TotalShards (Hashed.mkConfig "./tests/" 3 None) →
                 m !! k = None).
Proof.
  assert (∀ k, 1 <= k <= Hashed.TotalShards (Hashed.mkConfig "./tests/" 3 None) →
               refuses_semicolon (hashed_dsn (Hashed.mkConfig "./tests/" 3 None) k) = None)
    as Hdriver.
  { intros k Hk. simpl in Hk.
    assert (k = 1 ∨ k = 2 ∨ k = 3) as Hcases by lia.
    destruct Hcases as [Hk1|[Hk2|Hk3]]; subst k; vm_compute; reflexivity. }
  assert (∀ k, 1 <= k <= Hashed.TotalShards (Hashed.mkConfig "./tests/" 3 None) →
               schema_error (Hashed.mkConfig "./tests/" 3 None) k = None) as Hok
    by (intros k _; reflexivity).
  split; [exact Hdriver|]. split; [exact Hok|].
  exact (NewShards_spec refuses_semicolon (Hashed.mkConfig "./tests/" 3 None) Hdriver Hok).
Defined.

(** X22: [NewShards] stops at the first shard whose data source name the
    driver refuses and returns the driver's error behind "error generating
    writer for shard <k>: "; it returns no map. *)
Theorem NewShards_driver_refuses (driver : string → option string)
        (c : Hashed.Config) (k : Z) (err : string) :
  1 <= k <= Hashed.TotalShards c →
  driver (hashed_dsn c k) = Some err →
  (∀ j, 1 <= j < k → driver (hashed_dsn c j) = None ∧ schema_error c j = None) →
  Hashed.NewShardsOn driver c
  = Hashed.Fails ("error generating writer for shard " ++ Path.itoa k ++ ": " ++ err).
Proof.
  intros Hk Herr Hbefore. unfold Hashed.NewShardsOn.
  apply (shardsFromOn_refused _ _ 0 k); [lia|done|].
  intros j Hj. apply Hbefore. lia.
Qed.

Lemma NewShards_driver_refuses_witness :
  1 <= 1 <= Hashed.TotalShards (Hashed.mkConfig "./a?x;y/" 2 None)
  ∧ refuses_semicolon (hashed_dsn (Hashed.mkConfig "./a?x;y/" 2 None) 1)
    = Some "invalid semicolon separator in query"%string
  ∧ (∀ j, 1 <= j < 1 →
          refuses_semicolon (hashed_dsn (Hashed.mkConfig "./a?x;y/" 2 None) j) = None
          ∧ schema_error (Hashed.mkConfig "./a?x;y/" 2 None) j = None)
  ∧ Hashed.NewShardsOn refuses_semicolon (Hashed.mkConfig "./a?x;y/" 2 None)
    = Hashed.Fails ("error generating writer for shard " ++ Path.itoa 1 ++ ": "
                    ++ "invalid semicolon separator in query").
Proof.
  assert (1 <= 1 <= Hashed.TotalShards (Hashed.mkConfig "./a?x;y/" 2 None)) as Hk
    by (simpl; lia).
  assert (refuses_semicolon (hashed_dsn (Hashed.mkConfig "./a?x;y/" 2 None) 1)
          = Some "invalid semicolon separator in query"%string) as Herr
    by (vm_compute; reflexivity).
  assert (∀ j, 1 <= j < 1 →
               refuses_semicolon (hashed_dsn (Hashed.mkConfig "./a?x;y/" 2 None) j) = None
               ∧ schema_error (Hashed.mkConfig "./a?x;y/" 2 None) j = None) as Hbefore
    by (intros j Hj; lia).
  split; [exact Hk|]. split; [exact Herr|]. split; [exact Hbefore|].
  exact (NewShards_driver_refuses refuses_semicolon _ 1 _ Hk Herr Hbefore).
Defined.

(** X20: for every driver and callback, [NewLitebeam] accepts a [TotalShards]
    that is zero or negative whenever [BasePath] is not empty, and returns
    a [Litebeam] with no shard at all.  On it [AssignToShard] panics when
    [TotalShards] is zero (a modulus by zero) and, when [TotalShards] is
    negative, returns a shard number although [Shards] holds none. *)
Theorem AssignToShard_without_shards (Sum256 : string → list Byte.byte)
        (driver : string → option string) (c : Hashed.Config) (base : string) :
  hash_of_32_bytes Sum256 →
  Hashed.BasePath c ≠ ""%string →
  Hashed.TotalShards c <= 0 →
  ∃ l, Hashed.NewLitebeamOn driver c = Hashed.Returns l
       ∧ Hashed.Shards l = ∅
       ∧ Hashed.TotalShards (Hashed.LConfig l) = Hashed.TotalShards c
       ∧ (Hashed.TotalShards c = 0 →
          Hashed.AssignToShard Sum256 l base = Hashed.Panics)
       ∧ (Hashed.TotalShards c < 0 →
          ∃ k, Hashed.AssignToShard Sum256 l base = Hashed.Returns k
               ∧ Hashed.Shards l !! k = None).
Proof.
  intros H32 Hbase Hts. unfold Hashed.NewLitebeamOn.
  destruct (Hashed.validateConfig c) as [conf| |] eqn:Hval.
  - destruct (validateConfig_Returns c conf Hval) as (_ & Heq).
    unfold Hashed.NewShardsOn. rewrite Heq.
    replace (Z.to_nat (Hashed.TotalShards c)) with 0%nat by lia.
    cbn [Hashed.shardsFromOn].
    exists (Hashed.mkLitebeam conf ∅). split; [done|]. split; [done|].
    split; [done|]. unfold Hashed.AssignToShard. cbn [Hashed.LConfig Hashed.Shards].
    rewrite SetString16_Encode by (by apply hash_not_empty). rewrite Heq. split.
    + intros ->. done.
    + intros Hneg. destruct (Z.eqb_spec (Hashed.TotalShards c) 0) as [|_]; [lia|].
      by eexists.
  - exfalso. revert Hval. unfold Hashed.validateConfig.
    destruct (Hashed.last_byte (Hashed.BasePath c)); [|done].
    by destruct (negb _).
  - exfalso. revert Hval. unfold Hashed.validateConfig.
    destruct (Hashed.last_byte (Hashed.BasePath c)) eqn:Hlast;
      [by destruct (negb _)|].
    by apply last_byte_None in Hlast.
Qed.

Lemma AssignToShard_without_shards_witness :
  hash_of_32_bytes sample_hash
  ∧ Hashed.BasePath (Hashed.mkConfig "./tests" (-3) None) ≠ ""%string
  ∧ Hashed.TotalShards (Hashed.mkConfig "./tests" (-3) None) <= 0
  ∧ ∃ l, Hashed.NewLitebeamOn refuses_every_name (Hashed.mkConfig "./tests" (-3) None)
         = Hashed.Returns l
         ∧ Hashed.Shards l = ∅
         ∧ Hashed.TotalShards (Hashed.LConfig l)
           = Hashed.TotalShards (Hashed.mkConfig "./tests" (-3) None)
         ∧ (Hashed.TotalShards (Hashed.mkConfig "./tests" (-3) None) = 0 →
            Hashed.AssignToShard sample_hash l "abc" = Hashed.Panics)
         ∧ (Hashed.TotalShards (Hashed.mkConfig "./tests" (-3) None) < 0 →
            ∃ k, Hashed.AssignToShard sample_hash l "abc" = Hashed.Returns k
                 ∧ Hashed.Shards l !! k = None).
Proof.
  assert (Hashed.BasePath (Hashed.mkConfig "./tests" (-3) None) ≠ ""%string) as Hbase
    by discriminate.
  assert (Hashed.TotalShards (Hashed.mkConfig "./tests" (-3) None) <= 0) as Hts
    by (simpl; lia).
  split; [exact sample_hash_32|]. split; [exact Hbase|]. split; [exact Hts|].
  exact (AssignToShard_without_shards sample_hash refuses_every_name _ "abc"
           sample_hash_32 Hbase Hts).
Defined.

(** No shard asked for: the [Litebeam] is returned and every assignment
    panics. *)
Example zero_TotalShards_panics :
  Hashed.NewLitebeamOn refuses_every_name (Hashed.mkConfig "./tests/" 0 None)
  = Hashed.Returns (Hashed.mkLitebeam (Hashed.mkConfig "./tests/" 0 None) ∅)
  ∧ Hashed.AssignToShard sample_hash
      (Hashed.mkLitebeam (Hashed.mkConfig "./tests/" 0 None) ∅) "abc"
    = Hashed.Panics.
Proof. split; by vm_compute. Qed.
